(** * Proppadia: stat resolution and feature derivation, verified against the
    JavaScript sources.

    The development is a shallow embedding of the functions of the
    repository that grade player props and derive rolling features:

    - [extractStatForPropType], [getRollingAverage], [determineStatus]
      (backend/scripts/shared/propUtilsBackend.js),
    - [derivePropValue] (backend/scripts/resolution/derivePropValue.js),
    - [didPlayerParticipate], [flattenPlayerBoxscore]
      (backend/scripts/shared/playerUtilsBackend.js),
    - [extractStatFromPlays], [getStatFromLiveFeed], [resolveStatForPlayer]
      (the resolution chain),
    - [getDerivedStats] (backend/scripts/shared/getDerivedStats.js),
    - the two [computeStreaks] (runStreakBackfillFromTraining.js and
      generatePlayerStreakProfiles.js),
    - [computeBvpStats] and the pairing and payload of [processGame]
      (backend/scripts/generateBvpStats.js), with [setIfMissing]
      (src/shared/objectUtils.js),
    - [getPlayerStatsFromBoxscore], [getStreaksForPlayer]
      (backend/scripts/shared/playerUtilsBackend.js),
    - [updatePropStatus], [updatePropsBatch]
      (backend/scripts/resolution/updatePropResults.js),
    - [determineOutcome] of the front end (src/shared/propUtils.js).

    Conventions of the embedding:

    - JavaScript values are an inductive type; numbers are IEEE binary64
      (primitive floats), so that [NaN], the infinities, rounding and
      overflow behave as they do in the engine; [Number(s)] and [String(x)]
      are the conversions of ECMA-262, defined here.  They throw on an
      object with an own [toString] property: [Conversion.convertible]
      tells the values on which they return.
    - A function that can throw returns an [outcome]; [await] of a request is
      the data or the failure the request produced, given as an argument.
    - Strings are sequences of code units below 256.
    - A [Date] is its time value; rows that carry a date carry the time value
      of [new Date(...)] of it.
    - Counters that only count rows or plays (streaks, plate appearances)
      and the identifiers of a play are integers.  The event type and the
      runs batted in of a play are any value; the total of the runs is the
      accumulator of [+=], a binary64 or a string. *)

From Stdlib Require Import ZArith List String Ascii Bool Floats Lia Permutation.
Import ListNotations.

Local Open Scope string_scope.
Local Open Scope Z_scope.

(* ================================================================== *)
(** * Numbers: the conversions between strings and binary64 *)
(* ================================================================== *)

Module JsNumber.

(** [z] as a binary64, rounded to nearest, ties to even. *)
Definition of_Z (z : Z) : float :=
  SF2Prim (binary_normalize prec emax z 0 false).

(** The binary64 nearest to [m * 10^e] for [m > 0] (ties to even).  For a
    negative exponent the quotient is computed with at least 64 significant
    bits and a sticky bit, which is enough for a correctly rounded result. *)
Definition of_decimal (m e : Z) : float :=
  if m <=? 0 then PrimFloat.zero
  else if 0 <=? e then of_Z (m * 10 ^ e)
  else
    let d := 10 ^ (- e) in
    let s := Z.max 0 (66 + Z.log2 d - Z.log2 m) in
    let n := m * 2 ^ s in
    let q := n / d in
    let r := n mod d in
    let sticky := if r =? 0 then 0 else 1 in
    SF2Prim (binary_normalize prec emax (2 * q + sticky) (- s - 1) false).

(** ** StringToNumber (ECMA-262, 7.1.4.1.1)

    Strings are sequences of code units below 256; the white space of
    StrWhiteSpaceChar in that range is TAB, LF, VT, FF, CR, SP and NBSP. *)

Definition is_white (c : ascii) : bool :=
  let n := nat_of_ascii c in
  (Nat.eqb n 9 || Nat.eqb n 10 || Nat.eqb n 11 || Nat.eqb n 12 || Nat.eqb n 13
   || Nat.eqb n 32 || Nat.eqb n 160)%bool.

Fixpoint trim_left (s : string) : string :=
  match s with
  | String c s' => if is_white c then trim_left s' else s
  | EmptyString => EmptyString
  end.

Fixpoint rev_string (acc s : string) : string :=
  match s with
  | EmptyString => acc
  | String c s' => rev_string (String c acc) s'
  end.

Definition trim (s : string) : string :=
  rev_string "" (trim_left (rev_string "" (trim_left s))).

(** The value of a digit in a radix up to 16. *)
Definition digit_value (c : ascii) : option Z :=
  let n := Z.of_nat (nat_of_ascii c) in
  if (48 <=? n) && (n <=? 57) then Some (n - 48)
  else if (97 <=? n) && (n <=? 102) then Some (n - 87)
  else if (65 <=? n) && (n <=? 70) then Some (n - 55)
  else None.

(** Reads the longest prefix of digits of the radix: the value read so far,
    the number of digits, and the rest. *)
Fixpoint read_digits (radix acc cnt : Z) (s : string) : Z * Z * string :=
  match s with
  | String c s' =>
      match digit_value c with
      | Some d => if d <? radix then read_digits radix (acc * radix + d) (cnt + 1) s'
                  else (acc, cnt, s)
      | None => (acc, cnt, s)
      end
  | EmptyString => (acc, cnt, s)
  end.

(** A whole string of one or more digits of the radix. *)
Definition all_digits (radix : Z) (s : string) : option Z :=
  match read_digits radix 0 0 s with
  | (v, cnt, EmptyString) => if 0 <? cnt then Some v else None
  | _ => None
  end.

Definition read_sign (s : string) : bool * string :=
  match s with
  | String "-" s' => (true, s')
  | String "+" s' => (false, s')
  | _ => (false, s)
  end.

(** The exponent part, if any: [e], an optional sign and one or more digits,
    up to the end of the string. *)
Definition read_exponent (s : string) : option Z :=
  match s with
  | EmptyString => Some 0
  | String c s' =>
      if (Ascii.eqb c "e" || Ascii.eqb c "E")%bool then
        let (neg, s'') := read_sign s' in
        match all_digits 10 s'' with
        | Some v => Some (if neg then - v else v)
        | None => None
        end
      else None
  end.

(** StrUnsignedDecimalLiteral without [Infinity]: the mantissa as an integer
    and the decimal exponent. *)
Definition read_decimal (s : string) : option (Z * Z) :=
  let '(ip, icnt, s1) := read_digits 10 0 0 s in
  let '(m, fcnt, s2) :=
    match s1 with
    | String "." s1' => read_digits 10 ip 0 s1'
    | _ => (ip, 0, s1)
    end in
  if (icnt + fcnt =? 0) then None
  else match read_exponent s2 with
       | Some e => Some (m, e - fcnt)
       | None => None
       end.

Definition signed (neg : bool) (x : float) : float :=
  if neg then PrimFloat.opp x else x.

Definition StringToNumber (str : string) : float :=
  let s := trim str in
  match s with
  | EmptyString => PrimFloat.zero
  | String "0" (String c s') =>
      let prefixed (radix : Z) :=
        match all_digits radix s' with
        | Some v => of_Z v
        | None => nan
        end in
      if (Ascii.eqb c "x" || Ascii.eqb c "X")%bool then prefixed 16
      else if (Ascii.eqb c "o" || Ascii.eqb c "O")%bool then prefixed 8
      else if (Ascii.eqb c "b" || Ascii.eqb c "B")%bool then prefixed 2
      else match read_decimal s with
           | Some (m, e) => of_decimal m e
           | None => nan
           end
  | _ =>
      let (neg, u) := read_sign s in
      if String.eqb u "Infinity" then signed neg infinity
      else match read_decimal u with
           | Some (m, e) => signed neg (of_decimal m e)
           | None => nan
           end
  end.

(** ** Number::toString (ECMA-262, 6.1.6.1.20), radix 10 *)

Fixpoint digits_fuel (fuel : nat) (z : Z) (acc : string) : string :=
  match fuel with
  | O => acc
  | S f =>
      let acc' := String (ascii_of_nat (Z.to_nat (48 + z mod 10))) acc in
      if z <? 10 then acc' else digits_fuel f (z / 10) acc'
  end.

(** The decimal digits of a natural number. *)
Definition decimal_digits (z : Z) : string :=
  digits_fuel (S (Z.to_nat (Z.log2 z))) z "".

Definition ndigits (z : Z) : Z := Z.of_nat (String.length (decimal_digits z)).

Fixpoint zeros (n : nat) : string :=
  match n with
  | O => ""
  | S n' => String "0" (zeros n')
  end.

(** The least [j >= 1] with [num * 10^j >= den], for [0 < num < den]. *)
Fixpoint neg_exp (fuel : nat) (num den j : Z) : Z :=
  match fuel with
  | O => j
  | S f => if den <=? num * 10 ^ j then j else neg_exp f num den (j + 1)
  end.

(** [n] with [10^(n-1) <= num/den < 10^n]. *)
Definition decimal_exponent (num den : Z) : Z :=
  if den <=? num then ndigits (num / den)
  else 1 - neg_exp 400 num den 1.

(** Step 5 of Number::toString for [x = num/den > 0]: the shortest digit
    string [s] of [k] digits and the exponent [n] such that [s * 10^(n-k)]
    rounds to [x]; among several the closest to [x], and the even one on a
    tie.  [k] runs from [k] to 17. *)
Fixpoint shortest (fuel : nat) (x : float) (num den n k : Z) : Z * Z * Z :=
  let a := if n <=? k then num * 10 ^ (k - n) else num in
  let b := if n <=? k then den else den * 10 ^ (n - k) in
  let lo := a / b in
  let r := a mod b in
  let hi := lo + 1 in
  let ok_lo := PrimFloat.eqb (of_decimal lo (n - k)) x in
  let ok_hi := PrimFloat.eqb (of_decimal hi (n - k)) x in
  let take_hi :=
    if hi =? 10 ^ k then (10 ^ (k - 1), k, n + 1) else (hi, k, n) in
  let take_lo := (lo, k, n) in
  match fuel with
  | O => take_lo
  | S f =>
      match ok_lo, ok_hi with
      | true, true =>
          match 2 * r ?= b with
          | Lt => take_lo
          | Gt => take_hi
          | Eq => if Z.even lo then take_lo else take_hi
          end
      | true, false => take_lo
      | false, true => take_hi
      | false, false => shortest f x num den n (k + 1)
      end
  end.

Definition substring_from (n : nat) (s : string) : string :=
  String.substring n (String.length s - n) s.

Definition format_digits (ds : string) (k n : Z) : string :=
  if (k <=? n) && (n <=? 21) then ds ++ zeros (Z.to_nat (n - k))
  else if (0 <? n) && (n <=? 21) then
    String.substring 0 (Z.to_nat n) ds ++ "." ++ substring_from (Z.to_nat n) ds
  else if (-6 <? n) && (n <=? 0) then "0." ++ zeros (Z.to_nat (- n)) ++ ds
  else
    let e := n - 1 in
    let es := (if e <? 0 then "-" else "+") ++ decimal_digits (Z.abs e) in
    if k =? 1 then ds ++ "e" ++ es
    else String.substring 0 1 ds ++ "." ++ substring_from 1 ds ++ "e" ++ es.

Definition NumberToString (x : float) : string :=
  match Prim2SF x with
  | S754_nan => "NaN"
  | S754_zero _ => "0"
  | S754_infinity neg => if neg then "-Infinity" else "Infinity"
  | S754_finite neg m e =>
      let num := if 0 <=? e then Zpos m * 2 ^ e else Zpos m in
      let den := if 0 <=? e then 1 else 2 ^ (- e) in
      let n0 := decimal_exponent num den in
      let '(s, k, n) := shortest 17 (PrimFloat.abs x) num den n0 1 in
      (if neg then "-" else "") ++ format_digits (decimal_digits s) k n
  end.

End JsNumber.

(* ================================================================== *)
(** * JavaScript values *)
(* ================================================================== *)

(** The values the program handles are those of JSON documents (the feeds
    of the statistics provider, rows of the data store) and [undefined].
    An object is the list of its own enumerable properties in insertion
    order.  Objects are plain: none has an own property named [toString],
    which would make its conversion to a primitive throw. *)
Inductive value : Type :=
| VUndefined
| VNull
| VBool (b : bool)
| VNum (x : float)
| VStr (s : string)
| VArr (xs : list value)
| VObj (fields : list (string * value)).

(** The result of running a piece of code: a value, or a thrown exception
    (every exception the modelled code can raise is a [TypeError]; no handler
    inspects it). *)
Inductive outcome (A : Type) : Type :=
| Ret (a : A)
| Throw.
Arguments Ret {A} a.
Arguments Throw {A}.

Definition bind {A B} (m : outcome A) (k : A -> outcome B) : outcome B :=
  match m with
  | Ret a => k a
  | Throw => Throw
  end.

Notation "x <- m ;; k" := (bind m (fun x => k))
  (at level 61, m at next level, right associativity).
Notation "' pat <- m ;; k" := (bind m (fun x => match x with pat => k end))
  (at level 61, pat pattern, m at next level, right associativity).

(** [try { body } catch { handler }]. *)
Definition try_catch {A} (body : outcome A) (handler : outcome A) : outcome A :=
  match body with
  | Ret a => Ret a
  | Throw => handler
  end.

Module Js.

Import JsNumber.

Definition typeof (v : value) : string :=
  match v with
  | VUndefined => "undefined"
  | VNull => "object"
  | VBool _ => "boolean"
  | VNum _ => "number"
  | VStr _ => "string"
  | VArr _ => "object"
  | VObj _ => "object"
  end.

Definition is_number (v : value) : bool :=
  match v with VNum _ => true | _ => false end.

(** [v == null]. *)
Definition nullish (v : value) : bool :=
  match v with VUndefined | VNull => true | _ => false end.

(** ToBoolean. *)
Definition truthy (v : value) : bool :=
  match v with
  | VUndefined | VNull => false
  | VBool b => b
  | VNum x => negb (PrimFloat.eqb x 0 || PrimFloat.is_nan x)
  | VStr s => negb (String.eqb s "")
  | VArr _ | VObj _ => true
  end.

(** [a || b] and [a ?? b] on operands that are already evaluated; where the
    right operand can throw, the code below branches on [truthy] and
    [nullish] itself. *)
Definition or_else (a b : value) : value := if truthy a then a else b.
Definition coalesce (a b : value) : value := if nullish a then b else a.

Fixpoint lookup (k : string) (fs : list (string * value)) : value :=
  match fs with
  | [] => VUndefined
  | (k', v) :: fs' => if String.eqb k k' then v else lookup k fs'
  end.

(** [fs] with property [k] set to [v]: an existing property keeps its place,
    a new one goes last. *)
Fixpoint assign (k : string) (v : value) (fs : list (string * value))
  : list (string * value) :=
  match fs with
  | [] => [(k, v)]
  | (k', v') :: fs' =>
      if String.eqb k k' then (k, v) :: fs' else (k', v') :: assign k v fs'
  end.

Definition string_of_nat (n : nat) : string := decimal_digits (Z.of_nat n).

Fixpoint indexed {A} (i : nat) (xs : list A) : list (string * A) :=
  match xs with
  | [] => []
  | x :: xs' => (string_of_nat i, x) :: indexed (S i) xs'
  end.

Fixpoint chars (s : string) : list value :=
  match s with
  | EmptyString => []
  | String c s' => VStr (String c EmptyString) :: chars s'
  end.

(** The own enumerable string-keyed properties of a value that is not
    [null] or [undefined]: the fields of an object, the elements of an array
    and the code units of a string under their indices.  (For an object, the
    engine lists integer-like keys first; the code never depends on the
    order.) *)
Definition own_entries (v : value) : list (string * value) :=
  match v with
  | VObj fs => fs
  | VArr xs => indexed 0 xs
  | VStr s => indexed 0 (chars s)
  | _ => []
  end.

Definition float_of_nat (n : nat) : float := of_Z (Z.of_nat n).

(** [v[k]] for [v] other than [null] and [undefined], and for a key [k] that
    no built-in prototype defines (all keys the code reads are such names:
    [batting], [hits], [stats], ...). *)
Definition get_own (v : value) (k : string) : value :=
  match v with
  | VArr xs =>
      if String.eqb k "length" then VNum (float_of_nat (List.length xs))
      else lookup k (own_entries v)
  | VStr s =>
      if String.eqb k "length" then VNum (float_of_nat (String.length s))
      else lookup k (own_entries v)
  | _ => lookup k (own_entries v)
  end.

(** [v.k]: a [TypeError] on [null] and [undefined]. *)
Definition get (v : value) (k : string) : outcome value :=
  if nullish v then Throw else Ret (get_own v k).

(** [v?.k]. *)
Definition get_opt (v : value) (k : string) : value :=
  if nullish v then VUndefined else get_own v k.

Fixpoint join_with (sep : string) (ss : list string) : string :=
  match ss with
  | [] => ""
  | [s] => s
  | s :: ss' => s ++ sep ++ join_with sep ss'
  end.

(** ToString of a value whose conversion returns; on the others, the
    objects with an own [toString] property and the arrays that hold one,
    the engine throws ([Conversion.convertible] below tells them apart).
    An array is joined with commas, [null] and [undefined] elements as the
    empty string; a plain object is ["[object Object]"]. *)
Fixpoint ToString (v : value) : string :=
  match v with
  | VUndefined => "undefined"
  | VNull => "null"
  | VBool true => "true"
  | VBool false => "false"
  | VNum x => NumberToString x
  | VStr s => s
  | VArr xs =>
      join_with ","
        (List.map (fun x => if nullish x then "" else ToString x) xs)
  | VObj _ => "[object Object]"
  end.

(** ToNumber of a value whose conversion returns; arrays and objects go
    through ToPrimitive, which yields their string. *)
Definition ToNumber (v : value) : float :=
  match v with
  | VUndefined => nan
  | VNull => 0
  | VBool true => 1
  | VBool false => 0
  | VNum x => x
  | VStr s => StringToNumber s
  | VArr _ | VObj _ => StringToNumber (ToString v)
  end.

(** ToPrimitive with no hint, for the operands of [+], of a value whose
    conversion returns. *)
Definition ToPrimitive (v : value) : value :=
  match v with
  | VArr _ | VObj _ => VStr (ToString v)
  | _ => v
  end.

(** [a + b]. *)
Definition add (a b : value) : value :=
  let pa := ToPrimitive a in
  let pb := ToPrimitive b in
  match pa, pb with
  | VStr _, _ | _, VStr _ => VStr (ToString pa ++ ToString pb)
  | _, _ => VNum (ToNumber pa + ToNumber pb)%float
  end.

(** [a - b]. *)
Definition sub (a b : value) : value := VNum (ToNumber a - ToNumber b)%float.

(** [a > 0] for any value [a] (the right operand is the number 0, so the
    comparison is numeric). *)
Definition gt_zero (a : value) : bool := PrimFloat.ltb 0 (ToNumber a).

(** [a === b].  Arrays and objects are compared by identity, which the value
    model does not carry: two of them are never reported equal.  The code
    uses [===] on identifiers, event names and prop types only. *)
Definition strict_eq (a b : value) : bool :=
  match a, b with
  | VUndefined, VUndefined => true
  | VNull, VNull => true
  | VBool x, VBool y => Bool.eqb x y
  | VNum x, VNum y => PrimFloat.eqb x y
  | VStr x, VStr y => String.eqb x y
  | _, _ => false
  end.

(** [Number.isFinite(v)]: no coercion. *)
Definition Number_isFinite (v : value) : bool :=
  match v with
  | VNum x => PrimFloat.is_finite x
  | _ => false
  end.

(** [Object.values(v)]: a [TypeError] on [null] and [undefined]. *)
Definition Object_values (v : value) : outcome (list value) :=
  if nullish v then Throw else Ret (List.map snd (own_entries v)).

Definition Object_keys (v : value) : outcome (list string) :=
  if nullish v then Throw else Ret (List.map fst (own_entries v)).

End Js.

Module Conversion.

Import JsNumber Js.

(** ToPrimitive of an object calls its [valueOf] and its [toString], and
    throws a [TypeError] when neither returns a primitive.  In a value
    decoded from JSON a property is data, never a function: an object with
    an own [toString] property has no method left that returns a primitive
    (the [valueOf] it inherits returns the object itself), so that
    [Number(x)], [String(x)], a template literal and [acc + x] throw on
    it; an own [valueOf] property alone hides a method that returned no
    primitive anyway.  An array is converted through [join], which converts
    every element other than [null] and [undefined].  [convertible v] tells
    that the conversion of [v] returns; [Js.ToNumber], [Js.ToString] and
    [Js.ToPrimitive] are its results then. *)
Fixpoint convertible (v : value) : bool :=
  match v with
  | VObj fs => negb (existsb (fun kv => String.eqb (fst kv) "toString") fs)
  | VArr xs => forallb (fun x => nullish x || convertible x) xs
  | _ => true
  end.

(** No object anywhere in the value has an own [toString] property: every
    value reached from it is convertible. *)
Fixpoint plain (v : value) : bool :=
  match v with
  | VObj fs =>
      negb (existsb (fun kv => String.eqb (fst kv) "toString") fs)
      && forallb (fun kv => plain (snd kv)) fs
  | VArr xs => forallb plain xs
  | _ => true
  end.

End Conversion.

(* ================================================================== *)
(** * backend/scripts/shared/propUtilsBackend.js *)
(* ================================================================== *)

Module PropUtils.

Import JsNumber Js.

Definition VALID_PROP_TYPES : list string :=
  [ "hits"; "strikeouts_batting"; "home_runs"; "rbis"; "runs"; "total_bases";
    "walks"; "stolen_bases"; "strikeouts_pitching"; "outs_recorded";
    "earned_runs"; "hits_allowed"; "walks_allowed"; "pitching_outs";
    "pitch_count"; "runs_allowed"; "singles"; "doubles"; "triples" ].

(** [s.split(".")]. *)
Fixpoint split_dot (cur : string) (s : string) : list string :=
  match s with
  | EmptyString => [rev_string "" cur]
  | String c s' =>
      if Ascii.eqb c "." then rev_string "" cur :: split_dot "" s'
      else split_dot (String c cur) s'
  end.

(** Innings pitched such as "5.2" to outs: [5*3 + 2 = 17]. *)
Definition ipToOuts (ip : value) : value :=
  if nullish ip then VNull
  else
    let s := ToString ip in
    let parts := split_dot "" s in
    let w := match parts with w :: _ => w | [] => "" end in
    let f := match parts with _ :: f :: _ => f | _ => "0" end in
    let whole := StringToNumber w in
    if PrimFloat.is_nan whole then VNull
    else
      let frac : float :=
        (if String.eqb f "1" then 1 else if String.eqb f "2" then 2 else 0)%float
      in
      VNum (whole * 3 + frac)%float.

Definition num (x : value) : value :=
  if nullish x then VNull
  else
    let n := ToNumber x in
    if PrimFloat.is_finite n then VNum n else VNull.

(** [o.k1 ?? o.k2 ?? ...]: the first of the properties that is neither
    [null] nor [undefined], else the last one read. *)
Fixpoint first_of (o : value) (keys : list string) : outcome value :=
  match keys with
  | [] => Ret VUndefined
  | [k] => get o k
  | k :: ks => v <- get o k ;; if nullish v then first_of o ks else Ret v
  end.

(** [switch] compares with [===]. *)
Definition is_case (propType : value) (label : string) : bool :=
  strict_eq propType (VStr label).

(** [num(x) ?? 0]. *)
Definition num_or_zero (x : value) : float :=
  match coalesce (num x) (VNum 0%float) with
  | VNum n => n
  | _ => 0%float
  end.

Definition extractStatForPropType (stats propType : value) : outcome value :=
  if negb (truthy stats) || negb (String.eqb (typeof stats) "object")
  then Ret VNull
  else
    batting <- get stats "batting" ;;
    hitting <- get stats "hitting" ;;
    pitching <- get stats "pitching" ;;
    let b := or_else (or_else batting hitting) stats in
    let p := or_else pitching stats in
    if is_case propType "hits" then
      v <- get b "hits" ;; Ret (num v)
    else if is_case propType "strikeouts_batting" then
      v <- first_of b ["strikeOuts"; "strikeouts"; "strikeouts_batting"] ;;
      Ret (num v)
    else if is_case propType "home_runs" then
      v <- first_of b ["homeRuns"; "home_runs"] ;; Ret (num v)
    else if is_case propType "rbis" then
      v <- first_of b ["rbi"; "rbis"] ;; Ret (num v)
    else if is_case propType "runs" || is_case propType "runs_scored" then
      v <- get b "runs" ;; Ret (num v)
    else if is_case propType "walks" then
      v <- first_of b ["baseOnBalls"; "walks"] ;; Ret (num v)
    else if is_case propType "stolen_bases" then
      v <- first_of b ["stolenBases"; "stolen_bases"] ;; Ret (num v)
    else if is_case propType "doubles" then
      v <- get b "doubles" ;; Ret (num v)
    else if is_case propType "triples" then
      v <- get b "triples" ;; Ret (num v)
    else if is_case propType "total_bases" then
      v <- first_of b ["totalBases"; "total_bases"] ;; Ret (num v)
    else if is_case propType "singles" then
      h <- get b "hits" ;;
      d <- get b "doubles" ;;
      t <- get b "triples" ;;
      hr <- first_of b ["homeRuns"; "home_runs"] ;;
      let sgl :=
        (num_or_zero h - num_or_zero d - num_or_zero t - num_or_zero hr)%float in
      Ret (if PrimFloat.is_finite sgl then VNum sgl else VNull)
    else if is_case propType "hits_runs_rbis" then
      h <- get b "hits" ;;
      r <- get b "runs" ;;
      i <- first_of b ["rbi"; "rbis"] ;;
      Ret (VNum (num_or_zero h + num_or_zero r + num_or_zero i)%float)
    else if is_case propType "runs_rbis" then
      r <- get b "runs" ;;
      i <- first_of b ["rbi"; "rbis"] ;;
      Ret (VNum (num_or_zero r + num_or_zero i)%float)
    else if is_case propType "strikeouts_pitching" then
      v <- first_of p ["strikeOuts"; "strikeouts"; "strikeouts_pitching"] ;;
      Ret (num v)
    else if is_case propType "outs_recorded" || is_case propType "pitching_outs"
    then
      o <- get p "outs" ;;
      if nullish (num o) then ip <- get p "inningsPitched" ;; Ret (ipToOuts ip)
      else Ret (num o)
    else if is_case propType "earned_runs" then
      v <- first_of p ["earnedRuns"; "earned_runs"] ;; Ret (num v)
    else if is_case propType "hits_allowed" then
      v <- first_of p ["hits"; "hits_allowed"] ;; Ret (num v)
    else if is_case propType "walks_allowed" then
      v <- first_of p ["baseOnBalls"; "walks_allowed"; "walks"] ;; Ret (num v)
    else if is_case propType "pitch_count" then
      v <- first_of p ["numberOfPitches"; "pitchesThrown"; "pitches"] ;;
      Ret (num v)
    else if is_case propType "runs_allowed" then
      v <- get p "runs" ;; Ret (num v)
    else Ret VNull.

(** ToIntegerOrInfinity of a finite number: truncation towards zero. *)
Definition truncate (x : float) : Z :=
  match Prim2SF x with
  | S754_finite neg m e =>
      let a := if 0 <=? e then Zpos m * 2 ^ e else Zpos m / 2 ^ (- e) in
      if neg then - a else a
  | _ => 0
  end.

(** The exclusive upper index of [array.slice(0, end)] for an array of
    [len] elements. *)
Definition slice_end (len : nat) (end_ : value) : nat :=
  match end_ with
  | VUndefined => len
  | _ =>
      let x := ToNumber end_ in
      if PrimFloat.is_nan x then O
      else if PrimFloat.is_infinity x then
        (if PrimFloat.ltb 0 x then len else O)
      else
        let k := truncate x in
        if k <? 0 then Z.to_nat (Z.max (Z.of_nat len + k) 0)
        else Nat.min (Z.to_nat k) len
  end.

(** [xs.map(f)] for a callback that can throw. *)
Fixpoint map_outcome {A B} (f : A -> outcome B) (xs : list A)
  : outcome (list B) :=
  match xs with
  | [] => Ret []
  | x :: xs' => y <- f x ;; ys <- map_outcome f xs' ;; Ret (y :: ys)
  end.

Definition numbers_of (vs : list value) : list float :=
  flat_map (fun v => match v with VNum x => [x] | _ => [] end) vs.

(** Rolling average over recent games. *)
Definition getRollingAverage (history propType windowSize : value)
  : outcome value :=
  match history with
  | VArr games =>
      if negb (truthy propType) then Ret VNull
      else
        let recent := firstn (slice_end (List.length games) windowSize) games in
        extracted <-
          map_outcome
            (fun game => extractStatForPropType (get_opt game "stats") propType)
            recent ;;
        let values := numbers_of extracted in
        match values with
        | [] => Ret VNull
        | _ =>
            let sum := fold_left PrimFloat.add values 0%float in
            Ret (VNum (sum / float_of_nat (List.length values))%float)
        end
  | _ => Ret VNull
  end.

(** [String.prototype.toLowerCase] on code units below 256. *)
Definition lower_char (c : ascii) : ascii :=
  let n := nat_of_ascii c in
  if ((65 <=? n) && (n <=? 90) || (192 <=? n) && (n <=? 214)
      || (216 <=? n) && (n <=? 222))%nat%bool
  then ascii_of_nat (n + 32) else c.

Fixpoint toLowerCase (s : string) : string :=
  match s with
  | EmptyString => EmptyString
  | String c s' => String (lower_char c) (toLowerCase s')
  end.

(** [.replace(/[()]/g, "")]. *)
Fixpoint strip_parens (s : string) : string :=
  match s with
  | EmptyString => EmptyString
  | String c s' =>
      if (Ascii.eqb c "(" || Ascii.eqb c ")")%bool then strip_parens s'
      else String c (strip_parens s')
  end.

(** [.replace(/\s+/g, "_")]: every maximal run of white space becomes one
    underscore.  [in_run] tells that the previous character was white. *)
Fixpoint underscore_spaces (in_run : bool) (s : string) : string :=
  match s with
  | EmptyString => EmptyString
  | String c s' =>
      if is_white c then
        if in_run then underscore_spaces true s'
        else String "_" (underscore_spaces true s')
      else String c (underscore_spaces false s')
  end.

(** A [TypeError] when [label] has no [toLowerCase] method. *)
Definition normalizePropType (label : value) : outcome string :=
  match label with
  | VStr s => Ret (underscore_spaces false (strip_parens (toLowerCase s)))
  | _ => Throw
  end.

(** [v?.toLowerCase?.()]: a string is lower-cased; [null], [undefined] and
    values without that property give [undefined]; an object that carries a
    property of that name (which is data, not a function) cannot be called. *)
Definition toLowerCase_opt (v : value) : outcome value :=
  match v with
  | VStr s => Ret (VStr (toLowerCase s))
  | VObj fs => if nullish (lookup "toLowerCase" fs) then Ret VUndefined else Throw
  | _ => Ret VUndefined
  end.

Inductive status : Type := invalid | push | win | loss.

Definition determineStatus (actual line overUnder : value) : outcome status :=
  direction <- toLowerCase_opt overUnder ;;
  match actual, line with
  | VNum a, VNum l =>
      if negb (truthy direction) then Ret invalid
      else if PrimFloat.eqb a l then Ret push
      else
        let isWin :=
          (strict_eq direction (VStr "over") && PrimFloat.ltb l a)
          || (strict_eq direction (VStr "under") && PrimFloat.ltb a l) in
        Ret (if isWin then win else loss)
  | _, _ => Ret invalid
  end.

End PropUtils.

(* ================================================================== *)
(** * backend/scripts/shared/playerUtilsBackend.js *)
(* ================================================================== *)

Module PlayerUtils.

Import JsNumber Js PropUtils.

(** [Object.assign(target, source)] and the spread [{ ...source }] (with
    [target] empty): the own properties of [source], in order, set on
    [target].  Neither throws on [null] or [undefined]. *)
Definition Object_assign (target : list (string * value)) (source : value)
  : list (string * value) :=
  fold_left (fun acc kv => assign (fst kv) (snd kv) acc) (own_entries source)
    target.

(** [gameData?.teams?.[side]?.players || {}]. *)
Definition players_of (gameData : value) (side : string) : value :=
  or_else
    (get_opt (get_opt (get_opt gameData "teams") side) "players")
    (VObj []).

Definition has_person (pid : value) (p : value) : bool :=
  strict_eq (get_opt (get_opt p "person") "id") pid.

Definition getPlayerTeamFromBoxscoreData (player gameData : value) : value :=
  let homePlayers := players_of gameData "home" in
  let awayPlayers := players_of gameData "away" in
  let pid := get_opt (get_opt player "person") "id" in
  if existsb (has_person pid) (List.map snd (own_entries homePlayers))
  then VStr "home"
  else if existsb (has_person pid) (List.map snd (own_entries awayPlayers))
  then VStr "away"
  else VNull.

Definition getTeamAbbreviationFromBoxscore (player gameData : value) : value :=
  match getPlayerTeamFromBoxscoreData player gameData with
  | VStr side =>
      let team := get_opt (get_opt (get_opt gameData "teams") side) "team" in
      or_else (or_else (get_opt team "abbreviation") (get_opt team "triCode"))
        VNull
  | _ => VNull
  end.

Definition assign_if_truthy (source : value) (target : list (string * value))
  : list (string * value) :=
  if truthy source then Object_assign target source else target.

Definition flattenPlayerBoxscore (boxscore gameData : value) : value :=
  let stats := or_else (get_opt boxscore "stats") (VObj []) in
  let flattened := Object_assign [] stats in
  let flattened := assign_if_truthy (get_own stats "pitching") flattened in
  let flattened := assign_if_truthy (get_own stats "batting") flattened in
  let flattened := assign_if_truthy (get_own stats "fielding") flattened in
  let flattened := assign_if_truthy (get_own stats "running") flattened in
  let flattened :=
    assign "player_id" (get_opt (get_opt boxscore "person") "id") flattened in
  let flattened :=
    assign "team_abbr" (getTeamAbbreviationFromBoxscore boxscore gameData)
      flattened in
  VObj flattened.

(** What [fetch] returned for a document: [Throw] when the request or the
    decoding of the body failed, [Ret None] for a response that is not
    [ok], [Ret (Some data)] for the decoded body. *)
Definition response : Type := outcome (option value).

Fixpoint find_outcome (f : value -> outcome bool) (xs : list value)
  : outcome value :=
  match xs with
  | [] => Ret VUndefined
  | x :: xs' => b <- f x ;; if b then Ret x else find_outcome f xs'
  end.

Definition same_person (player_id : value) (p : value) : outcome bool :=
  person <- get p "person" ;;
  Ret (String.eqb (ToString (get_opt person "id")) (ToString player_id)).

Definition getPlayerStatsFromBoxscore (res : response) (player_id : value)
  : outcome value :=
  try_catch
    (r <- res ;;
     match r with
     | None => Ret VNull
     | Some data =>
         teams <- get data "teams" ;;
         let home := get_opt (get_opt teams "home") "players" in
         let away := get_opt (get_opt teams "away") "players" in
         let allPlayers := VObj (Object_assign (Object_assign [] home) away) in
         find_outcome (same_person player_id)
           (List.map snd (own_entries allPlayers))
     end)
    (Ret VNull).

(** [v] is a number and [v > 0]. *)
Definition positive_number (v : value) : bool :=
  match v with
  | VNum x => PrimFloat.ltb 0 x
  | _ => false
  end.

(** [block && Object.values(block).some((v) => typeof v === "number" && v > 0)]. *)
Definition has_positive (block : value) : outcome value :=
  if truthy block then
    vs <- Object_values block ;; Ret (VBool (existsb positive_number vs))
  else Ret block.

Definition didPlayerParticipate (stats : value) : outcome value :=
  if negb (truthy stats) || negb (String.eqb (typeof stats) "object")
  then Ret (VBool false)
  else
    b <- get stats "batting" ;;
    hasBattingStats <- has_positive b ;;
    p <- get stats "pitching" ;;
    hasPitchingStats <- has_positive p ;;
    Ret (or_else hasBattingStats hasPitchingStats).

End PlayerUtils.

(* ================================================================== *)
(** * The resolution chain *)
(* ================================================================== *)

Module Resolution.

Import JsNumber Js PropUtils PlayerUtils.

(** A destructuring default [= {}]: it applies to [undefined] only. *)
Definition default_empty (v : value) : value :=
  match v with
  | VUndefined => VObj []
  | _ => v
  end.

Definition typeof_number (v : value) : bool := String.eqb (typeof v) "number".

(** backend/scripts/resolution/derivePropValue.js *)
Definition derivePropValue (propType stats : value) : outcome value :=
  let src := or_else stats (VObj []) in
  let batting := default_empty (get_own src "batting") in
  let pitching := default_empty (get_own src "pitching") in
  if is_case propType "hits" then get batting "hits"
  else if is_case propType "runs" || is_case propType "runs_scored" then
    get batting "runs"
  else if is_case propType "rbis" then get batting "rbi"
  else if is_case propType "home_runs" then get batting "homeRuns"
  else if is_case propType "stolen_bases" then get batting "stolenBases"
  else if is_case propType "walks" then get batting "baseOnBalls"
  else if is_case propType "strikeouts_batting" then get batting "strikeOuts"
  else if is_case propType "total_bases" then get batting "totalBases"
  else if is_case propType "hits_runs_rbis" then
    let hasBattingInputs :=
      typeof_number (get_opt batting "hits")
      || typeof_number (get_opt batting "runs")
      || typeof_number (get_opt batting "rbi") in
    if negb hasBattingInputs then Ret VNull
    else
      let hits := coalesce (get_opt batting "hits") (VNum 0%float) in
      let runs := coalesce (get_opt batting "runs") (VNum 0%float) in
      let rbi := coalesce (get_opt batting "rbi") (VNum 0%float) in
      Ret (add (add hits runs) rbi)
  else if is_case propType "runs_rbis" then
    r <- get batting "runs" ;;
    i <- get batting "rbi" ;;
    Ret (add r i)
  else if is_case propType "singles" then
    h <- get batting "hits" ;;
    d <- get batting "doubles" ;;
    t <- get batting "triples" ;;
    hr <- get batting "homeRuns" ;;
    Ret (sub (sub (sub h d) t) hr)
  else if is_case propType "doubles" then get batting "doubles"
  else if is_case propType "triples" then get batting "triples"
  else if is_case propType "strikeouts_pitching" then get pitching "strikeOuts"
  else if is_case propType "walks_allowed" then get pitching "baseOnBalls"
  else if is_case propType "hits_allowed" then get pitching "hits"
  else if is_case propType "earned_runs" then get pitching "earnedRuns"
  else if is_case propType "outs_recorded" then get pitching "outs"
  else Ret VUndefined.

Definition any_number (o : value) (keys : list string) : outcome bool :=
  vs <- map_outcome (get o) keys ;; Ret (existsb typeof_number vs).

(** backend/scripts/resolution/statResolvers.js *)
Definition hasMeaningfulStats (stats : value) : outcome bool :=
  if negb (truthy stats) || negb (String.eqb (typeof stats) "object")
  then Ret false
  else
    let batting := default_empty (get_own stats "batting") in
    let pitching := default_empty (get_own stats "pitching") in
    hasBatting <-
      any_number batting
        ["hits"; "runs"; "rbi"; "totalBases"; "baseOnBalls"; "strikeOuts";
         "homeRuns"; "doubles"; "triples"; "stolenBases"] ;;
    hasPitching <-
      any_number pitching
        ["strikeOuts"; "baseOnBalls"; "hits"; "earnedRuns"; "outs"] ;;
    Ret (hasBatting || hasPitching).

(** ** backend/scripts/shared/extractStatFromPlays.js *)

(** The tally under construction: the [batting] and [pitching] objects. *)
Record tally : Type := mkTally {
  batting : list (string * value);
  pitching : list (string * value)
}.

(** [o.k = (o.k || 0) + by]. *)
Definition bump (k : string) (by_ : value) (o : list (string * value))
  : list (string * value) :=
  assign k (add (or_else (lookup k o) (VNum 0%float)) by_) o.

Definition one : value := VNum 1%float.

(** [xs.some(f)] for a callback that can throw: stops at the first hit. *)
Fixpoint some_outcome (f : value -> outcome bool) (xs : list value)
  : outcome bool :=
  match xs with
  | [] => Ret false
  | x :: xs' => b <- f x ;; if b then Ret true else some_outcome f xs'
  end.

(** [play.runners?.some(test)] as a condition: [undefined] (false) without
    runners, a [TypeError] when [runners] is not an array. *)
Definition runners_some (play : value) (test : value -> outcome bool)
  : outcome bool :=
  runners <- get play "runners" ;;
  match runners with
  | VUndefined | VNull => Ret false
  | VArr rs => some_outcome test rs
  | _ => Throw
  end.

Definition isScoringEvent (r : value) : outcome bool :=
  details <- get r "details" ;;
  Ret (truthy (get_opt details "isScoringEvent")).

Definition isStolenBase (r : value) : outcome bool :=
  details <- get r "details" ;;
  Ret (strict_eq (get_opt details "event") (VStr "stolen_base")).

Definition batting_event (play result : value) (b : list (string * value))
  : list (string * value) :=
  if is_case result "single" then bump "hits" one (bump "singles" one b)
  else if is_case result "double" then bump "hits" one (bump "doubles" one b)
  else if is_case result "triple" then bump "hits" one (bump "triples" one b)
  else if is_case result "home_run" then
    bump "rbis" (or_else (get_opt (get_own play "result") "rbi") one)
      (bump "hits" one (bump "home_runs" one b))
  else if is_case result "walk" || is_case result "intent_walk" then
    bump "base_on_balls" one b
  else if is_case result "strikeout" then bump "strikeouts" one b
  else if is_case result "hit_by_pitch" then bump "hit_by_pitch" one b
  else b.

Definition pitching_event (result : value) (p : list (string * value))
  : list (string * value) :=
  if is_case result "strikeout" then bump "strikeouts" one p
  else if is_case result "walk" || is_case result "intent_walk" then
    bump "walks_allowed" one p
  else if is_case result "hit_by_pitch" then bump "hit_batters" one p
  else if is_case result "single" || is_case result "double"
          || is_case result "triple" || is_case result "home_run" then
    bump "hits_allowed" one p
  else p.

(** The body of the loop over the plays. *)
Definition tally_play (playerId : value) (stats : tally) (play : value)
  : outcome tally :=
  matchup <- get play "matchup" ;;
  let batterId := get_opt (get_opt matchup "batter") "id" in
  let pitcherId := get_opt (get_opt matchup "pitcher") "id" in
  let res := get_own play "result" in
  let result := get_opt res "eventType" in
  b <-
    (if strict_eq batterId playerId then
       let b := batting_event play result (batting stats) in
       let b :=
         if truthy (get_opt res "rbi") then bump "rbis" (get_own res "rbi") b
         else b in
       scored <-
         (if gt_zero (get_opt res "awayScore") || gt_zero (get_opt res "homeScore")
          then runners_some play isScoringEvent else Ret false) ;;
       let b := if scored then bump "runs" one b else b in
       stolen <- runners_some play isStolenBase ;;
       Ret (if stolen then bump "stolen_bases" one b else b)
     else Ret (batting stats)) ;;
  p <-
    (if strict_eq pitcherId playerId then
       let p := pitching_event result (pitching stats) in
       let p :=
         if truthy (get_opt res "rbi") then bump "earned_runs" (get_own res "rbi") p
         else p in
       count <- get play "count" ;;
       let outs := or_else (get_opt count "outs") (VNum 0%float) in
       Ret (if gt_zero outs then bump "outs_recorded" outs p else p)
     else Ret (pitching stats)) ;;
  Ret (mkTally b p).

Fixpoint fold_outcome {S A} (f : S -> A -> outcome S) (xs : list A) (s : S)
  : outcome S :=
  match xs with
  | [] => Ret s
  | x :: xs' => s' <- f s x ;; fold_outcome f xs' s'
  end.

Definition extractStatFromPlays (plays : list value) (playerId : value)
  : outcome value :=
  stats <- fold_outcome (tally_play playerId) plays (mkTally [] []) ;;
  Ret (VObj [("batting", VObj (batting stats));
             ("pitching", VObj (pitching stats))]).

(** ** getStatFromLiveFeed.js *)

Definition PITCHING_PROPS : list string :=
  [ "strikeouts_pitching"; "walks_allowed"; "earned_runs"; "outs_recorded";
    "hits_allowed" ].

Definition in_set (s : string) (set : list string) : bool :=
  existsb (String.eqb s) set.

(** [feed] is what [fetch(url)] followed by [response.json()] produces for
    the game: the document, or an exception. *)
Definition getStatFromLiveFeed (feed : outcome value) (playerId propType : value)
  : outcome value :=
  normalized <- normalizePropType propType ;;
  try_catch
    (data <- feed ;;
     let plays := get_opt (get_opt (get_opt data "liveData") "plays") "allPlays" in
     match plays with
     | VArr plays =>
         statMap <- extractStatFromPlays plays playerId ;;
         let flat := flattenPlayerBoxscore statMap VUndefined in
         let scopedStats :=
           if in_set normalized PITCHING_PROPS
           then VObj [("pitching", coalesce (get_own flat "pitching") (VObj []))]
           else VObj [("batting", coalesce (get_own flat "batting") (VObj []))] in
         derivePropValue (VStr normalized) scopedStats
     | _ => Ret VNull
     end)
    (Ret VNull).

(** ** resolveStatForPlayer (statResolvers.js) *)

Record resolution : Type := mkResolution {
  result : value;
  source : string;
  rawStats : value
}.

(** The two requests of the chain are given by what they return:
    [boxscore] for the box score of the game, [feed] for its live feed. *)
Definition resolveStatForPlayer
    (boxscore : response) (feed : outcome value) (player_id prop_type : value)
  : outcome resolution :=
  boxscoreData <- getPlayerStatsFromBoxscore boxscore player_id ;;
  if negb (truthy boxscoreData) then
    Ret (mkResolution VUndefined "no_boxscore" VUndefined)
  else
    let rawStats := flattenPlayerBoxscore boxscoreData VUndefined in
    meaningful <-
      (if truthy rawStats then hasMeaningfulStats rawStats else Ret false) ;;
    let extracted :=
      if meaningful
      then try_catch (derivePropValue prop_type rawStats) (Ret VNull)
      else Ret VNull in
    fromBox <- extracted ;;
    if negb (nullish fromBox) then Ret (mkResolution fromBox "boxscore" rawStats)
    else
      liveResult <- getStatFromLiveFeed feed player_id prop_type ;;
      Ret (if typeof_number liveResult
           then mkResolution liveResult "live" rawStats
           else mkResolution VUndefined "missing" rawStats).

End Resolution.

(* ================================================================== *)
(** * backend/scripts/shared/getDerivedStats.js *)
(* ================================================================== *)

Module DerivedStats.

Import JsNumber Js PropUtils.

(** A [Date] object is represented by its time value, the milliseconds
    since the epoch; [None] is an invalid date, whose time value is [NaN]. *)
Definition Date : Type := option Z.

(** [a >= b] and [a < b] on dates: the time values are compared, and every
    comparison with [NaN] is false. *)
Definition date_ge (a b : Date) : bool :=
  match a, b with
  | Some x, Some y => y <=? x
  | _, _ => false
  end.

Definition date_lt (a b : Date) : bool :=
  match a, b with
  | Some x, Some y => x <? y
  | _, _ => false
  end.

Definition msPerDay : Z := 86400000.

(** [fromDate = new Date(now); fromDate.setDate(now.getDate() - days)]: the
    same local time [days] days earlier (in a time zone with a fixed offset,
    [days] times 24 hours earlier). *)
Definition days_before (now : Date) (days : Z) : Date :=
  match now with
  | Some t => Some (t - days * msPerDay)
  | None => None
  end.

(** A row of the per-player history: [game_date] stands for
    [new Date(row.game_date)]. *)
Record HistoryRow : Type := mkRow {
  game_date : Date;
  prop_type : value;
  prop_value : value
}.

(** A box score of the cache: [gameDate] stands for
    [new Date(box.gameDate.split("T")[0])], and is [None] when the box has no
    game date; [players] are the values of
    [{...teams.home.players, ...teams.away.players}]. *)
Record Box : Type := mkBox {
  gameDate : option Date;
  players : list value
}.

(** The [cache] argument, whose shape goes with [sourceMode]: a map from
    player id to rows in history mode, a map of box scores in boxscore mode.
    A cache of the other shape holds nothing the loop of the mode can use. *)
Inductive Cache : Type :=
| PlayerRows (rows : list (string * list HistoryRow))
| Boxscores (boxes : list Box).

Fixpoint cache_get (k : string) (m : list (string * list HistoryRow))
  : option (list HistoryRow) :=
  match m with
  | [] => None
  | (k', rows) :: m' => if String.eqb k k' then Some rows else cache_get k m'
  end.

(** The running [total] and [count]. *)
Definition acc : Type := (float * float)%type.

Definition add_value (a : acc) (v : value) : acc :=
  match v with
  | VNum x =>
      if PrimFloat.is_finite x then (fst a + x, snd a + 1)%float else a
  | _ => a
  end.

(** The body of [for (const row of history)]. *)
Definition history_step (now : Date) (propType : string) (a : acc)
    (row : HistoryRow) : acc :=
  if date_ge (game_date row) now then a
  else if negb (strict_eq (prop_type row) (VStr propType)) then a
  else add_value a (prop_value row).

(** [propType.includes("pitching")]. *)
Fixpoint includes (sub s : string) : bool :=
  if String.prefix sub s then true
  else match s with
       | EmptyString => false
       | String _ s' => includes sub s'
       end.

Definition is_player (playerId : value) (p : value) : bool :=
  String.eqb (ToString (get_opt (get_opt p "person") "id")) (ToString playerId).

(** The body of [for (const [, box] of cache.entries())]. *)
Definition boxscore_step (now fromDate : Date) (playerId : value)
    (propType : string) (a : acc) (box : Box) : outcome acc :=
  match gameDate box with
  | None => Ret a
  | Some boxDate =>
      if date_lt boxDate fromDate || date_ge boxDate now then Ret a
      else
        match find (is_player playerId) (players box) with
        | None => Ret a
        | Some player =>
            if negb (truthy player) then Ret a
            else
              let stats := get_own player "stats" in
              let pitching := get_opt stats "pitching" in
              hasPitch <-
                (if truthy pitching then
                   ks <- Object_keys pitching ;;
                   Ret (Nat.ltb 0 (List.length ks))
                 else Ret false) ;;
              statBlock <-
                (if hasPitch && includes "pitching" propType
                 then get stats "pitching" else get stats "batting") ;;
              if negb (truthy statBlock) then Ret a
              else
                val <- extractStatForPropType statBlock (VStr propType) ;;
                Ret (add_value a val)
        end
  end.

Fixpoint fold_boxes (f : acc -> Box -> outcome acc) (boxes : list Box) (a : acc)
  : outcome acc :=
  match boxes with
  | [] => Ret a
  | b :: bs => a' <- f a b ;; fold_boxes f bs a'
  end.

(** [`d${days}_${propType}`]. *)
Definition key_of (days : Z) (propType : string) : string :=
  "d" ++ NumberToString (of_Z days) ++ "_" ++ propType.

(** The body of the [try] for one key: the value stored under the key, if
    any.  An exception is swallowed by the [catch] and leaves the key
    unset. *)
Definition derive_key (supabase playerId : value) (now : Date) (cache : Cache)
    (sourceMode : string) (days : Z) (propType : string) : option float :=
  let attempt : outcome (option float) :=
    (* getRollingAverage(supabase, playerId, propType, gameDate, null, days):
       the function imported from propUtilsBackend.js takes
       (history, propType, windowSize) *)
    avg <- getRollingAverage supabase playerId (VStr propType) ;;
    if Number_isFinite avg then
      Ret (match avg with VNum x => Some x | _ => None end)
    else
      let fromDate := days_before now days in
      totals <-
        (if String.eqb sourceMode "history" then
           match cache with
           | PlayerRows m =>
               let history :=
                 match cache_get (ToString playerId) m with
                 | Some rows => rows
                 | None => []
                 end in
               Ret (fold_left (history_step now propType) history (0, 0)%float)
           | Boxscores _ => Ret (0, 0)%float
           end
         else if String.eqb sourceMode "boxscore" then
           match cache with
           | Boxscores boxes =>
               fold_boxes (boxscore_step now fromDate playerId propType) boxes
                 (0, 0)%float
           | PlayerRows _ => Ret (0, 0)%float
           end
         else Ret (0, 0)%float) ;;
      let '(total, count) := totals in
      Ret (if PrimFloat.ltb 0 count then Some (total / count)%float else None) in
  match attempt with
  | Ret r => r
  | Throw => None
  end.

Definition rollingDays : list Z := [7; 15; 30].

(** The [result] object as the list of its entries, in insertion order (the
    keys are pairwise distinct). *)
Definition getDerivedStats (supabase playerId : value) (now : Date)
    (cache : Cache) (sourceMode : string) : list (string * float) :=
  flat_map
    (fun days =>
       flat_map
         (fun propType =>
            match derive_key supabase playerId now cache sourceMode days propType
            with
            | Some avg => [(key_of days propType, avg)]
            | None => []
            end)
         VALID_PROP_TYPES)
    rollingDays.

End DerivedStats.

(* ================================================================== *)
(** * The streak scripts *)
(* ================================================================== *)

Module Streaks.

Import JsNumber Js Conversion PropUtils.

(** A resolved prop as selected from [model_training_props]; [game_date] is
    the time value of [new Date(row.game_date)]. *)
Record PropRow : Type := mkProp {
  player_id : value;
  prop_type : value;
  prop_source : value;
  outcome_ : value;
  game_date : Z
}.

(** A row of [player_streak_profiles].  Counters are integers (they only
    count rows, far below [2^53]). *)
Record Streak : Type := mkStreak {
  s_player_id : value;
  s_prop_type : string;
  s_prop_source : value;
  streak_type : value;
  streak_count : Z
}.

(** [["win", "loss"].includes(v)]. *)
Definition win_or_loss (v : value) : bool :=
  strict_eq v (VStr "win") || strict_eq v (VStr "loss").

(** ** runStreakBackfillFromTraining.js *)

Module Backfill.

Definition mapOutcomeToStreakType (outcome : value) : value :=
  if strict_eq outcome (VStr "win") then VStr "hot"
  else if strict_eq outcome (VStr "loss") then VStr "cold"
  else VStr "neutral".

(** The loop [for (let i = 0; i < props.length; i++)]: the state is
    [(currentStreak, currentType)]. *)
Fixpoint walk (i : nat) (props : list PropRow) (currentStreak : Z)
    (currentType : value) : Z * value :=
  match props with
  | [] => (currentStreak, currentType)
  | p :: rest =>
      let outcome := outcome_ p in
      if negb (win_or_loss outcome) then
        walk (S i) rest currentStreak currentType
      else if Nat.eqb i 0 || strict_eq outcome currentType then
        walk (S i) rest (currentStreak + 1) outcome
      else walk (S i) rest 1 outcome
  end.

Definition computeStreaks (props : list PropRow) : outcome (list Streak) :=
  let '(currentStreak, currentType) := walk 0 props 0 VNull in
  match props with
  | last :: _ =>
      if win_or_loss currentType && (0 <? currentStreak) then
        pt <- normalizePropType (prop_type last) ;;
        Ret [ mkStreak (player_id last) pt (prop_source last)
                (mapOutcomeToStreakType currentType) currentStreak ]
      else Ret []
  | [] => Ret []
  end.

End Backfill.

(** ** generatePlayerStreakProfiles.js *)

Module Profiles.

(** An element of a group. *)
Record Entry : Type := mkEntry {
  e_outcome : value;
  e_game_date : Z;
  e_player_id : value;
  e_prop_type : string;
  e_prop_source : value
}.

(** The names of the properties that a plain object inherits from
    [Object.prototype]. *)
Definition inherited : list string :=
  [ "__proto__"; "__defineGetter__"; "__defineSetter__"; "__lookupGetter__";
    "__lookupSetter__"; "constructor"; "hasOwnProperty"; "isPrototypeOf";
    "propertyIsEnumerable"; "toLocaleString"; "toString"; "valueOf" ].

(** The entry appended to the group of [key] among the own properties of
    [grouped], a new group going last. *)
Fixpoint push_own (key : string) (e : Entry)
    (grouped : list (string * list Entry)) : list (string * list Entry) :=
  match grouped with
  | [] => [(key, [e])]
  | (k, es) :: rest =>
      if String.eqb key k then (k, (es ++ [e])%list) :: rest
      else (k, es) :: push_own key e rest
  end.

(** [if (!grouped[key]) grouped[key] = []; grouped[key].push(e)] on the
    plain object [grouped].  Under a key that names a property of
    [Object.prototype], [grouped[key]] is the inherited value, which is
    truthy and has no [push]: no group is created and the call throws a
    [TypeError].  Under any other key the group is an own property, created
    when it is missing. *)
Definition push_group (key : string) (e : Entry)
    (grouped : list (string * list Entry))
  : outcome (list (string * list Entry)) :=
  if existsb (String.eqb key) inherited then Throw
  else Ret (push_own key e grouped).

(** The template literal [`${player_id}_${prop_type}_${prop_source}`], which
    throws when the player or the source has no conversion to a string. *)
Definition group_key (player_id : value) (prop_type : string)
    (prop_source : value) : outcome string :=
  if convertible player_id && convertible prop_source
  then Ret (ToString player_id ++ "_" ++ prop_type ++ "_"
            ++ ToString prop_source)
  else Throw.

(** Step 1: group by player, prop and source. *)
Fixpoint group (rows : list PropRow) (grouped : list (string * list Entry))
  : outcome (list (string * list Entry)) :=
  match rows with
  | [] => Ret grouped
  | row :: rest =>
      pt <- normalizePropType (prop_type row) ;;
      if negb (truthy (player_id row)) || strict_eq (player_id row) (VStr "None")
      then group rest grouped
      else
        key <- group_key (player_id row) pt (prop_source row) ;;
        grouped' <-
          push_group key
            (mkEntry (outcome_ row) (game_date row) (player_id row) pt
               (prop_source row))
            grouped ;;
        group rest grouped'
  end.

(** [entries.sort((a, b) => new Date(a.game_date) - new Date(b.game_date))]:
    ascending by date; the sort of the engine is stable. *)
Fixpoint insert_sorted (e : Entry) (es : list Entry) : list Entry :=
  match es with
  | [] => [e]
  | x :: rest =>
      if e_game_date e <? e_game_date x then e :: x :: rest
      else x :: insert_sorted e rest
  end.

Definition sort_by_date (es : list Entry) : list Entry :=
  fold_left (fun sorted e => insert_sorted e sorted) es [].

Definition hot_or_cold (outcome : value) : value :=
  if strict_eq outcome (VStr "win") then VStr "hot" else VStr "cold".

(** The loop over the sorted entries: the state is
    [(streakType, streakCount)]. *)
Definition walk_step (st : value * Z) (entry : Entry) : value * Z :=
  let '(streakType, streakCount) := st in
  if strict_eq streakType VNull then (hot_or_cold (e_outcome entry), 1)
  else if (strict_eq streakType (VStr "hot")
           && strict_eq (e_outcome entry) (VStr "win"))
          || (strict_eq streakType (VStr "cold")
              && strict_eq (e_outcome entry) (VStr "loss"))
  then (streakType, streakCount + 1)
  else (hot_or_cold (e_outcome entry), 1).

(** Step 2 for one group. *)
Definition profile_of (entries : list Entry) : list Streak :=
  if (List.length entries <? 2)%nat then []
  else
    let sorted := sort_by_date entries in
    let '(streakType, streakCount) := fold_left walk_step sorted (VNull, 0) in
    match List.last (List.map Some sorted) None with
    | Some final =>
        [ mkStreak (e_player_id final) (e_prop_type final)
            (e_prop_source final) streakType streakCount ]
    | None => []
    end.

Definition computeStreaks (resolvedProps : list PropRow) : outcome (list Streak) :=
  grouped <- group resolvedProps [] ;;
  Ret (flat_map (fun g => profile_of (snd g)) grouped).

End Profiles.

End Streaks.

(* ================================================================== *)
(** * Conversions that throw *)
(* ================================================================== *)

(* ================================================================== *)
(** * backend/scripts/generateBvpStats.js *)
(* ================================================================== *)

Module Bvp.

Import JsNumber Js Conversion.

(** A play of the feed, as far as [computeBvpStats] reads it: the ids of
    [matchup.batter] and [matchup.pitcher], [result.eventType] and
    [result.rbi].  Identifiers are integers, as the provider sends them;
    [None] is a missing ([undefined]) identifier.  [eventType] and [rbi]
    are whatever values the play carries there, [undefined] when it carries
    none: the first is tested and compared with the event names, the second
    enters the total through [+=]. *)
Record Play : Type := mkPlay {
  batter : option Z;
  pitcher : option Z;
  eventType : value;
  rbi : value
}.

(** The totals.  The seven counters go up by a constant at most 4 per play,
    which binary64 does exactly; they are kept as integers.  [rbi_total] is
    the accumulator of [rbi += ...], a number or, after a concatenation, a
    string. *)
Record BvpStats : Type := mkBvp {
  pa : Z;
  ab : Z;
  hits : Z;
  home_runs : Z;
  strikeouts : Z;
  walks : Z;
  rbi_total : value;
  total_bases : Z
}.

(** [a === b] on identifiers ([undefined === undefined] holds). *)
Definition same_id (a b : option Z) : bool :=
  match a, b with
  | Some x, Some y => x =? y
  | None, None => true
  | _, _ => false
  end.

Definition relevant (batterId pitcherId : option Z) (p : Play) : bool :=
  same_id (batter p) batterId && same_id (pitcher p) pitcherId.

Definition NON_AB : list string :=
  [ "walk"; "hit_by_pitch"; "sac_bunt"; "sac_fly"; "catcher_interf" ].

Definition b2z (b : bool) : Z := if b then 1 else 0.

(** [acc += x] for an accumulator that is a number or a string: the sum of
    two numbers, a concatenation when either side is a string, and a
    [TypeError] when [x] cannot be converted. *)
Definition plus_assign (acc x : value) : outcome value :=
  if convertible x then Ret (add acc x) else Throw.

(** The body of [for (const play of relevantPlays)]. *)
Definition count_play (s : BvpStats) (play : Play) : outcome BvpStats :=
  let result := eventType play in
  if negb (truthy result) then Ret s
  else
    let case (ev : string) := strict_eq result (VStr ev) in
    let isAB := negb (existsb case NON_AB) in
    let hit :=
      case "single" || case "double" || case "triple" || case "home_run" in
    let bases :=
      if case "single" then 1 else if case "double" then 2
      else if case "triple" then 3 else if case "home_run" then 4 else 0 in
    total <- plus_assign (rbi_total s) (or_else (rbi play) (VNum 0%float)) ;;
    Ret (mkBvp (pa s + 1)
               (ab s + b2z isAB)
               (hits s + b2z hit)
               (home_runs s + b2z (case "home_run"))
               (strikeouts s + b2z (case "strikeout"))
               (walks s + b2z (case "walk"))
               total
               (total_bases s + bases)).

Definition zero : BvpStats := mkBvp 0 0 0 0 0 0 (VNum 0%float) 0.

(** The loop over the relevant plays. *)
Fixpoint count_plays (plays : list Play) (s : BvpStats) : outcome BvpStats :=
  match plays with
  | [] => Ret s
  | play :: rest => s' <- count_play s play ;; count_plays rest s'
  end.

(** [Ret None] is the [null] returned when no play matches. *)
Definition computeBvpStats (batterId pitcherId : option Z)
    (allPlays : list Play) : outcome (option BvpStats) :=
  let relevantPlays := filter (relevant batterId pitcherId) allPlays in
  match relevantPlays with
  | [] => Ret None
  | _ => s <- count_plays relevantPlays zero ;; Ret (Some s)
  end.

End Bvp.

(* ================================================================== *)
(** * src/shared/objectUtils.js and the payload of generateBvpStats.js *)
(* ================================================================== *)

Module ObjectUtils.

Import JsNumber Js.

(** [setIfMissing(target, key, newValue, currentValue)]: [target] after the
    call. *)
Definition setIfMissing (target : list (string * value)) (key : string)
    (newValue currentValue : value) : list (string * value) :=
  if strict_eq currentValue VNull
     || strict_eq currentValue VUndefined
     || (is_number currentValue && PrimFloat.is_nan (ToNumber currentValue))
  then assign key newValue target
  else target.

End ObjectUtils.

Module BvpBackfill.

Import JsNumber Js Bvp ObjectUtils.

(** An identifier that is not falsy: present and not 0. *)
Definition truthy_id (i : option Z) : bool :=
  match i with
  | Some z => negb (z =? 0)
  | None => false
  end.

(** [new Set([homeStarterId, awayStarterId].filter(Boolean))]. *)
Definition starters (homeStarterId awayStarterId : option Z) : list (option Z) :=
  filter truthy_id [homeStarterId; awayStarterId].

(** [set.has(id)]. *)
Definition has_id (set : list (option Z)) (i : option Z) : bool :=
  existsb (same_id i) set.

(** The pitcher [processGame] pairs a batter with: the pitcher of the first
    play of the batter against a starter, else the starter of the other
    team when the batter is on a roster, else none ([null]). *)
Definition choosePitcher (homeStarterId awayStarterId : option Z)
    (homeBatters awayBatters : list Z) (batterId : Z) (allPlays : list Play)
  : option Z :=
  let defaultPitcherId :=
    if existsb (Z.eqb batterId) homeBatters then awayStarterId
    else if existsb (Z.eqb batterId) awayBatters then homeStarterId
    else None in
  let playVsStarter :=
    find (fun p => same_id (batter p) (Some batterId)
                   && has_id (starters homeStarterId awayStarterId) (pitcher p))
      allPlays in
  match playVsStarter with
  | Some p =>
      match pitcher p with
      | Some id => Some id
      | None => defaultPitcherId
      end
  | None => defaultPitcherId
  end.

(** What [processGame] caches for a batter: [None] when no pitcher was
    found, else the pitcher and the stats against him.  An exception of
    [computeBvpStats] is not caught. *)
Definition cachedBvp (homeStarterId awayStarterId : option Z)
    (homeBatters awayBatters : list Z) (batterId : Z) (allPlays : list Play)
  : outcome (option (Z * option BvpStats)) :=
  match choosePitcher homeStarterId awayStarterId homeBatters awayBatters
          batterId allPlays with
  | Some pitcherId =>
      if pitcherId =? 0 then Ret None
      else
        stats <- computeBvpStats (Some batterId) (Some pitcherId) allPlays ;;
        Ret (Some (pitcherId, stats))
  | None => Ret None
  end.

(** The columns of [bvp_stats] and the totals they take. *)
Definition stat_columns (effective : BvpStats) : list (string * value) :=
  [ ("bvp_plate_appearances", VNum (of_Z (pa effective)));
    ("bvp_at_bats", VNum (of_Z (ab effective)));
    ("bvp_hits", VNum (of_Z (hits effective)));
    ("bvp_home_runs", VNum (of_Z (home_runs effective)));
    ("bvp_strikeouts", VNum (of_Z (strikeouts effective)));
    ("bvp_walks", VNum (of_Z (walks effective)));
    ("bvp_rbi", rbi_total effective);
    ("bvp_total_bases", VNum (of_Z (total_bases effective))) ].

(** [String(id)] of an integer identifier. *)
Definition id_string (id : Z) : string := ToString (VNum (of_Z id)).

(** The upsert payload: the key triplet, then one [setIfMissing] per column
    against the row that exists ([existing] is that row, or [{}]). *)
Definition buildUpsertPayload (gameId : value) (batterId pitcherId : Z)
    (effective : BvpStats) (existing : value) : list (string * value) :=
  fold_left
    (fun payload column =>
       setIfMissing payload (fst column) (snd column)
         (get_own existing (fst column)))
    (stat_columns effective)
    [ ("game_id", gameId);
      ("batter_id", VStr (id_string batterId));
      ("pitcher_id", VStr (id_string pitcherId)) ].

(** [Object.keys(upsertPayload).length > 3]. *)
Definition changed (upsertPayload : list (string * value)) : bool :=
  (3 <? List.length upsertPayload)%nat.

End BvpBackfill.

(* ================================================================== *)
(** * getStreaksForPlayer (playerUtilsBackend.js) *)
(* ================================================================== *)

Module StreakLookup.

Import JsNumber Js Conversion.

(** The answer of the store to the query of one streak profile. *)
Record reply : Type := mkReply {
  data : value;
  error : value
}.

(** The key [`${player_id}:${prop_type}:${prop_source}`], after the default
    [prop_source = "mlb_api"]; the template literal throws when one of the
    three has no conversion to a string. *)
Definition cache_key (player_id prop_type prop_source : value)
  : outcome string :=
  let prop_source :=
    match prop_source with
    | VUndefined => VStr "mlb_api"
    | _ => prop_source
    end in
  if convertible player_id && convertible prop_type && convertible prop_source
  then Ret (ToString player_id ++ ":" ++ ToString prop_type ++ ":"
            ++ ToString prop_source)
  else Throw.

(** [getStreaksForPlayer] with the module-level [missingStreakCache] made
    explicit: the value returned and the cache after the call.  [store]
    is what the query answers; it is not consulted on a cache hit. *)
Definition getStreaksForPlayer (missingStreakCache : list string)
    (store : reply) (player_id prop_type prop_source : value)
  : outcome (value * list string) :=
  key <- cache_key player_id prop_type prop_source ;;
  if existsb (String.eqb key) missingStreakCache
  then Ret (VNull, missingStreakCache)
  else if truthy (error store) || negb (truthy (data store)) then
    Ret (VNull, (missingStreakCache ++ [key])%list)
  else Ret (VUndefined, missingStreakCache).

End StreakLookup.

(* ================================================================== *)
(** * The graders of the front end (src/shared/propUtils.js) *)
(* ================================================================== *)

Module Frontend.

Import JsNumber Js.

(** The order of strings: by code units. *)
Fixpoint string_ltb (a b : string) : bool :=
  match a, b with
  | _, EmptyString => false
  | EmptyString, String _ _ => true
  | String x a', String y b' =>
      if (nat_of_ascii x <? nat_of_ascii y)%nat then true
      else if (nat_of_ascii y <? nat_of_ascii x)%nat then false
      else string_ltb a' b'
  end.

(** [a < b]: two strings are compared as strings, anything else as
    numbers. *)
Definition lt (a b : value) : bool :=
  match ToPrimitive a, ToPrimitive b with
  | VStr x, VStr y => string_ltb x y
  | pa, pb => PrimFloat.ltb (ToNumber pa) (ToNumber pb)
  end.

(** [a > b]. *)
Definition gt (a b : value) : bool := lt b a.

Definition win_or_loss (won : bool) : value :=
  if won then VStr "win" else VStr "loss".

Definition determineOutcome (propValue line overUnder : value) : value :=
  if strict_eq propValue VNull || strict_eq line VNull
     || strict_eq overUnder VNull
  then VNull
  else if strict_eq overUnder (VStr "over") then win_or_loss (gt propValue line)
  else if strict_eq overUnder (VStr "under") then win_or_loss (lt propValue line)
  else VNull.

End Frontend.

(* ================================================================== *)
(** * backend/scripts/resolution/updatePropResults.js *)
(* ================================================================== *)

Module UpdateProps.

Import JsNumber Js PropUtils PlayerUtils Resolution.

(** gameStatusUtils.js *)
Definition isGameFinal (status : value) : bool :=
  match status with
  | VStr s => String.eqb (toLowerCase s) "final"
  | _ => false
  end.

(** The row of [player_props] being graded. *)
Record PlayerProp : Type := mkPlayerProp {
  id : value;
  player_id : value;
  prop_type : value;
  prop_value : value;
  over_under : value;
  predicted_outcome : value
}.

(** The writes to [player_props]. *)
Inductive write : Type :=
| MarkDNP (id : value)
| Update (id result : value) (outcome : string) (was_correct : value).

(** What [updatePropStatus] returns. *)
Record verdict : Type := mkVerdict {
  v_status : string;
  v_reason : option string;
  v_player_id : option value
}.

Definition status_string (s : status) : string :=
  match s with
  | invalid => "invalid"
  | push => "push"
  | win => "win"
  | loss => "loss"
  end.

(** [v < 0]. *)
Definition lt_zero (v : value) : bool := PrimFloat.ltb (ToNumber v) 0.

(** [updatePropStatus(prop)]: the verdict returned and the writes made.
    [gameStatus] is what [fetchGameStatusById] returned, [boxscore] and
    [feed] what the two requests of the resolution chain return, and
    [updateFails] tells whether the final update reports an error. *)
Definition updatePropStatus (gameStatus : value) (boxscore : response)
    (feed : outcome value) (updateFails : bool) (prop : PlayerProp)
  : outcome (verdict * list write) :=
  if negb (isGameFinal gameStatus) then
    Ret (mkVerdict "skipped" (Some "game not final") None, [])
  else if lt_zero (prop_value prop) then
    Ret (mkVerdict "skipped" (Some "invalid line") None, [])
  else
    r <- resolveStatForPlayer boxscore feed (player_id prop) (prop_type prop) ;;
    if negb (truthy (rawStats r))
       || negb (String.eqb (typeof (rawStats r)) "object")
    then
      Ret (mkVerdict "dnp" (Some "missing rawStats") None, [MarkDNP (id prop)])
    else if negb (typeof_number (result r))
            || PrimFloat.is_nan (ToNumber (result r))
    then
      Ret (mkVerdict "dnp" (Some "invalid result type") None,
           [MarkDNP (id prop)])
    else
      isValid <- hasMeaningfulStats (rawStats r) ;;
      didPlay <- didPlayerParticipate (rawStats r) ;;
      if negb isValid || negb (truthy didPlay) || nullish (result r) then
        let reason :=
          if negb (truthy didPlay) then "no participation"
          else if negb isValid then "invalid stats"
          else "no result" in
        Ret (mkVerdict "dnp" (Some reason) None, [MarkDNP (id prop)])
      else
        outcome <- determineStatus (result r) (prop_value prop) (over_under prop) ;;
        let was_correct :=
          if negb (nullish (predicted_outcome prop))
          then VBool (strict_eq (VStr (status_string outcome))
                        (predicted_outcome prop))
          else VNull in
        let w := [Update (id prop) (result r) (status_string outcome) was_correct] in
        if updateFails then Ret (mkVerdict "error" None None, w)
        else Ret (mkVerdict "updated" None (Some (player_id prop)), w).

End UpdateProps.

Module UpdateBatch.

Import JsNumber Js PropUtils PlayerUtils Resolution UpdateProps.

(** What the outside world answers while one prop is processed: the status
    of its game, the two documents of the resolution chain, and whether the
    final update reports an error. *)
Record answers : Type := mkAnswers {
  gameStatus : value;
  boxscore : response;
  feed : outcome value;
  updateFails : bool
}.

(** SameValueZero, the equality of a [Set] (on identifiers: numbers and
    strings). *)
Definition same_value_zero (a b : value) : bool :=
  match a, b with
  | VNum x, VNum y =>
      PrimFloat.eqb x y || (PrimFloat.is_nan x && PrimFloat.is_nan y)
  | _, _ => strict_eq a b
  end.

(** [set.add(v)], the set as the list of its elements in insertion order. *)
Definition set_add (v : value) (set : list value) : list value :=
  if existsb (same_value_zero v) set then set else (set ++ [v])%list.

(** The state of [updatePropsBatch]: its four counters, the players whose
    props were updated, the props skipped with the reason, and the writes
    made to [player_props] so far.  (The log of results, which goes to a
    file only, is left out.) *)
Record summary : Type := mkSummary {
  updated : Z;
  dnp : Z;
  skipped : Z;
  error : Z;
  affectedPlayerIds : list value;
  skippedProps : list (PlayerProp * option string);
  writes : list write
}.

Definition start : summary := mkSummary 0 0 0 0 [] [] [].

(** The body of [for (const prop of props)], with its [try] and [catch]. *)
Definition process (s : summary) (job : PlayerProp * answers) : summary :=
  let '(prop, world) := job in
  match updatePropStatus (gameStatus world) (boxscore world) (feed world)
          (updateFails world) prop with
  | Ret (result, ws) =>
      let written := (writes s ++ ws)%list in
      if String.eqb (v_status result) "updated" then
        mkSummary (updated s + 1) (dnp s) (skipped s) (error s)
          (set_add (match v_player_id result with
                    | Some pid => pid
                    | None => VUndefined
                    end)
             (affectedPlayerIds s))
          (skippedProps s) written
      else if String.eqb (v_status result) "dnp" then
        mkSummary (updated s) (dnp s + 1) (skipped s) (error s)
          (affectedPlayerIds s) (skippedProps s) written
      else if String.eqb (v_status result) "skipped" then
        mkSummary (updated s) (dnp s) (skipped s + 1) (error s)
          (affectedPlayerIds s)
          (skippedProps s ++ [(prop, v_reason result)])%list written
      else
        mkSummary (updated s) (dnp s) (skipped s) (error s + 1)
          (affectedPlayerIds s) (skippedProps s) written
  | Throw =>
      mkSummary (updated s) (dnp s) (skipped s) (error s + 1)
        (affectedPlayerIds s) (skippedProps s) (writes s)
  end.

(** [updatePropsBatch(props, options)]: the summary after the loop, and the
    players whose cached profile is deleted at the end, if any. *)
Definition updatePropsBatch (jobs : list (PlayerProp * answers))
    (clearCache : bool) : summary * option (list value) :=
  let s := fold_left process jobs start in
  (s, if clearCache && (0 <? List.length (affectedPlayerIds s))%nat
      then Some (affectedPlayerIds s) else None).

End UpdateBatch.

(* ================================================================== *)
(** * Vocabulary of the statements and sample inputs *)
(* ================================================================== *)

Module WholeNumberSpec.

(** [m] shifted left by [n] bits. *)
Definition shl (m : positive) (n : nat) : positive := Nat.iter n xO m.

(** The binary64 of a positive integer of at most 53 bits: the mantissa
    is the integer shifted up to 53 bits. *)
Definition canon (z : positive) : spec_float :=
  S754_finite false
    (shl z (Z.to_nat (53 - Zpos (digits2_pos z))))
    (Zpos (digits2_pos z) - 53).

End WholeNumberSpec.

Module BvpSpec.

Import JsNumber Js Conversion Bvp.

(** Plays of batter 660271 against pitcher 543037, and one of another
    batter. *)
Definition double_pa : Play :=
  mkPlay (Some 660271) (Some 543037) (VStr "double") (VNum 1).

Definition walk_pa : Play :=
  mkPlay (Some 660271) (Some 543037) (VStr "walk") VUndefined.

Definition later_plays : list Play :=
  [ mkPlay (Some 592450) (Some 543037) (VStr "home_run") (VNum 2);
    mkPlay (Some 660271) (Some 543037) (VStr "strikeout") VUndefined ].

(** The same plays in another order. *)
Definition shuffled_plays : list Play :=
  walk_pa :: double_pa :: later_plays.

(** The seven counters of the totals: all of them but the runs batted
    in. *)
Definition counters (s : BvpStats) : Z * Z * Z * Z * Z * Z * Z :=
  (pa s, ab s, hits s, home_runs s, strikeouts s, walks s, total_bases s).

(** What a result decides apart from the runs batted in: an exception,
    [null], or the seven counters. *)
Definition outline (r : outcome (option BvpStats))
  : outcome (option (Z * Z * Z * Z * Z * Z * Z)) :=
  match r with
  | Ret (Some s) => Ret (Some (counters s))
  | Ret None => Ret None
  | Throw => Throw
  end.

(** Two states of the loop, or two exceptions, that agree on the
    counters. *)
Definition alike (r r' : outcome BvpStats) : Prop :=
  match r, r' with
  | Ret s, Ret s' => counters s = counters s'
  | Throw, Throw => True
  | _, _ => False
  end.

(** The play carries [r] runs batted in, a whole number that is not
    negative: [r] as a binary64 is what [play.result?.rbi || 0] evaluates
    to.  A play without runs batted in, or with a falsy value there,
    carries 0. *)
Definition carries (play : Play) (r : Z) : Prop :=
  0 <= r /\ or_else (rbi play) (VNum 0%float) = VNum (of_Z r).

(** The runs of a list of plays, [runs] giving those of a play. *)
Definition total_runs (runs : Play -> Z) (plays : list Play) : Z :=
  fold_right (fun play t => runs play + t) 0 plays.

(** The runs the loop credits: those of the plays that have an event
    type. *)
Definition credited (runs : Play -> Z) (play : Play) : Z :=
  if truthy (eventType play) then runs play else 0.

Definition credit (runs : Play -> Z) (plays : list Play) : Z :=
  fold_right (fun play t => credited runs play + t) 0 plays.

(** The runs of the sample plays, read off their [rbi]. *)
Definition sample_runs (play : Play) : Z :=
  match rbi play with
  | VNum x => if PrimFloat.eqb x 1 then 1 else if PrimFloat.eqb x 2 then 2 else 0
  | _ => 0
  end.

(** Three outs of batter 660271 against pitcher 543037, one of them with
    [2^53] runs batted in, in two orders. *)
Definition out (r : float) : Play :=
  mkPlay (Some 660271) (Some 543037) (VStr "field_out") (VNum r).

Definition big_first : list Play :=
  [out 9007199254740992; out 1; out 1].

Definition big_last : list Play :=
  [out 1; out 1; out 9007199254740992].

End BvpSpec.

Module ParticipationSpec.

Import Js PlayerUtils.

(** A field of a sub-block that is a number strictly greater than zero. *)
Definition positive_field (block : value) : Prop :=
  exists k x,
    In (k, VNum x) (own_entries block) /\ PrimFloat.ltb 0 x = true.

(** What the function returns for a [stats] without a positive field:
    [false], unless [stats] is an object whose [pitching] is absent or
    falsy; what it returns then is that [pitching] itself, [undefined] when
    it is absent. *)
Definition negative_answer (stats : value) : value :=
  if truthy stats && String.eqb (typeof stats) "object"
     && negb (truthy (get_opt stats "pitching"))
  then get_opt stats "pitching"
  else VBool false.

End ParticipationSpec.

Module DerivedStatsSpec.

Import JsNumber Js PropUtils DerivedStats.

(** The cache with the rows [rows] under the key [k], among other entries. *)
Definition cache_with (before after : list (string * list HistoryRow))
    (k : string) (rows : list HistoryRow) : Cache :=
  PlayerRows (before ++ (k, rows) :: after).

(** The row is not dated on or after [D]. *)
Definition prior_to (D : Z) (row : HistoryRow) : bool :=
  negb (date_ge (game_date row) (Some D)).

(** The cache with only the rows prior to [D]. *)
Definition prior_rows (D : Z) (rows : list (string * list HistoryRow))
  : list (string * list HistoryRow) :=
  map (fun entry => (fst entry, filter (prior_to D) (snd entry))) rows.

(** A Supabase client: an object, not an array. *)
Definition client : value := VObj [].

Definition day (n : Z) : Date := Some (n * msPerDay).

Definition hits_row (d : Z) (v : float) : HistoryRow :=
  mkRow (day d) (VStr "hits") (VNum v).

End DerivedStatsSpec.

Module GraderSpec.

Import Js PropUtils.

(** The direction wins against the line: over with a value above the line,
    or under with a value below it. *)
Definition wins (direction : string) (x l : float) : Prop :=
  (direction = "over" /\ PrimFloat.ltb l x = true)
  \/ (direction = "under" /\ PrimFloat.ltb x l = true).

(** A direction is well formed when it is one of the two values of the
    enumeration. *)
Definition well_formed_direction (v : value) : bool :=
  strict_eq v (VStr "over") || strict_eq v (VStr "under").

(** The direction is present: a string that is not empty. *)
Definition present_direction (v : value) : bool :=
  match v with
  | VStr s => negb (String.eqb s "")
  | _ => false
  end.

End GraderSpec.

Module ExtractorSpec.

Import JsNumber Js PropUtils Resolution.

(** The labels of the [switch] of [extractStatForPropType]: the prop types
    of [VALID_PROP_TYPES] and three more. *)
Definition extract_labels : list string :=
  VALID_PROP_TYPES ++ ["runs_scored"; "hits_runs_rbis"; "runs_rbis"].

(** The labels of the [switch] of [derivePropValue]. *)
Definition derive_labels : list string :=
  [ "hits"; "runs"; "runs_scored"; "rbis"; "home_runs"; "stolen_bases";
    "walks"; "strikeouts_batting"; "total_bases"; "hits_runs_rbis";
    "runs_rbis"; "singles"; "doubles"; "triples"; "strikeouts_pitching";
    "walks_allowed"; "hits_allowed"; "earned_runs"; "outs_recorded" ].

(** The enumeration of prop types of the specification (section 6). *)
Definition spec_prop_types : list string :=
  [ "hits"; "home_runs"; "rbis"; "runs"; "total_bases"; "walks";
    "stolen_bases"; "singles"; "doubles"; "triples"; "strikeouts_batting";
    "strikeouts_pitching"; "outs_recorded"; "earned_runs"; "hits_allowed";
    "walks_allowed"; "runs_allowed"; "hits_runs_rbis"; "runs_rbis" ].

(** [propType] is one of the labels. *)
Definition is_label (labels : list string) (propType : value) : bool :=
  existsb (is_case propType) labels.

(** A field that is absent, or holds a finite number. *)
Definition absent_or_finite (v : value) : Prop :=
  v = VUndefined \/ exists x, v = VNum x /\ PrimFloat.is_finite x = true.

(** The addend a field stands for: its number, and zero when it is absent. *)
Definition as_zero (v : value) : float :=
  match v with
  | VNum x => x
  | _ => 0%float
  end.

(** The fields the composite stats read. *)
Definition addend_keys : list string :=
  ["hits"; "runs"; "rbi"; "rbis"; "doubles"; "triples"; "homeRuns"; "home_runs"].

(** The stats block with the batting sub-block [fs]. *)
Definition batting_block (fs : list (string * value)) : value :=
  VObj [("batting", VObj fs)].

(** Scenario A of the specification. *)
Definition scenario_A : list (string * value) :=
  [ ("hits", VNum 2); ("doubles", VNum 1); ("triples", VNum 0);
    ("homeRuns", VNum 0) ].

(** The number written [1e308]. *)
Definition huge : float := StringToNumber "1e308".

End ExtractorSpec.

Module ResolutionSpec.

Import JsNumber Js PropUtils PlayerUtils Resolution.

(** A play of the feed with its batter, pitcher and event. *)
Definition play (batterId pitcherId : float) (event : string) : value :=
  VObj [ ("matchup", VObj [ ("batter", VObj [("id", VNum batterId)]);
                            ("pitcher", VObj [("id", VNum pitcherId)]) ]);
         ("result", VObj [("eventType", VStr event)]) ].

(** The live feed of scenario D: one single and one strikeout of batter
    592450. *)
Definition feed_D : value :=
  VObj [ ("liveData",
          VObj [ ("plays",
                  VObj [ ("allPlays",
                          VArr [ play 592450 543037 "single";
                                 play 592450 543037 "strikeout" ]) ]) ]) ].

(** A box score in which the player does not appear. *)
Definition boxscore_without_player : value :=
  VObj [ ("teams",
          VObj [ ("home",
                  VObj [ ("players",
                          VObj [ ("ID660271",
                                  VObj [ ("person", VObj [("id", VNum 660271)]);
                                         ("stats",
                                          VObj [("batting",
                                                 VObj [("hits", VNum 1)])]) ]) ]) ]);
                 ("away", VObj [("players", VObj [])]) ]) ].

(** A box score in which the player appears without a stats block. *)
Definition boxscore_without_stats : value :=
  VObj [ ("teams",
          VObj [ ("home",
                  VObj [ ("players",
                          VObj [ ("ID592450",
                                  VObj [ ("person",
                                          VObj [("id", VNum 592450)]) ]) ]) ]) ]) ].

End ResolutionSpec.

Module StreakSpec.

Import Js Streaks.

Definition resolved (outcome : string) (date : Z) : PropRow :=
  mkProp (VStr "592450") (VStr "hits") (VStr "mlb_api") (VStr outcome) date.

(** The outcomes win, win, loss, win, most recent first. *)
Definition recent_first : list PropRow :=
  [ resolved "win" 4; resolved "win" 3; resolved "loss" 2; resolved "win" 1 ].

Definition streak (type : string) (count : Z) : Streak :=
  mkStreak (VStr "592450") "hits" (VStr "mlb_api") (VStr type) count.

(** The number of outcomes at the head of [rest] that are equal to [o]. *)
Fixpoint leading_run (o : value) (rest : list value) : Z :=
  match rest with
  | x :: rest' => if strict_eq x o then 1 + leading_run o rest' else 0
  | [] => 0
  end.

(** The outcome is a win or a loss. *)
Definition terminal (o : value) : Prop := o = VStr "win" \/ o = VStr "loss".

End StreakSpec.

Module PropUtilsSpec.

Import JsNumber Js PropUtils.

(** [null], or a finite number. *)
Definition null_or_finite (v : value) : Prop :=
  v = VNull \/ exists n, v = VNum n /\ PrimFloat.is_finite n = true.

(** The prop types whose value [extractStatForPropType] returns without a
    check that it is finite. *)
Definition unchecked_cases : list string :=
  ["outs_recorded"; "pitching_outs"; "hits_runs_rbis"; "runs_rbis"].

Definition is_paren (c : ascii) : bool :=
  (Ascii.eqb c "(" || Ascii.eqb c ")")%bool.

(** A character that normalization leaves alone: not white space, not a
    parenthesis and not an upper-case letter. *)
Definition normal_char (c : ascii) : bool :=
  negb (is_white c) && negb (is_paren c) && Ascii.eqb (lower_char c) c.

Fixpoint normal_string (s : string) : bool :=
  match s with
  | EmptyString => true
  | String c s' => normal_char c && normal_string s'
  end.

(** The shape of a result: [null], or a number that is finite when [fin]
    holds. *)
Definition shaped (fin : Prop) (r : outcome value) : Prop :=
  match r with
  | Ret v =>
      v = VNull
      \/ exists n, v = VNum n /\ (fin -> PrimFloat.is_finite n = true)
  | Throw => False
  end.

End PropUtilsSpec.

Module ChainSpec.
Import JsNumber Js PropUtils PlayerUtils Resolution.

(** What the play-by-play fallback can answer: no value, or [NaN]. *)
Definition no_count (v : value) : Prop :=
  v = VNull \/ v = VUndefined
  \/ exists n, v = VNum n /\ PrimFloat.is_nan n = true.

(** A box score with the pitching line of pitcher 543037. *)
Definition pitcher_boxscore : value :=
  VObj [ ("teams",
          VObj [ ("home",
                  VObj [ ("players",
                          VObj [ ("ID543037",
                                  VObj [ ("person", VObj [("id", VNum 543037)]);
                                         ("stats",
                                          VObj [("pitching",
                                                 VObj [("numberOfPitches",
                                                        VNum 95)])]) ]) ]) ]) ]) ].

(** What the chain returns for the pitch count of that pitcher. *)
Definition unresolved_pitch_count : resolution :=
  mkResolution VUndefined "missing"
    (VObj [ ("pitching", VObj [("numberOfPitches", VNum 95)]);
            ("numberOfPitches", VNum 95);
            ("player_id", VNum 543037); ("team_abbr", VNull) ]).

End ChainSpec.

Module UpdatePropsSpec.
Import JsNumber Js PropUtils PlayerUtils Resolution UpdateProps.

(** A result that can be graded: a number other than [NaN]. *)
Definition gradeable (v : value) : bool :=
  typeof_number v && negb (PrimFloat.is_nan (ToNumber v)).

(** A prop on the hits of batter 660271: over 0.5, predicted to win. *)
Definition hits_over : PlayerProp :=
  mkPlayerProp (VNum 17) (VNum 660271) (VStr "hits") (VNum 0.5) (VStr "over")
    (VStr "win").

End UpdatePropsSpec.

Module BoxscoreModeSpec.
Import JsNumber Js PropUtils DerivedStats DerivedStatsSpec.

(** A box of the given day with the batting line of batter 592450. *)
Definition hits_box (d : Z) (v : float) : Box :=
  mkBox (Some (day d))
    [ VObj [ ("person", VObj [("id", VNum 592450)]);
             ("stats", VObj [("batting", VObj [("hits", VNum v)])]) ] ].

(** A row whose value is the string ["3"], not a number. *)
Definition text_row (d : Z) : HistoryRow :=
  mkRow (day d) (VStr "hits") (VStr "3").

End BoxscoreModeSpec.

Module StreakRunSpec.
Import JsNumber Js PropUtils Streaks StreakSpec.



End StreakRunSpec.

Module BvpTotalsSpec.
Import Bvp.

(** The relations between the totals of a matchup that box-score
    arithmetic requires. *)
Definition consistent (s : BvpStats) : Prop :=
  0 <= home_runs s /\ home_runs s <= hits s
  /\ 0 <= strikeouts s /\ strikeouts s + hits s <= ab s
  /\ 0 <= walks s /\ walks s + ab s <= pa s
  /\ hits s + 3 * home_runs s <= total_bases s
  /\ total_bases s <= 3 * hits s + home_runs s.

End BvpTotalsSpec.

Module BvpBackfillSpec.
Import JsNumber Js Bvp ObjectUtils BvpBackfill.

(** The value [setIfMissing] takes for missing: [null], [undefined] or
    [NaN]. *)
Definition missing (currentValue : value) : bool :=
  strict_eq currentValue VNull || strict_eq currentValue VUndefined
  || (is_number currentValue && PrimFloat.is_nan (ToNumber currentValue)).

(** A row of [bvp_stats] that has its plate appearances, and nothing else. *)
Definition partial_row : value := VObj [("bvp_plate_appearances", VNum 4)].

End BvpBackfillSpec.

Module PlayerLookupSpec.
Import JsNumber Js PropUtils PlayerUtils StreakLookup.

(** The profile a store answers with. *)
Definition hot_profile : reply :=
  mkReply (VObj [("streak_count", VNum 3); ("streak_type", VStr "hot")]) VNull.

(** The answer of a store that has no such profile. *)
Definition no_rows : reply :=
  mkReply VNull (VObj [("message", VStr "no rows")]).

(** The entry is that of the player: the identifiers are the same text. *)
Definition entry_of_player (player_id entry : value) : Prop :=
  ToString (get_opt (get_opt entry "person") "id") = ToString player_id.

End PlayerLookupSpec.

Module TallySpec.
Import JsNumber Js PropUtils PlayerUtils Resolution.

(** The play is an object with a matchup in which the player neither bats
    nor pitches. *)
Definition not_involved (playerId play : value) : Prop :=
  exists matchup,
    get play "matchup" = Ret matchup
    /\ strict_eq (get_opt (get_opt matchup "batter") "id") playerId = false
    /\ strict_eq (get_opt (get_opt matchup "pitcher") "id") playerId = false.

End TallySpec.

Module AgreementSpec.
Import JsNumber Js PropUtils Resolution.

(** The field of the box score of the provider that holds a prop type: the
    sub-block and the name of the field. *)
Definition provider_field : list (string * (string * string)) :=
  [ ("hits", ("batting", "hits"));
    ("runs", ("batting", "runs"));
    ("runs_scored", ("batting", "runs"));
    ("rbis", ("batting", "rbi"));
    ("home_runs", ("batting", "homeRuns"));
    ("stolen_bases", ("batting", "stolenBases"));
    ("walks", ("batting", "baseOnBalls"));
    ("strikeouts_batting", ("batting", "strikeOuts"));
    ("total_bases", ("batting", "totalBases"));
    ("doubles", ("batting", "doubles"));
    ("triples", ("batting", "triples"));
    ("strikeouts_pitching", ("pitching", "strikeOuts"));
    ("walks_allowed", ("pitching", "baseOnBalls"));
    ("hits_allowed", ("pitching", "hits"));
    ("earned_runs", ("pitching", "earnedRuns"));
    ("outs_recorded", ("pitching", "outs")) ].

End AgreementSpec.

Module UpdateBatchSpec.
Import JsNumber Js PropUtils PlayerUtils Resolution UpdateProps UpdateBatch
  ResolutionSpec UpdatePropsSpec.

(** What the counters, the skipped props, the writes and the updated
    players of a summary must be for [n] props processed. *)
Definition accounted (n : Z) (players : list value) (s : summary) : Prop :=
  0 <= updated s /\ 0 <= dnp s /\ 0 <= skipped s /\ 0 <= error s
  /\ updated s + dnp s + skipped s + error s = n
  /\ Z.of_nat (List.length (skippedProps s)) = skipped s
  /\ updated s + dnp s <= Z.of_nat (List.length (writes s))
  /\ Z.of_nat (List.length (writes s)) <= updated s + dnp s + error s
  /\ (affectedPlayerIds s = [] <-> updated s = 0)
  /\ Forall (fun pid => In pid players) (affectedPlayerIds s).

(** A final game with the box score of batter 660271, and a game that is
    still in progress. *)
Definition final_game : answers :=
  mkAnswers (VStr "Final") (Ret (Some boxscore_without_player)) (Ret feed_D)
    false.

Definition live_game : answers :=
  mkAnswers (VStr "In Progress") Throw Throw false.

End UpdateBatchSpec.

(* ================================================================== *)
(** * Properties *)
(* ================================================================== *)

(** ** The matchup aggregator *)

Module WholeNumberFacts.

Import JsNumber Js WholeNumberSpec.

Lemma shl_succ (m : positive) (n : nat) : shl m (S n) = xO (shl m n).
Proof. reflexivity. Qed.

Lemma shl_succ_r (m : positive) (n : nat) : shl m (S n) = shl (xO m) n.
Proof. unfold shl. now rewrite Nat.iter_succ_r. Qed.

Lemma shl_shl (m : positive) (i j : nat) : shl (shl m i) j = shl m (i + j).
Proof.
  induction j as [|j IH]; [now rewrite Nat.add_0_r|].
  now rewrite Nat.add_succ_r, !shl_succ, IH.
Qed.

Lemma shl_add (a b : positive) (n : nat) :
  (shl a n + shl b n)%positive = shl (a + b) n.
Proof.
  induction n as [|n IH]; [reflexivity|].
  rewrite !shl_succ. cbn [Pos.add]. now rewrite IH.
Qed.

Lemma iter_shl (m p : positive) : Pos.iter xO m p = shl m (Pos.to_nat p).
Proof. unfold shl. apply Pos2Nat.inj_iter. Qed.

Lemma digits_shl (m : positive) (n : nat) :
  Zpos (digits2_pos (shl m n)) = Zpos (digits2_pos m) + Z.of_nat n.
Proof.
  induction n as [|n IH]; [cbn; lia|].
  rewrite shl_succ. cbn [digits2_pos]. rewrite Pos2Z.inj_succ, IH. lia.
Qed.

Lemma digits_bound (p : positive) (n : Z) :
  0 <= n -> Zpos p < 2 ^ n -> Zpos (digits2_pos p) <= n.
Proof.
  revert n. induction p as [p IH|p IH|]; intros n Hn H; cbn [digits2_pos].
  - assert (0 < n) by (destruct (Z.eq_dec n 0) as [->|]; [cbn in H; lia | lia]).
    replace n with (Z.succ (n - 1)) in H by lia.
    rewrite Z.pow_succ_r in H by lia.
    rewrite Pos2Z.inj_succ. specialize (IH (n - 1)). lia.
  - assert (0 < n) by (destruct (Z.eq_dec n 0) as [->|]; [cbn in H; lia | lia]).
    replace n with (Z.succ (n - 1)) in H by lia.
    rewrite Z.pow_succ_r in H by lia.
    rewrite Pos2Z.inj_succ. specialize (IH (n - 1)). lia.
  - assert (0 < n) by (destruct (Z.eq_dec n 0) as [->|]; [cbn in H; lia | lia]).
    lia.
Qed.

Lemma iter_pos_iter {A} (f : A -> A) (p : positive) (x : A) :
  iter_pos f p x = Nat.iter (Pos.to_nat p) f x.
Proof.
  revert x. induction p as [p IH|p IH|]; intro x; cbn [iter_pos].
  - rewrite !IH, Pos2Nat.inj_xI. cbn [Nat.mul].
    now rewrite Nat.add_0_r, Nat.iter_succ_r, Nat.iter_add.
  - rewrite !IH, Pos2Nat.inj_xO. cbn [Nat.mul].
    now rewrite Nat.add_0_r, Nat.iter_add.
  - reflexivity.
Qed.

(** Shifting right what was shifted left loses nothing. *)
Lemma shr_shl (m : positive) (n : nat) :
  Nat.iter n shr_1 (Build_shr_record (Zpos (shl m n)) false false)
  = Build_shr_record (Zpos m) false false.
Proof.
  induction n as [|n IH]; [reflexivity|].
  rewrite Nat.iter_succ_r, shl_succ. cbn [shr_1 orb]. exact IH.
Qed.

Lemma shr_exact (m : positive) (n : nat) (e : Z) :
  shr (Build_shr_record (Zpos (shl m n)) false false) e (Z.of_nat n)
  = (Build_shr_record (Zpos m) false false, e + Z.of_nat n).
Proof.
  destruct n as [|n]; [cbn; now rewrite Z.add_0_r|].
  cbn [Z.of_nat shr].
  now rewrite iter_pos_iter, SuccNat2Pos.id_succ, shr_shl.
Qed.

(** Rounding a mantissa of [53 + n] bits whose low [n] bits are zero. *)
Lemma round_aux_exact (m : positive) (n : nat) (e : Z) :
  Zpos (digits2_pos m) = 53 ->
  -1074 <= e + Z.of_nat n <= 971 ->
  binary_round_aux prec emax false (Zpos (shl m n)) e loc_Exact
  = S754_finite false m (e + Z.of_nat n).
Proof.
  intros D B. unfold binary_round_aux, shr_fexp.
  cbn [Zdigits2 shr_record_of_loc].
  rewrite digits_shl, D. unfold fexp, emin, prec, emax.
  rewrite Z.max_l by lia.
  replace (53 + Z.of_nat n + e - 53 - e) with (Z.of_nat n) by lia.
  rewrite shr_exact. cbn [shr_m loc_of_shr_record round_nearest_even Zdigits2
                          shr_record_of_loc].
  rewrite D. rewrite Z.max_l by lia.
  replace (53 + (e + Z.of_nat n) - 53 - (e + Z.of_nat n)) with 0 by lia.
  cbn [shr shr_m].
  destruct (Z.leb_spec (e + Z.of_nat n) (1024 - 53)); [reflexivity | lia].
Qed.

Lemma round_aux_53 (m : positive) (e : Z) :
  Zpos (digits2_pos m) = 53 ->
  -1074 <= e <= 971 ->
  binary_round_aux prec emax false (Zpos m) e loc_Exact
  = S754_finite false m e.
Proof.
  intros D B. change (Zpos m) with (Zpos (shl m 0)).
  rewrite round_aux_exact; [f_equal; cbn; lia | exact D | cbn; lia].
Qed.

(** Rounding [z * 2^j] at exponent [-j] gives the binary64 of [z]. *)
Lemma round_shifted (z : positive) (j : nat) :
  Zpos (digits2_pos z) <= 53 ->
  binary_round prec emax false (shl z j) (- Z.of_nat j) = canon z.
Proof.
  intro D. unfold binary_round, shl_align, canon.
  rewrite digits_shl. unfold fexp, emin, prec, emax.
  pose proof (Pos2Z.is_pos (digits2_pos z)) as P.
  rewrite Z.max_l by lia.
  set (d := Zpos (digits2_pos z)) in *.
  assert (Zpos (digits2_pos (shl z (Z.to_nat (53 - d)))) = 53) as D53.
  { rewrite digits_shl. fold d. lia. }
  destruct (d + Z.of_nat j + - Z.of_nat j - 53 - - Z.of_nat j) as [|q|q] eqn:S.
  - (* exactly 53 bits after the shift *)
    replace j with (Z.to_nat (53 - d)) at 1 by lia.
    rewrite round_aux_53; [f_equal; lia | exact D53 | lia].
  - (* more than 53 bits: the low bits are zero and are dropped *)
    replace (shl z j)
      with (shl (shl z (Z.to_nat (53 - d))) (Pos.to_nat q))
      by (rewrite shl_shl; f_equal; lia).
    rewrite round_aux_exact; [f_equal; lia | exact D53 | lia].
  - (* fewer than 53 bits: the mantissa is shifted up *)
    rewrite iter_shl, shl_shl.
    replace (j + Pos.to_nat q)%nat with (Z.to_nat (53 - d)) by lia.
    rewrite round_aux_53; [f_equal; lia | exact D53 | lia].
Qed.

Lemma normalize_whole (z : positive) :
  Zpos (digits2_pos z) <= 53 ->
  binary_normalize prec emax (Zpos z) 0 false = canon z.
Proof. intro D. exact (round_shifted z 0 D). Qed.

Lemma canon_valid (z : positive) :
  Zpos (digits2_pos z) <= 53 -> valid_binary (canon z) = true.
Proof.
  intro D. unfold canon, valid_binary, bounded, canonical_mantissa.
  rewrite digits_shl. unfold fexp, emin, prec, emax.
  pose proof (Pos2Z.is_pos (digits2_pos z)) as P.
  apply andb_true_iff. split; [apply Z.eqb_eq | apply Z.leb_le]; lia.
Qed.

(** The sum of two binary64 integers whose sum is below [2^53] is the
    binary64 of their sum. *)
Lemma add_canon (a b : positive) :
  Zpos (digits2_pos (a + b)) <= 53 ->
  Zpos (digits2_pos a) <= 53 -> Zpos (digits2_pos b) <= 53 ->
  SFadd prec emax (canon a) (canon b) = canon (a + b).
Proof.
  intros D Da Db. remember (canon (a + b)) as sum eqn:Sum.
  unfold SFadd, canon, shl_align.
  pose proof (Pos2Z.is_pos (digits2_pos a)) as Pa.
  pose proof (Pos2Z.is_pos (digits2_pos b)) as Pb.
  set (da := Zpos (digits2_pos a)) in *.
  set (db := Zpos (digits2_pos b)) in *.
  set (J := Z.to_nat (53 - Z.min da db)).
  replace (IntDef.Z.min (da - 53) (db - 53)) with (- Z.of_nat J)
    by (unfold J; lia).
  assert (forall d m, 0 < d <= 53 -> Z.min da db <= d ->
            fst match - Z.of_nat J - (d - 53) with
                | Z.neg k => (Pos.iter xO (shl m (Z.to_nat (53 - d))) k,
                              - Z.of_nat J)
                | _ => (shl m (Z.to_nat (53 - d)), d - 53)
                end = shl m J) as F.
  { intros d m Hd Hm.
    destruct (- Z.of_nat J - (d - 53)) as [|k|k] eqn:E; cbn [fst].
    - f_equal. unfold J in *. lia.
    - unfold J in *. lia.
    - rewrite iter_shl, shl_shl. f_equal. unfold J in *. lia. }
  rewrite (F da a), (F db b) by lia.
  cbn [cond_Zopp Z.add]. rewrite shl_add. subst sum.
  unfold binary_normalize. now apply round_shifted.
Qed.

Lemma Prim2SF_of_pos (z : positive) :
  (Zpos (digits2_pos z) <= 53)%Z -> Prim2SF (of_Z (Zpos z)) = canon z.
Proof.
  intro D. unfold of_Z. rewrite normalize_whole by exact D.
  apply Prim2SF_SF2Prim. now apply canon_valid.
Qed.

Lemma Prim2SF_of_zero : Prim2SF (of_Z 0) = S754_zero false.
Proof. reflexivity. Qed.

(** Addition is exact on the non-negative integers below [2^53]. *)
Lemma add_whole (a b : Z) :
  (0 <= a)%Z -> (0 <= b)%Z -> (a + b < 2 ^ 53)%Z ->
  (of_Z a + of_Z b)%float = of_Z (a + b).
Proof.
  intros Ha Hb H. apply Prim2SF_inj. rewrite add_spec.
  assert (forall p, (Zpos p < 2 ^ 53)%Z -> (Zpos (digits2_pos p) <= 53)%Z) as B
    by (intros p Hp; apply digits_bound; [lia | exact Hp]).
  destruct a as [|a|a]; [|destruct b as [|b|b]|]; try lia.
  - rewrite Prim2SF_of_zero. cbn [Z.add].
    destruct b as [|b|b]; try lia; [reflexivity|].
    rewrite Prim2SF_of_pos by (apply B; lia). reflexivity.
  - rewrite Z.add_0_r, Prim2SF_of_zero, Prim2SF_of_pos by (apply B; lia).
    reflexivity.
  - cbn [Z.add]. rewrite !Prim2SF_of_pos by (apply B; lia).
    apply add_canon; apply B; lia.
Qed.

End WholeNumberFacts.

(** ** The matchup aggregator *)

Module BvpFacts.

Import JsNumber Js Conversion Bvp BvpSpec WholeNumberFacts.

Lemma filter_permutation {A} (f : A -> bool) (l l' : list A) :
  Permutation l l' -> Permutation (filter f l) (filter f l').
Proof.
  induction 1 as [|x l l' _ IH|x y l|l l' l'' _ IH1 _ IH2]; simpl.
  - constructor.
  - destruct (f x); [now constructor | assumption].
  - destruct (f x), (f y); try reflexivity. constructor.
  - now transitivity (filter f l').
Qed.

Lemma counters_eq (a b c d e f g a' b' c' d' e' f' g' : Z) :
  a = a' -> b = b' -> c = c' -> d = d' -> e = e' -> f = f' -> g = g' ->
  (a, b, c, d, e, f, g) = (a', b', c', d', e', f', g').
Proof. now intros -> -> -> -> -> -> ->. Qed.

Lemma alike_refl (r : outcome BvpStats) : alike r r.
Proof. now destruct r. Qed.

Lemma alike_trans (r1 r2 r3 : outcome BvpStats) :
  alike r1 r2 -> alike r2 r3 -> alike r1 r3.
Proof.
  destruct r1, r2, r3; cbn; try tauto. intros; congruence.
Qed.

(** Whether a play makes the loop throw does not depend on the state, and
    the counters after it depend on the counters before it only. *)
Lemma count_play_alike (s s' : BvpStats) (play : Play) :
  counters s = counters s' -> alike (count_play s play) (count_play s' play).
Proof.
  intro H. unfold counters in H. injection H as Hpa Hab Hh Hhr Hk Hw Htb.
  unfold count_play, plus_assign.
  destruct (truthy (eventType play)); [|cbn; now apply counters_eq].
  cbn [negb].
  destruct (convertible (or_else (rbi play) (VNum 0%float)));
    cbn -[Z.add Z.mul]; [|exact I].
  rewrite Hpa, Hab, Hh, Hhr, Hk, Hw, Htb. reflexivity.
Qed.

(** Two plays in either order. *)
Lemma count_play_swap (s : BvpStats) (p q : Play) :
  alike (t <- count_play s p ;; count_play t q)
        (t <- count_play s q ;; count_play t p).
Proof.
  unfold count_play, plus_assign.
  destruct (truthy (eventType p)), (truthy (eventType q)); cbn [negb bind];
    try apply alike_refl;
    try (destruct (convertible (or_else (rbi p) (VNum 0%float))));
    try (destruct (convertible (or_else (rbi q) (VNum 0%float))));
    cbn -[Z.add Z.mul]; try exact I; try reflexivity.
  unfold counters; cbn -[Z.add Z.mul]. apply counters_eq; ring.
Qed.

Lemma count_plays_alike (plays : list Play) (s s' : BvpStats) :
  counters s = counters s' ->
  alike (count_plays plays s) (count_plays plays s').
Proof.
  revert s s'. induction plays as [|p plays IH]; intros s s' H; cbn.
  - exact H.
  - pose proof (count_play_alike s s' p H) as A.
    destruct (count_play s p) as [t|], (count_play s' p) as [t'|];
      cbn in *; try tauto. now apply IH.
Qed.

Lemma count_plays_permutation (l l' : list Play) :
  Permutation l l' ->
  forall s, alike (count_plays l s) (count_plays l' s).
Proof.
  induction 1 as [|x l l' _ IH|x y l|l l' l'' _ IH1 _ IH2]; intro s.
  - apply alike_refl.
  - cbn [count_plays]. destruct (count_play s x) as [t|]; cbn; [apply IH|exact I].
  - cbn [count_plays]. pose proof (count_play_swap s y x) as A.
    destruct (count_play s y) as [t|], (count_play s x) as [t'|];
      cbn [bind] in *.
    + destruct (count_play t x) as [u|], (count_play t' y) as [u'|];
        cbn in *; try tauto. now apply count_plays_alike.
    + destruct (count_play t x); cbn in *; tauto.
    + destruct (count_play t' y); cbn in *; tauto.
    + exact I.
  - exact (alike_trans _ _ _ (IH1 s) (IH2 s)).
Qed.

(** Plays that carry whole numbers of runs. *)

Lemma total_runs_permutation (runs : Play -> Z) (l l' : list Play) :
  Permutation l l' -> total_runs runs l = total_runs runs l'.
Proof.
  induction 1 as [|x l l' _ IH|x y l|l l' l'' _ IH1 _ IH2]; cbn;
    unfold total_runs in *; cbn; lia.
Qed.

Lemma credit_permutation (runs : Play -> Z) (l l' : list Play) :
  Permutation l l' -> credit runs l = credit runs l'.
Proof.
  induction 1 as [|x l l' _ IH|x y l|l l' l'' _ IH1 _ IH2]; cbn;
    unfold credit in *; cbn; lia.
Qed.

Lemma credited_bounds (runs : Play -> Z) (play : Play) :
  0 <= runs play -> 0 <= credited runs play <= runs play.
Proof.
  intro H. unfold credited. destruct (truthy (eventType play)); lia.
Qed.

Lemma total_runs_nonneg (runs : Play -> Z) (plays : list Play) :
  Forall (fun play => carries play (runs play)) plays ->
  0 <= total_runs runs plays.
Proof.
  induction 1 as [|play plays [H _] _ IH]; unfold total_runs in *; cbn; lia.
Qed.

Lemma filter_runs (runs : Play -> Z) (f : Play -> bool) (plays : list Play) :
  Forall (fun play => carries play (runs play)) plays ->
  Forall (fun play => carries play (runs play)) (filter f plays)
  /\ total_runs runs (filter f plays) <= total_runs runs plays.
Proof.
  induction 1 as [|play plays H F [IH1 IH2]]; cbn;
    [split; [constructor | lia]|].
  pose proof (total_runs_nonneg runs plays F) as T.
  destruct H as [P V].
  unfold total_runs in *. destruct (f play); cbn; split;
    try (constructor; [split|]; assumption); try assumption; lia.
Qed.

(** On a play that carries a whole number the loop adds exactly: the RBI
    total stays the binary64 of an integer. *)
Lemma count_whole_play (runs : Play -> Z) (s : BvpStats) (t : Z)
    (play : Play) :
  rbi_total s = VNum (of_Z t) -> 0 <= t ->
  carries play (runs play) -> t + runs play < 2 ^ 53 ->
  exists s', count_play s play = Ret s'
             /\ rbi_total s' = VNum (of_Z (t + credited runs play)).
Proof.
  intros R T [H0 H1] B. unfold count_play, credited.
  destruct (truthy (eventType play)); cbn [negb];
    [|exists s; split; [reflexivity | now rewrite Z.add_0_r]].
  rewrite H1, R. unfold plus_assign.
  cbn [convertible bind add ToPrimitive ToNumber].
  rewrite add_whole by lia. eexists. split; reflexivity.
Qed.

Lemma count_whole_plays (runs : Play -> Z) (plays : list Play)
    (s : BvpStats) (t : Z) :
  rbi_total s = VNum (of_Z t) -> 0 <= t ->
  Forall (fun play => carries play (runs play)) plays ->
  t + total_runs runs plays < 2 ^ 53 ->
  exists s', count_plays plays s = Ret s'
             /\ rbi_total s' = VNum (of_Z (t + credit runs plays)).
Proof.
  revert s t. induction plays as [|play plays IH]; intros s t R T F B.
  - exists s. split; [reflexivity|]. cbn. now rewrite Z.add_0_r.
  - inversion F as [|? ? Hp Fp]; subst.
    pose proof (total_runs_nonneg runs plays Fp).
    unfold total_runs in B. cbn [fold_right] in B.
    fold (total_runs runs plays) in B.
    destruct (count_whole_play runs s t play R T Hp) as [s1 [E1 R1]]; [lia|].
    cbn [count_plays]. rewrite E1. cbn [bind].
    pose proof (credited_bounds runs play (proj1 Hp)).
    destruct (IH s1 (t + credited runs play) R1) as [s2 [E2 R2]];
      [lia | exact Fp | lia|].
    exists s2. split; [exact E2|]. rewrite R2. unfold credit.
    cbn [fold_right]. f_equal. f_equal. lia.
Qed.

(** C9, as the code has it.  For every batter, pitcher and list of plays,
    a permutation of the plays changes neither the decision between an
    exception, [null] and an aggregate, nor any of the seven counters
    (plate appearances, at-bats, hits, home runs, strikeouts, walks, total
    bases).  The RBI total is the running sum [rbi += ...] of the engine:
    when every play carries a whole number of runs batted in that is not
    negative ([runs] gives it), and these sum to less than [2^53], the sum
    is exact and the whole result is the same for every permutation. *)
Theorem computeBvpStats_order_independent
    (batterId pitcherId : option Z) :
  (forall plays plays' : list Play,
      Permutation plays plays' ->
      outline (computeBvpStats batterId pitcherId plays)
      = outline (computeBvpStats batterId pitcherId plays'))
  /\ (forall (runs : Play -> Z) (plays plays' : list Play),
        Permutation plays plays' ->
        Forall (fun play => carries play (runs play)) plays ->
        total_runs runs plays < 2 ^ 53 ->
        computeBvpStats batterId pitcherId plays
        = computeBvpStats batterId pitcherId plays').
Proof.
  assert (forall plays plays' : list Play,
             Permutation plays plays' ->
             alike (count_plays (filter (relevant batterId pitcherId) plays) zero)
                   (count_plays (filter (relevant batterId pitcherId) plays')
                      zero)
             /\ (filter (relevant batterId pitcherId) plays = []
                 <-> filter (relevant batterId pitcherId) plays' = [])) as Core.
  { intros plays plays' H.
    pose proof (filter_permutation (relevant batterId pitcherId) _ _ H) as Hf.
    split; [now apply count_plays_permutation|].
    split; intro E; rewrite E in Hf.
    - now apply Permutation_nil in Hf.
    - now apply Permutation_sym, Permutation_nil in Hf. }
  split.
  - intros plays plays' H. destruct (Core plays plays' H) as [A N].
    unfold computeBvpStats.
    destruct (filter (relevant batterId pitcherId) plays) as [|x xs] eqn:E,
             (filter (relevant batterId pitcherId) plays') as [|y ys] eqn:E';
      try reflexivity;
      try (destruct N as [N1 N2]; (discriminate (N1 eq_refl))
                                  || (discriminate (N2 eq_refl))).
    destruct (count_plays (x :: xs) zero) as [s|],
             (count_plays (y :: ys) zero) as [s'|]; cbn in *; try tauto.
    now rewrite A.
  - intros runs plays plays' H F B.
    destruct (Core _ _ H) as [A N].
    unfold computeBvpStats.
    set (rel := relevant batterId pitcherId) in *.
    pose proof (filter_permutation rel _ _ H) as Hf.
    assert (Forall (fun play => carries play (runs play)) plays') as F'
      by (eapply Permutation_Forall; eassumption).
    assert (total_runs runs plays' < 2 ^ 53) as B'
      by now rewrite <- (total_runs_permutation runs _ _ H).
    destruct (filter_runs runs rel plays F) as [Fr Br].
    destruct (filter_runs runs rel plays' F') as [Fr' Br'].
    destruct (count_whole_plays runs (filter rel plays) zero 0 eq_refl)
      as [s [E R]]; [lia | exact Fr | lia|].
    destruct (count_whole_plays runs (filter rel plays') zero 0 eq_refl)
      as [s' [E' R']]; [lia | exact Fr' | lia|].
    rewrite E, E' in *. cbn [alike] in A.
    rewrite <- (credit_permutation runs _ _ Hf) in R'.
    assert (s = s') as <-.
    { destruct s, s'. cbn in *. unfold counters in A. cbn in A.
      injection A as -> -> -> -> -> -> ->. now rewrite R, R'. }
    destruct (filter rel plays) eqn:M, (filter rel plays') eqn:M';
      try reflexivity.
    + destruct N as [N _]. discriminate (N eq_refl).
    + destruct N as [_ N]. discriminate (N eq_refl).
Qed.

Lemma computeBvpStats_order_independent_witness :
  computeBvpStats (Some 660271) (Some 543037)
    (double_pa :: walk_pa :: later_plays)
  = computeBvpStats (Some 660271) (Some 543037) shuffled_plays.
Proof.
  apply (proj2 (computeBvpStats_order_independent (Some 660271) (Some 543037))
           sample_runs (double_pa :: walk_pa :: later_plays) shuffled_plays).
  - apply perm_swap.
  - repeat (apply Forall_cons; [split; [cbn; lia | reflexivity]|]).
    apply Forall_nil.
  - cbn. lia.
Defined.

(** C9 as stated fails: the RBI total is a sum of binary64 numbers taken
    in the order of the plays, and that sum depends on the order.  Three
    plays with [2^53], 1 and 1 runs batted in give 9007199254740992 when
    the large one comes first and 9007199254740994 when it comes last. *)
Lemma rbi_total_depends_on_order :
  Permutation big_first big_last
  /\ computeBvpStats (Some 660271) (Some 543037) big_first
     = Ret (Some (mkBvp 3 3 0 0 0 0 (VNum 9007199254740992) 0))
  /\ computeBvpStats (Some 660271) (Some 543037) big_last
     = Ret (Some (mkBvp 3 3 0 0 0 0 (VNum 9007199254740994) 0))
  /\ computeBvpStats (Some 660271) (Some 543037) big_first
     <> computeBvpStats (Some 660271) (Some 543037) big_last.
Proof.
  assert (computeBvpStats (Some 660271) (Some 543037) big_first
          = Ret (Some (mkBvp 3 3 0 0 0 0 (VNum 9007199254740992) 0))) as E1
    by (vm_compute; reflexivity).
  assert (computeBvpStats (Some 660271) (Some 543037) big_last
          = Ret (Some (mkBvp 3 3 0 0 0 0 (VNum 9007199254740994) 0))) as E2
    by (vm_compute; reflexivity).
  split; [|split; [exact E1 | split; [exact E2|]]].
  - unfold big_first, big_last.
    apply Permutation_sym. change [out 1; out 1; out 9007199254740992]
      with ([out 1; out 1] ++ [out 9007199254740992])%list.
    apply Permutation_app_comm.
  - rewrite E1, E2. discriminate.
Qed.

(** The totals of the plays above, and what text does to the RBI total. *)
Example computeBvpStats_sample :
  computeBvpStats (Some 660271) (Some 543037)
    (double_pa :: walk_pa :: later_plays)
  = Ret (Some (mkBvp 3 2 1 0 1 1 (VNum 1) 2))
  /\ computeBvpStats (Some 660271) (Some 999999)
       (double_pa :: walk_pa :: later_plays)
     = Ret None
  /\ computeBvpStats (Some 660271) (Some 543037)
       [ mkPlay (Some 660271) (Some 543037) (VStr "single") (VStr "1");
         mkPlay (Some 660271) (Some 543037) (VStr "single") (VNum 2) ]
     = Ret (Some (mkBvp 2 2 2 0 0 0 (VStr "012") 2))
  /\ computeBvpStats (Some 660271) (Some 543037)
       [ mkPlay (Some 660271) (Some 543037) (VStr "single")
           (VObj [("toString", VNum 1)]) ]
     = Throw.
Proof. repeat split; vm_compute; reflexivity. Qed.

End BvpFacts.

(** ** The participation classifier *)

Module ParticipationFacts.

Import Js PlayerUtils ParticipationSpec.

Lemma existsb_positive (block : value) :
  existsb positive_number (map snd (own_entries block)) = true
  <-> positive_field block.
Proof.
  rewrite existsb_exists. split.
  - intros [v [Hin Hpos]]. apply in_map_iff in Hin.
    destruct Hin as [[k v'] [Hv Hin]]. simpl in Hv. subst v'.
    destruct v as [| | |x| | |]; try discriminate.
    now exists k, x.
  - intros [k [x [Hin Hpos]]]. exists (VNum x). split; [|exact Hpos].
    apply in_map_iff. now exists (k, VNum x).
Qed.

Lemma falsy_no_entries (v : value) : truthy v = false -> own_entries v = [].
Proof.
  destruct v as [| |b|x|s|xs|fs]; simpl; try reflexivity; try discriminate.
  destruct s; [reflexivity | discriminate].
Qed.

(** What [has_positive] returns: a boolean for a truthy block, and a falsy
    block itself. *)
Lemma has_positive_value (block : value) :
  has_positive block
  = Ret (if truthy block
         then VBool (existsb positive_number (map snd (own_entries block)))
         else block).
Proof.
  unfold has_positive, Object_values.
  destruct (truthy block) eqn:T; [|reflexivity].
  assert (nullish block = false) as -> by (destruct block; easy).
  reflexivity.
Qed.

Lemma falsy_no_positive_field (block : value) :
  truthy block = false -> ~ positive_field block.
Proof.
  intros T [k [x [Hin _]]]. rewrite (falsy_no_entries _ T) in Hin.
  destruct Hin.
Qed.

Lemma lookup_chars (k : string) (s : string) (n : nat) :
  lookup k (indexed n (chars s)) = VUndefined
  \/ exists c, lookup k (indexed n (chars s)) = VStr (String c EmptyString).
Proof.
  revert n. induction s as [|c s IH]; intro n; simpl.
  - now left.
  - destruct (String.eqb k (string_of_nat n)); [right; now exists c | apply IH].
Qed.

Lemma no_number_in_chars (k : string) (x : float) (s : string) (n : nat) :
  ~ In (k, VNum x) (indexed n (chars s)).
Proof.
  revert n. induction s as [|c s IH]; intro n; simpl.
  - tauto.
  - intros [H|H]; [discriminate | now apply IH in H].
Qed.

(** A [stats] that fails the guard of the function has no sub-block with a
    positive field. *)
Lemma rejected_no_positive_field (stats : value) (k : string) :
  negb (truthy stats) || negb (String.eqb (typeof stats) "object") = true ->
  String.eqb k "length" = false ->
  ~ positive_field (get_opt stats k).
Proof.
  intros G K [k' [x [Hin _]]].
  destruct stats as [| |b|y|s|xs|fs]; try discriminate G;
    try (now destruct Hin).
  unfold get_opt, get_own in Hin. simpl nullish in Hin. cbv iota in Hin.
  rewrite K in Hin. simpl own_entries in Hin.
  destruct (lookup_chars k s 0) as [E|[c E]]; rewrite E in Hin.
  - destruct Hin.
  - now apply no_number_in_chars in Hin.
Qed.

(** C6, as the code has it.  [didPlayerParticipate] never throws, and it
    returns [true] if and only if at least one field under the [batting] or
    the [pitching] sub-block is a number strictly greater than zero.  In
    every other case (fields all absent or zero, an empty block, no
    sub-block, a [stats] that is no object) what it returns is falsy, but
    not always [false]: it is [false] when [stats] is no object or has a
    truthy [pitching], and otherwise the [pitching] of [stats] itself,
    which is [undefined] when [stats] has none. *)
Theorem didPlayerParticipate_iff_positive_field (stats : value) :
  exists r, didPlayerParticipate stats = Ret r
    /\ (r = VBool true
        <-> positive_field (get_opt stats "batting")
            \/ positive_field (get_opt stats "pitching"))
    /\ (r <> VBool true -> r = negative_answer stats /\ truthy r = false).
Proof.
  unfold didPlayerParticipate, negative_answer.
  destruct (negb (truthy stats) || negb (String.eqb (typeof stats) "object"))
    eqn:G.
  - exists (VBool false). split; [reflexivity|]. split.
    + split; [discriminate|].
      intros [H|H].
      * destruct (rejected_no_positive_field stats "batting" G eq_refl H).
      * destruct (rejected_no_positive_field stats "pitching" G eq_refl H).
    + intros _. split; [|reflexivity].
      destruct (truthy stats), (String.eqb (typeof stats) "object");
        try discriminate G; reflexivity.
  - assert (truthy stats = true /\ String.eqb (typeof stats) "object" = true)
      as [-> ->]
      by (destruct (truthy stats), (String.eqb (typeof stats) "object");
          try discriminate G; now split).
    assert (nullish stats = false) as N by (destruct stats; easy).
    unfold get. rewrite N. cbn [bind andb].
    assert (forall k, get_own stats k = get_opt stats k) as E
      by (intro k; unfold get_opt; now rewrite N).
    rewrite !E, !has_positive_value. cbn [bind].
    pose proof (existsb_positive (get_opt stats "batting")) as Pb.
    pose proof (existsb_positive (get_opt stats "pitching")) as Pp.
    pose proof (falsy_no_positive_field (get_opt stats "batting")) as Fb.
    pose proof (falsy_no_positive_field (get_opt stats "pitching")) as Fp.
    eexists. split; [reflexivity|]. unfold or_else.
    destruct (truthy (get_opt stats "batting")) eqn:Tb;
      [destruct (existsb _ (map snd (own_entries (get_opt stats "batting"))))|];
      cbn [truthy negb];
      (destruct (truthy (get_opt stats "pitching")) eqn:Tp;
       [destruct (existsb _ (map snd (own_entries (get_opt stats "pitching"))))|]);
      cbn [negb]; rewrite ?Tb, ?Tp; cbn [truthy].
    all: split; [split|].
    all: try (intros _; tauto).
    all: try discriminate.
    all: try (intros [H|H]; [apply Pb in H || apply Fb in H
                            | apply Pp in H || apply Fp in H]; 
              try discriminate; try tauto; try reflexivity).
    all: try (intros H; exfalso; now apply H).
    all: try (intros _; split; reflexivity).
    all: try (intros _; split; [reflexivity | exact Tp]).
    all: try (intros ->; discriminate).
    all: intros H; rewrite H in Tp; discriminate Tp.
Qed.

(** C6 as stated fails on an entirely empty block: it has no positive
    field, and the function returns [undefined], not [false]. *)
Lemma empty_block_yields_undefined :
  ~ (positive_field (get_opt (VObj []) "batting")
     \/ positive_field (get_opt (VObj []) "pitching"))
  /\ didPlayerParticipate (VObj []) = Ret VUndefined
  /\ didPlayerParticipate (VObj []) <> Ret (VBool false).
Proof.
  split; [|split; [reflexivity | discriminate]].
  intros [[k [x [H _]]] | [k [x [H _]]]]; destruct H.
Qed.

(** Scenario E of the specification: a block in which every field is 0; a
    block with batting fields only, all 0; a block with an at-bat. *)
Example scenario_E :
  didPlayerParticipate
    (VObj [ ("batting", VObj [("hits", VNum 0); ("atBats", VNum 0)]);
            ("pitching", VObj [("strikeOuts", VNum 0)]) ])
  = Ret (VBool false)
  /\ didPlayerParticipate (VObj [("batting", VObj [("hits", VNum 0)])])
     = Ret VUndefined
  /\ didPlayerParticipate
       (VObj [("batting", VObj [("hits", VNum 0); ("atBats", VNum 4)])])
     = Ret (VBool true).
Proof. repeat split; reflexivity. Qed.

End ParticipationFacts.

(** ** The rolling feature engine *)

Module DerivedStatsFacts.

Import JsNumber Js PropUtils DerivedStats DerivedStatsSpec.

(** A row dated on or after the as-of date leaves the running total and
    count as they are. *)
Lemma history_step_skips (D t : Z) (propType : string) (a : acc)
    (row : HistoryRow) :
  game_date row = Some t -> D <= t ->
  history_step (Some D) propType a row = a.
Proof.
  intros E H. unfold history_step, date_ge. rewrite E.
  now destruct (Z.leb_spec D t); [|lia].
Qed.

Lemma history_fold_skips (D t : Z) (propType : string)
    (pre post : list HistoryRow) (planted : HistoryRow) (a : acc) :
  game_date planted = Some t -> D <= t ->
  fold_left (history_step (Some D) propType) (pre ++ planted :: post) a
  = fold_left (history_step (Some D) propType) (pre ++ post) a.
Proof.
  intros E H. rewrite !fold_left_app. simpl.
  now rewrite (history_step_skips D t propType _ planted E H).
Qed.

(** Only the rows that are not dated on or after the as-of date enter the
    total and the count. *)
Lemma history_fold_prior_only (D : Z) (propType : string)
    (history : list HistoryRow) (a : acc) :
  fold_left (history_step (Some D) propType) history a
  = fold_left (history_step (Some D) propType)
      (filter (fun row => negb (date_ge (game_date row) (Some D))) history) a.
Proof.
  revert a. induction history as [|row rows IH]; intro a; simpl.
  - reflexivity.
  - destruct (date_ge (game_date row) (Some D)) eqn:G; simpl.
    + unfold history_step at 2. rewrite G. apply IH.
    + apply IH.
Qed.

Lemma cache_get_with (k' k : string) (before after : list (string * list HistoryRow))
    (rows : list HistoryRow) :
  cache_get k' (before ++ (k, rows) :: after)
  = match cache_get k' before with
    | Some r => Some r
    | None => if String.eqb k' k then Some rows else cache_get k' after
    end.
Proof.
  induction before as [|[k0 r0] before IH]; simpl.
  - reflexivity.
  - destruct (String.eqb k' k0); [reflexivity | apply IH].
Qed.

Lemma derive_key_planted (supabase playerId : value) (D t : Z)
    (before after : list (string * list HistoryRow)) (k : string)
    (pre post : list HistoryRow) (planted : HistoryRow)
    (sourceMode : string) (days : Z) (propType : string) :
  game_date planted = Some t -> D <= t ->
  derive_key supabase playerId (Some D)
    (cache_with before after k (pre ++ planted :: post)) sourceMode days propType
  = derive_key supabase playerId (Some D)
      (cache_with before after k (pre ++ post)) sourceMode days propType.
Proof.
  intros E H. unfold derive_key, cache_with.
  destruct (getRollingAverage supabase playerId (VStr propType)) as [avg|];
    [|reflexivity].
  simpl bind. destruct (Number_isFinite avg); [reflexivity|].
  destruct (String.eqb sourceMode "history"); [|reflexivity].
  rewrite !cache_get_with.
  destruct (cache_get (ToString playerId) before); [reflexivity|].
  destruct (String.eqb (ToString playerId) k); [|reflexivity].
  now rewrite (history_fold_skips D t propType pre post planted _ E H).
Qed.

(** C1.  Leakage safety of the rolling averages: whatever the history of
    the player and the as-of date [D], an observation dated [D] or later
    (the game being evaluated included, when it has the same date) enters
    neither the sum nor the count.  Planting a row with any value and any
    prop type at a date [t >= D] anywhere in the history of any player
    leaves every average of [getDerivedStats] unchanged. *)
Theorem getDerivedStats_leakage_safe
    (supabase playerId : value) (D t : Z)
    (before after : list (string * list HistoryRow)) (k : string)
    (pre post : list HistoryRow) (planted : HistoryRow) (sourceMode : string) :
  game_date planted = Some t ->
  D <= t ->
  getDerivedStats supabase playerId (Some D)
    (cache_with before after k (pre ++ planted :: post)) sourceMode
  = getDerivedStats supabase playerId (Some D)
      (cache_with before after k (pre ++ post)) sourceMode.
Proof.
  intros E H. unfold getDerivedStats.
  apply flat_map_ext. intro days. apply flat_map_ext. intro propType.
  now rewrite (derive_key_planted supabase playerId D t before after k pre post
                 planted sourceMode days propType E H).
Qed.

Lemma getDerivedStats_leakage_safe_witness :
  getDerivedStats client (VNum 592450) (day 100)
    (cache_with [] [] "592450"
       ([hits_row 98 1] ++ hits_row 100 1000 :: [hits_row 99 2])) "history"
  = getDerivedStats client (VNum 592450) (day 100)
      (cache_with [] [] "592450" ([hits_row 98 1] ++ [hits_row 99 2])) "history".
Proof.
  apply (getDerivedStats_leakage_safe client (VNum 592450)
           (100 * msPerDay) (100 * msPerDay) [] [] "592450"
           [hits_row 98 1] [hits_row 99 2] (hits_row 100 1000) "history").
  - reflexivity.
  - lia.
Defined.

(** The averages of the history above: the planted 1000 is not in them. *)
Example getDerivedStats_sample :
  getDerivedStats client (VNum 592450) (day 100)
    (cache_with [] [] "592450"
       ([hits_row 98 1] ++ hits_row 100 1000 :: [hits_row 99 2])) "history"
  = [("d7_hits", 1.5%float); ("d15_hits", 1.5%float); ("d30_hits", 1.5%float)].
Proof. vm_compute. reflexivity. Qed.

(** In history mode the number of days of the window has no effect: the
    three windows of a prop type always carry the same average. *)
Lemma history_mode_window_irrelevant (supabase playerId : value) (now : Date)
    (rows : list (string * list HistoryRow)) (days days' : Z)
    (propType : string) :
  derive_key supabase playerId now (PlayerRows rows) "history" days propType
  = derive_key supabase playerId now (PlayerRows rows) "history" days' propType.
Proof. reflexivity. Qed.

(** In boxscore mode a box dated before the start of the window is skipped
    (as is one dated on or after the as-of date). *)
Lemma boxscore_step_outside_window (now : Date) (days : Z) (playerId : value)
    (propType : string) (a : acc) (boxDate : Date) (ps : list value) :
  date_lt boxDate (days_before now days) = true \/ date_ge boxDate now = true ->
  boxscore_step now (days_before now days) playerId propType a
    (mkBox (Some boxDate) ps) = Ret a.
Proof.
  intros [H|H]; unfold boxscore_step; cbn [gameDate]; rewrite H;
    [reflexivity | now rewrite orb_true_r].
Qed.

(** C8.  The calendar window is not applied in history mode (the default
    mode): with as-of date day 100 and a single observation of 4 hits on day
    0, the 7-day, 15-day and 30-day averages are all 4, although the
    observation is 100 days old. *)
Theorem history_mode_ignores_window :
  getDerivedStats client (VNum 592450) (day 100)
    (PlayerRows [("592450", [hits_row 0 4])]) "history"
  = [("d7_hits", 4%float); ("d15_hits", 4%float); ("d30_hits", 4%float)].
Proof. vm_compute. reflexivity. Qed.

(** The same observation in boxscore mode is outside every window. *)
Example boxscore_mode_applies_window :
  getDerivedStats client (VNum 592450) (day 100)
    (Boxscores
       [ mkBox (Some (day 0))
           [ VObj [ ("person", VObj [("id", VNum 592450)]);
                    ("stats", VObj [("batting", VObj [("hits", VNum 4)])]) ] ];
         mkBox (Some (day 98))
           [ VObj [ ("person", VObj [("id", VNum 592450)]);
                    ("stats", VObj [("batting", VObj [("hits", VNum 1)])]) ] ] ])
    "boxscore"
  = [ ("d7_hits", 1%float); ("d7_hits_allowed", 1%float);
      ("d7_singles", 1%float);
      ("d15_hits", 1%float); ("d15_hits_allowed", 1%float);
      ("d15_singles", 1%float);
      ("d30_hits", 1%float); ("d30_hits_allowed", 1%float);
      ("d30_singles", 1%float) ].
Proof. vm_compute. reflexivity. Qed.

(** Boxscore mode is leakage safe as well: a box dated on or after the as-of
    date, planted anywhere among the boxes, changes no average. *)
Lemma fold_boxes_app (f : acc -> Box -> outcome acc) (xs ys : list Box)
    (a : acc) :
  fold_boxes f (xs ++ ys) a = (a' <- fold_boxes f xs a ;; fold_boxes f ys a').
Proof.
  revert a. induction xs as [|x xs IH]; intro a; simpl.
  - reflexivity.
  - destruct (f a x) as [a'|]; simpl; [apply IH | reflexivity].
Qed.

Lemma boxscore_mode_leakage_safe (supabase playerId : value) (D t : Z)
    (pre post : list Box) (boxDate : Date) (ps : list value) :
  boxDate = Some t -> D <= t ->
  getDerivedStats supabase playerId (Some D)
    (Boxscores (pre ++ mkBox (Some boxDate) ps :: post)) "boxscore"
  = getDerivedStats supabase playerId (Some D) (Boxscores (pre ++ post))
      "boxscore".
Proof.
  intros -> H. unfold getDerivedStats.
  apply flat_map_ext. intro days. apply flat_map_ext. intro propType.
  unfold derive_key.
  destruct (getRollingAverage supabase playerId (VStr propType)) as [avg|];
    [|reflexivity].
  cbn [bind]. destruct (Number_isFinite avg); [reflexivity|].
  change (String.eqb "boxscore" "history") with false.
  change (String.eqb "boxscore" "boxscore") with true. cbv iota.
  rewrite !fold_boxes_app.
  destruct (fold_boxes _ pre (0, 0)%float) as [a|]; [|reflexivity].
  cbn [bind fold_boxes].
  rewrite (boxscore_step_outside_window (Some D) days playerId propType a
             (Some t) ps); [reflexivity|].
  right. simpl. now apply Z.leb_le.
Qed.

(** The first attempt of [getDerivedStats] never yields a value: the call
    passes [(supabase, playerId, propType, ...)] to a function that takes
    [(history, propType, windowSize)], so that the window size is the prop
    type, which is not a number. *)
Lemma slice_end_prop_type (len : nat) :
  Forall (fun propType => slice_end len (VStr propType) = O) VALID_PROP_TYPES.
Proof. repeat (apply Forall_cons; [vm_compute; reflexivity|]). apply Forall_nil. Qed.

Lemma db_first_attempt_is_null (supabase playerId : value) (propType : string) :
  In propType VALID_PROP_TYPES ->
  getRollingAverage supabase playerId (VStr propType) = Ret VNull.
Proof.
  intro Hin. unfold getRollingAverage.
  destruct supabase as [| | | | |games|]; try reflexivity.
  destruct (negb (truthy playerId)); [reflexivity|].
  pose proof (slice_end_prop_type (List.length games)) as F.
  rewrite Forall_forall in F. rewrite (F _ Hin). reflexivity.
Qed.

(** In history mode the value under a key is the plain mean of the finite
    values of the rows of the player with that prop type, dated before the
    as-of date. *)
Lemma derive_key_history (supabase playerId : value) (now : Date)
    (rows : list (string * list HistoryRow)) (days : Z) (propType : string) :
  In propType VALID_PROP_TYPES ->
  derive_key supabase playerId now (PlayerRows rows) "history" days propType
  = let history :=
      match cache_get (ToString playerId) rows with
      | Some h => h
      | None => []
      end in
    let totals := fold_left (history_step now propType) history (0, 0)%float in
    if PrimFloat.ltb 0 (snd totals)
    then Some (fst totals / snd totals)%float else None.
Proof.
  intro Hin. unfold derive_key.
  rewrite (db_first_attempt_is_null _ _ _ Hin). cbn [bind Number_isFinite].
  change (String.eqb "history" "history") with true. cbv iota. cbn [bind].
  now destruct (fold_left _ _ _) as [total count].
Qed.

Lemma cache_get_prior (D : Z) (k : string)
    (rows : list (string * list HistoryRow)) :
  cache_get k (prior_rows D rows)
  = option_map (filter (prior_to D)) (cache_get k rows).
Proof.
  induction rows as [|[k' h] rows IH]; simpl.
  - reflexivity.
  - destruct (String.eqb k k'); [reflexivity | exact IH].
Qed.

(** The averages depend on the rows prior to the as-of date only. *)
Lemma getDerivedStats_prior_only (supabase playerId : value) (D : Z)
    (rows : list (string * list HistoryRow)) (sourceMode : string) :
  getDerivedStats supabase playerId (Some D) (PlayerRows rows) sourceMode
  = getDerivedStats supabase playerId (Some D) (PlayerRows (prior_rows D rows))
      sourceMode.
Proof.
  unfold getDerivedStats.
  apply flat_map_ext. intro days. apply flat_map_ext. intro propType.
  unfold derive_key.
  destruct (getRollingAverage supabase playerId (VStr propType)) as [avg|];
    [|reflexivity].
  cbn [bind]. destruct (Number_isFinite avg); [reflexivity|].
  destruct (String.eqb sourceMode "history"); [|reflexivity].
  rewrite cache_get_prior.
  destruct (cache_get (ToString playerId) rows) as [h|]; [|reflexivity].
  cbn [option_map].
  now rewrite (history_fold_prior_only D propType h).
Qed.

End DerivedStatsFacts.

(** ** The outcome grader *)

Module GraderFacts.

Import Js PropUtils GraderSpec.

Lemma toLowerCase_empty (s : string) :
  String.eqb (toLowerCase s) "" = String.eqb s "".
Proof. now destruct s. Qed.

Lemma wins_dec (d : string) (x l : float) :
  (strict_eq (VStr d) (VStr "over") && PrimFloat.ltb l x
   || strict_eq (VStr d) (VStr "under") && PrimFloat.ltb x l) = true
  <-> wins d x l.
Proof.
  unfold wins. simpl strict_eq.
  rewrite orb_true_iff, !andb_true_iff, !String.eqb_eq. tauto.
Qed.

Lemma determineStatus_string (x l : float) (s : string) :
  determineStatus (VNum x) (VNum l) (VStr s)
  = Ret (if String.eqb s "" then invalid
         else if PrimFloat.eqb x l then push
         else if strict_eq (VStr (toLowerCase s)) (VStr "over") && PrimFloat.ltb l x
                 || strict_eq (VStr (toLowerCase s)) (VStr "under")
                    && PrimFloat.ltb x l
              then win else loss).
Proof.
  unfold determineStatus. cbn [toLowerCase_opt bind truthy].
  rewrite toLowerCase_empty.
  destruct (String.eqb s ""); [reflexivity|].
  cbn [negb]. now destruct (PrimFloat.eqb x l).
Qed.

(** C2, as the code has it.  With a direction that is a string, [null] or
    [undefined] (more generally, whenever reading the direction does not
    throw):
    - the verdict is [invalid] when the value or the line is not of type
      number, or when the direction is absent or the empty string;
    - with two numbers and a direction that is a non-empty string, whatever
      it spells, the verdict is never [invalid]: it is [push] exactly when
      the value equals the line, [win] exactly when they differ and the
      lower-cased direction is over with the value above the line or under
      with the value below it, and [loss] in every remaining case (which
      includes every direction other than over and under). *)
Theorem determineStatus_contract :
  (forall actual line overUnder,
      toLowerCase_opt overUnder <> Throw ->
      is_number actual = false \/ is_number line = false
      \/ present_direction overUnder = false ->
      determineStatus actual line overUnder = Ret invalid)
  /\ (forall x l s,
         s <> "" ->
         (determineStatus (VNum x) (VNum l) (VStr s) = Ret push
          <-> PrimFloat.eqb x l = true)
         /\ (determineStatus (VNum x) (VNum l) (VStr s) = Ret win
             <-> PrimFloat.eqb x l = false /\ wins (toLowerCase s) x l)
         /\ (determineStatus (VNum x) (VNum l) (VStr s) = Ret loss
             <-> PrimFloat.eqb x l = false /\ ~ wins (toLowerCase s) x l)).
Proof.
  split.
  - intros actual line overUnder NT H. unfold determineStatus.
    destruct (toLowerCase_opt overUnder) as [d|] eqn:E; [|congruence].
    simpl bind.
    destruct actual as [| | |x| | |]; try reflexivity.
    destruct line as [| | |l| | |]; try reflexivity.
    destruct H as [H|[H|H]]; try discriminate.
    assert (truthy d = false) as ->; [|reflexivity].
    destruct overUnder as [| |b|y|s|xs|fs]; simpl in E;
      try (injection E as <-; reflexivity).
    + injection E as <-. simpl in *. rewrite toLowerCase_empty.
      now destruct (String.eqb s "").
    + destruct (nullish (lookup "toLowerCase" fs)); [|discriminate].
      now injection E as <-.
  - intros x l s Hs. rewrite determineStatus_string.
    destruct (String.eqb_spec s ""); [contradiction|].
    destruct (PrimFloat.eqb x l).
    + repeat split; try discriminate; try reflexivity; intros [? _]; discriminate.
    + pose proof (wins_dec (toLowerCase s) x l) as W.
      destruct (strict_eq (VStr (toLowerCase s)) (VStr "over") && PrimFloat.ltb l x
                || strict_eq (VStr (toLowerCase s)) (VStr "under")
                   && PrimFloat.ltb x l).
      * repeat split; try discriminate; try tauto.
      * repeat split; try discriminate; try tauto.
        all: intuition discriminate.
Qed.

(** C2 as stated fails: a direction that is neither over nor under is not
    graded [invalid]; here it is graded [loss]. *)
Lemma determineStatus_malformed_direction :
  well_formed_direction (VStr "sideways") = false
  /\ determineStatus (VNum 2) (VNum 1.5) (VStr "sideways") = Ret loss.
Proof. split; reflexivity. Qed.

(** Scenarios B and C of the specification. *)
Example scenario_B :
  determineStatus (VNum 1.5) (VNum 1.5) (VStr "over") = Ret push
  /\ determineStatus (VNum 1.5) (VNum 1.5) (VStr "under") = Ret push.
Proof. split; reflexivity. Qed.

Example scenario_C :
  determineStatus (VNum 2) (VNum 1.5) (VStr "over") = Ret win
  /\ determineStatus (VNum 2) (VNum 1.5) (VStr "under") = Ret loss.
Proof. split; reflexivity. Qed.

End GraderFacts.

(** ** The stat extractors *)

Module ExtractorFacts.

Import JsNumber Js PropUtils Resolution ExtractorSpec.

(** *** Unknown prop types *)

Ltac split_labels H :=
  repeat match type of H with
         | (_ || _)%bool = false =>
             let H1 := fresh "L" in
             apply orb_false_iff in H; destruct H as [H1 H]
         end.

Lemma get_not_nullish (v : value) (k : string) :
  nullish v = false -> get v k = Ret (get_own v k).
Proof. unfold get. now intros ->. Qed.

Lemma guard_not_nullish (stats : value) :
  negb (truthy stats) || negb (String.eqb (typeof stats) "object") = false ->
  nullish stats = false.
Proof. now destruct stats. Qed.

(** C5, as the code has it.  For every stats block and every prop type that
    is not one of the labels the extractor switches on, the extractor
    returns no value and does not throw: [extractStatForPropType] returns
    [null] and [derivePropValue] returns [undefined]; neither is a number. *)
Theorem unknown_prop_type_rejected (stats propType : value) :
  (is_label extract_labels propType = false ->
   extractStatForPropType stats propType = Ret VNull)
  /\ (is_label derive_labels propType = false ->
      derivePropValue propType stats = Ret VUndefined).
Proof.
  split; intro H; unfold is_label in H; simpl in H; split_labels H.
  - unfold extractStatForPropType.
    destruct (negb (truthy stats) || negb (String.eqb (typeof stats) "object"))
      eqn:G; [reflexivity|].
    rewrite !(get_not_nullish stats) by now apply guard_not_nullish.
    cbn [bind].
    repeat match goal with
           | E : is_case propType _ = false |- _ => rewrite E; clear E
           end.
    reflexivity.
  - unfold derivePropValue.
    repeat match goal with
           | E : is_case propType _ = false |- _ => rewrite E; clear E
           end.
    reflexivity.
Qed.

(** C5 as stated fails: [runs_scored] is neither in [VALID_PROP_TYPES] nor in
    the enumeration of the specification, and both extractors return the
    runs for it. *)
Lemma runs_scored_not_rejected :
  existsb (String.eqb "runs_scored") VALID_PROP_TYPES = false
  /\ existsb (String.eqb "runs_scored") spec_prop_types = false
  /\ extractStatForPropType
       (VObj [("batting", VObj [("runs", VNum 2)])]) (VStr "runs_scored")
     = Ret (VNum 2)
  /\ derivePropValue (VStr "runs_scored")
       (VObj [("batting", VObj [("runs", VNum 2)])])
     = Ret (VNum 2).
Proof. repeat split; reflexivity. Qed.

Example bogus_prop_type_rejected :
  extractStatForPropType
    (VObj [("batting", VObj [("hits", VNum 2)])]) (VStr "bogus") = Ret VNull
  /\ derivePropValue (VStr "bogus")
       (VObj [("batting", VObj [("hits", VNum 2)])]) = Ret VUndefined.
Proof. split; reflexivity. Qed.

(** *** Composite stats *)

Lemma num_or_zero_as_zero (v : value) :
  absent_or_finite v -> num_or_zero v = as_zero v.
Proof.
  intros [->|[x [-> F]]]; [reflexivity|].
  unfold num_or_zero, num. simpl. now rewrite F.
Qed.

Lemma coalesce_absent_or_finite (a b : value) :
  absent_or_finite a -> absent_or_finite b -> absent_or_finite (coalesce a b).
Proof. intros [->|[x [-> F]]] Hb; [exact Hb | right; now exists x]. Qed.

Lemma addend_ok (fs : list (string * value)) (k : string) :
  Forall (fun k => absent_or_finite (lookup k fs)) addend_keys ->
  In k addend_keys -> absent_or_finite (lookup k fs).
Proof. intros H Hin. rewrite Forall_forall in H. now apply H. Qed.

Ltac addends H :=
  rewrite ?num_or_zero_as_zero
    by (try apply coalesce_absent_or_finite; apply (addend_ok _ _ H);
        simpl; tauto).

(** C4, as the code has it.  For a stats block whose batting fields are each
    absent or a finite number:
    - [extractStatForPropType] takes every absent addend of a composite stat
      as zero, whether or not another addend is present: [hits_runs_rbis] is
      hits + runs + RBI, [runs_rbis] is runs + RBI, and [singles] is
      hits - doubles - triples - home runs ([null] only if that difference
      overflows); with no addend at all the three are 0, not [null];
    - [derivePropValue] returns [null] for [hits_runs_rbis] when none of
      hits, runs and RBI is present, and otherwise their sum with every
      absent addend taken as zero. *)
Theorem composite_absent_addend_is_zero (fs : list (string * value)) :
  Forall (fun k => absent_or_finite (lookup k fs)) addend_keys ->
  extractStatForPropType (batting_block fs) (VStr "hits_runs_rbis")
  = Ret (VNum (as_zero (lookup "hits" fs) + as_zero (lookup "runs" fs)
               + as_zero (coalesce (lookup "rbi" fs) (lookup "rbis" fs)))%float)
  /\ extractStatForPropType (batting_block fs) (VStr "runs_rbis")
     = Ret (VNum (as_zero (lookup "runs" fs)
                  + as_zero (coalesce (lookup "rbi" fs) (lookup "rbis" fs)))%float)
  /\ extractStatForPropType (batting_block fs) (VStr "singles")
     = Ret (let sgl :=
              (as_zero (lookup "hits" fs) - as_zero (lookup "doubles" fs)
               - as_zero (lookup "triples" fs)
               - as_zero (coalesce (lookup "homeRuns" fs)
                            (lookup "home_runs" fs)))%float in
            if PrimFloat.is_finite sgl then VNum sgl else VNull)
  /\ derivePropValue (VStr "hits_runs_rbis") (batting_block fs)
     = Ret (if is_number (lookup "hits" fs) || is_number (lookup "runs" fs)
               || is_number (lookup "rbi" fs)
            then VNum (as_zero (lookup "hits" fs) + as_zero (lookup "runs" fs)
                       + as_zero (lookup "rbi" fs))%float
            else VNull).
Proof.
  intro H. repeat split.
  - unfold extractStatForPropType, batting_block. cbn.
    unfold coalesce. destruct (nullish (lookup "rbi" fs)) eqn:N; cbn [bind];
      addends H; reflexivity.
  - unfold extractStatForPropType, batting_block. cbn.
    unfold coalesce. destruct (nullish (lookup "rbi" fs)) eqn:N; cbn [bind];
      addends H; reflexivity.
  - unfold extractStatForPropType, batting_block. cbn.
    unfold coalesce. destruct (nullish (lookup "homeRuns" fs)) eqn:N; cbn [bind];
      addends H; reflexivity.
  - unfold derivePropValue, batting_block. cbn.
    destruct (addend_ok fs "hits" H) as [->|[h [-> _]]]; [simpl; tauto| |];
    destruct (addend_ok fs "runs" H) as [->|[r [-> _]]]; try (simpl; tauto);
    destruct (addend_ok fs "rbi" H) as [->|[i [-> _]]]; try (simpl; tauto);
    reflexivity.
Qed.

Lemma composite_absent_addend_is_zero_witness :
  Forall (fun k => absent_or_finite (lookup k scenario_A)) addend_keys
  /\ extractStatForPropType (batting_block scenario_A) (VStr "singles")
     = Ret (VNum 1)
  /\ extractStatForPropType (batting_block scenario_A) (VStr "hits_runs_rbis")
     = Ret (VNum 2).
Proof.
  assert (Forall (fun k => absent_or_finite (lookup k scenario_A)) addend_keys)
    as HF.
  { unfold addend_keys.
    repeat (apply Forall_cons;
            [ first [ left; reflexivity
                    | right; eexists; split; reflexivity ] | ]).
    apply Forall_nil. }
  split; [exact HF|].
  destruct (composite_absent_addend_is_zero scenario_A HF) as [E1 [_ [E3 _]]].
  split; [rewrite E3 | rewrite E1]; reflexivity.
Defined.

(** C4 as stated fails: with every addend absent, [extractStatForPropType]
    returns 0 for each composite stat, not [null]. *)
Lemma composite_all_absent_is_zero_not_null :
  extractStatForPropType (batting_block []) (VStr "singles") = Ret (VNum 0)
  /\ extractStatForPropType (batting_block []) (VStr "hits_runs_rbis")
     = Ret (VNum 0)
  /\ extractStatForPropType (batting_block []) (VStr "runs_rbis") = Ret (VNum 0).
Proof. repeat split; reflexivity. Qed.

(** In [derivePropValue] the missing-addend policy of [hits_runs_rbis] is not
    repeated for [runs_rbis] and [singles]: an absent addend makes them
    [NaN]. *)
Example derivePropValue_missing_addend_nan :
  derivePropValue (VStr "runs_rbis") (batting_block [("runs", VNum 1)])
  = Ret (VNum nan)
  /\ derivePropValue (VStr "singles") (batting_block [("hits", VNum 1)])
     = Ret (VNum nan)
  /\ derivePropValue (VStr "hits_runs_rbis") (batting_block [("runs", VNum 1)])
     = Ret (VNum 1).
Proof. repeat split; reflexivity. Qed.

(** *** Totality of [extractStatForPropType] *)

(** C10.  [extractStatForPropType] can return a number that is not finite:
    innings pitched given as [Infinity] (the number, or the string) come out
    of [ipToOuts] as [Infinity], and the sum of [hits_runs_rbis] can
    overflow.  [num] and the [singles] case check for this; [ipToOuts] checks
    for [NaN] only, and the two sums are not checked. *)
Theorem extractStat_returns_infinity :
  extractStatForPropType
    (VObj [("pitching", VObj [("inningsPitched", VStr "Infinity")])])
    (VStr "outs_recorded")
  = Ret (VNum infinity)
  /\ extractStatForPropType
       (VObj [("pitching", VObj [("inningsPitched", VNum infinity)])])
       (VStr "pitching_outs")
     = Ret (VNum infinity)
  /\ PrimFloat.is_finite huge = true
  /\ extractStatForPropType
       (batting_block [("hits", VNum huge); ("runs", VNum huge)])
       (VStr "hits_runs_rbis")
     = Ret (VNum infinity).
Proof. repeat split; vm_compute; reflexivity. Qed.

(** The usual innings pitched. *)
Example innings_5_2 :
  extractStatForPropType
    (VObj [("pitching", VObj [("inningsPitched", VStr "5.2")])])
    (VStr "outs_recorded")
  = Ret (VNum 17).
Proof. vm_compute. reflexivity. Qed.

(** On every value and for every prop type, [extractStatForPropType] returns
    without throwing, and what it returns is [null] or a number. *)
Lemma num_null_or_number (x : value) :
  num x = VNull \/ exists n, num x = VNum n.
Proof.
  unfold num. destruct (nullish x); [now left|].
  destruct (PrimFloat.is_finite (ToNumber x)); [right; eauto | now left].
Qed.

Lemma ipToOuts_null_or_number (ip : value) :
  ipToOuts ip = VNull \/ exists n, ipToOuts ip = VNum n.
Proof.
  unfold ipToOuts. destruct (nullish ip); [now left|].
  match goal with |- context [PrimFloat.is_nan ?w] =>
    destruct (PrimFloat.is_nan w) end; [now left | right; eauto].
Qed.

Lemma first_of_total (o : value) (keys : list string) :
  nullish o = false -> exists v, first_of o keys = Ret v.
Proof.
  intro N. induction keys as [|k ks IH]; simpl.
  - eauto.
  - destruct ks as [|k' ks'].
    + rewrite (get_not_nullish o k N). eauto.
    + rewrite (get_not_nullish o k N). cbn [bind].
      destruct (nullish (get_own o k)); [exact IH | eauto].
Qed.

Lemma truthy_not_nullish (v : value) : truthy v = true -> nullish v = false.
Proof. now destruct v. Qed.

Lemma or_else_not_nullish (a b : value) :
  nullish b = false -> nullish (or_else a b) = false.
Proof.
  intro N. unfold or_else. destruct (truthy a) eqn:T; [|exact N].
  now apply truthy_not_nullish.
Qed.

Ltac extract_case :=
  match goal with
  | |- context [first_of ?o ?ks] =>
      let v := fresh "v" in
      let E := fresh "E" in
      destruct (first_of_total o ks) as [v E];
      [assumption | rewrite E; cbn [bind]; apply num_null_or_number]
  | |- context [get ?o ?k] =>
      rewrite (get_not_nullish o k) by assumption; cbn [bind];
      apply num_null_or_number
  end.

Lemma extractStatForPropType_total (stats propType : value) :
  exists v, extractStatForPropType stats propType = Ret v
            /\ (v = VNull \/ exists n, v = VNum n).
Proof.
  assert (forall r : outcome value,
             (exists v, r = Ret v /\ (v = VNull \/ exists n, v = VNum n))
             <-> match r with
                 | Ret v => v = VNull \/ exists n, v = VNum n
                 | Throw => False
                 end) as R.
  { intros [v|]; split.
    - now intros [v' [[= <-] H]].
    - intro H. now exists v.
    - now intros [v' [[=] _]].
    - intros []. }
  apply R. clear R. unfold extractStatForPropType.
  destruct (negb (truthy stats) || negb (String.eqb (typeof stats) "object"))
    eqn:G; [now left|].
  pose proof (guard_not_nullish stats G) as N.
  rewrite !(get_not_nullish stats) by exact N. cbn [bind].
  set (b := or_else (or_else _ _) stats).
  set (p := or_else _ stats).
  assert (nullish b = false) as Nb by now apply or_else_not_nullish.
  assert (nullish p = false) as Np by now apply or_else_not_nullish.
  repeat match goal with
         | |- context [if ?c then _ else _] =>
             match c with
             | context [is_case propType] => destruct c eqn:?
             end
         end;
    try extract_case.
  - rewrite 3!(get_not_nullish b) by assumption. cbn [bind].
    destruct (first_of_total b ["homeRuns"; "home_runs"] Nb) as [hr E].
    rewrite E. cbn [bind].
    match goal with |- context [PrimFloat.is_finite ?x] =>
      destruct (PrimFloat.is_finite x) end; [right; eauto | now left].
  - rewrite 2!(get_not_nullish b) by assumption. cbn [bind].
    destruct (first_of_total b ["rbi"; "rbis"] Nb) as [i E].
    rewrite E. cbn [bind]. right; eauto.
  - rewrite (get_not_nullish b) by assumption. cbn [bind].
    destruct (first_of_total b ["rbi"; "rbis"] Nb) as [i E].
    rewrite E. cbn [bind]. right; eauto.
  - rewrite (get_not_nullish p) by assumption. cbn [bind].
    destruct (nullish (num (get_own p "outs"))).
    + rewrite (get_not_nullish p) by assumption. cbn [bind].
      apply ipToOuts_null_or_number.
    + apply num_null_or_number.
  - now left.
Qed.

End ExtractorFacts.

(** ** The resolution chain *)

Module ResolutionFacts.

Import JsNumber Js PropUtils PlayerUtils Resolution ResolutionSpec.



(** The box-score lookup never throws. *)
Lemma getPlayerStatsFromBoxscore_total (boxscore : response) (player_id : value) :
  exists v, getPlayerStatsFromBoxscore boxscore player_id = Ret v.
Proof.
  unfold getPlayerStatsFromBoxscore, try_catch.
  match goal with |- exists v, match ?b with _ => _ end = _ => destruct b end;
    eexists; reflexivity.
Qed.

(** A request that fails, or a response that is not [ok], gives [null]. *)
Lemma getPlayerStatsFromBoxscore_failed (player_id : value) :
  getPlayerStatsFromBoxscore Throw player_id = Ret VNull
  /\ getPlayerStatsFromBoxscore (Ret None) player_id = Ret VNull.
Proof. split; reflexivity. Qed.




(** The tally of the plays of scenario D does count one hit, but
    [getStatFromLiveFeed] passes the tally through [flattenPlayerBoxscore],
    which reads a [stats] property the tally does not have: the fallback
    answers [undefined], and a chain that reaches it reports ["missing"]. *)
Example fallback_drops_the_tally :
  extractStatFromPlays
    [play 592450 543037 "single"; play 592450 543037 "strikeout"] (VNum 592450)
  = Ret (VObj [ ("batting",
                 VObj [ ("singles", VNum 1); ("hits", VNum 1);
                        ("strikeouts", VNum 1) ]);
                ("pitching", VObj []) ])
  /\ getStatFromLiveFeed (Ret feed_D) (VNum 592450) (VStr "hits")
     = Ret VUndefined
  /\ resolveStatForPlayer (Ret (Some boxscore_without_stats)) (Ret feed_D)
       (VNum 592450) (VStr "hits")
     = Ret (mkResolution VUndefined "missing"
              (VObj [("player_id", VNum 592450); ("team_abbr", VNull)])).
Proof. repeat split; vm_compute; reflexivity. Qed.

End ResolutionFacts.

(** ** The streak scripts *)

Module StreakFacts.

Import Js Streaks StreakSpec.

(** C7.  On the outcomes win, win, loss, win (most recent first) the
    backfill script reports a hot streak of 1: its loop runs on to the
    oldest outcome and keeps the last run it met, not the run that starts at
    the most recent outcome.  The profile script, which sorts by date and
    keeps the run that ends at the most recent outcome, reports the hot
    streak of 2. *)
Theorem backfill_streak_is_oldest_run :
  Backfill.computeStreaks recent_first = Ret [streak "hot" 1]
  /\ Profiles.computeStreaks recent_first = Ret [streak "hot" 2].
Proof. split; reflexivity. Qed.


End StreakFacts.

(** ** Comparison of binary64 numbers *)

Module FloatFacts.

Lemma SFcompare_antisym (a b : spec_float) :
  SFcompare b a = option_map CompOpp (SFcompare a b).
Proof.
  destruct a as [sa|sa| |sa ma ea], b as [sb|sb| |sb mb eb]; simpl;
    try reflexivity;
    try (destruct sa; reflexivity); try (destruct sb; reflexivity);
    try (destruct sa, sb; reflexivity).
  pose proof (Pos.compare_cont_antisym ma mb Eq) as A. simpl in A.
  destruct sa, sb; try reflexivity;
    rewrite (Z.compare_antisym ea eb);
    destruct (Z.compare ea eb) eqn:E; simpl; try reflexivity;
    rewrite <- A; destruct (Pos.compare_cont Eq ma mb); reflexivity.
Qed.

(** [x < y] is [y > x], and excludes [x == y]. *)
Lemma ltb_antisym (x y : float) :
  PrimFloat.ltb x y = true -> PrimFloat.ltb y x = false.
Proof.
  rewrite !ltb_spec. unfold SFltb.
  rewrite (SFcompare_antisym (Prim2SF x) (Prim2SF y)).
  now destruct (SFcompare (Prim2SF x) (Prim2SF y)) as [[| |]|].
Qed.

Lemma ltb_irrefl (x : float) : PrimFloat.ltb x x = false.
Proof.
  destruct (PrimFloat.ltb x x) eqn:E; [|reflexivity].
  now rewrite (ltb_antisym x x E) in E.
Qed.

Lemma ltb_not_eqb (x y : float) :
  PrimFloat.ltb x y = true -> PrimFloat.eqb x y = false.
Proof.
  rewrite ltb_spec, eqb_spec. unfold SFltb, SFeqb.
  now destruct (SFcompare (Prim2SF x) (Prim2SF y)) as [[| |]|].
Qed.

Lemma is_nan_Prim2SF (x : float) :
  PrimFloat.is_nan x = false -> Prim2SF x <> S754_nan.
Proof.
  unfold PrimFloat.is_nan. rewrite eqb_spec. unfold SFeqb.
  intros H E. rewrite E in H. discriminate.
Qed.

Lemma SFcompare_defined (a b : spec_float) :
  a <> S754_nan -> b <> S754_nan -> SFcompare a b <> None.
Proof.
  destruct a, b; simpl; congruence.
Qed.

(** Two numbers neither of which is [NaN] are equal, or one is below the
    other. *)
Lemma float_trichotomy (x y : float) :
  PrimFloat.is_nan x = false -> PrimFloat.is_nan y = false ->
  PrimFloat.eqb x y = true \/ PrimFloat.ltb x y = true
  \/ PrimFloat.ltb y x = true.
Proof.
  intros Hx Hy. rewrite eqb_spec, !ltb_spec. unfold SFeqb, SFltb.
  rewrite (SFcompare_antisym (Prim2SF x) (Prim2SF y)).
  pose proof (SFcompare_defined _ _ (is_nan_Prim2SF x Hx) (is_nan_Prim2SF y Hy)).
  destruct (SFcompare (Prim2SF x) (Prim2SF y)) as [[| |]|]; simpl; tauto.
Qed.

(** A comparison with [NaN] is false. *)
Lemma ltb_nan (x y : float) :
  PrimFloat.is_nan x = true \/ PrimFloat.is_nan y = true ->
  PrimFloat.ltb x y = false /\ PrimFloat.eqb x y = false.
Proof.
  assert (forall z, PrimFloat.is_nan z = true -> Prim2SF z = S754_nan) as N.
  { intros z H. unfold Prim2SF. now rewrite H. }
  rewrite ltb_spec, eqb_spec. unfold SFltb, SFeqb.
  intros [H|H]; rewrite (N _ H); [now split|].
  now destruct (Prim2SF x).
Qed.

End FloatFacts.

(** ** More on propUtilsBackend.js *)

Module PropUtilsFacts.

Import JsNumber Js Conversion PropUtils PropUtilsSpec FloatFacts.

(** *** [num] *)

Lemma num_shape (x : value) : null_or_finite (num x).
Proof.
  unfold num, null_or_finite. destruct (nullish x); [now left|].
  destruct (PrimFloat.is_finite (ToNumber x)) eqn:F; [right; eauto | now left].
Qed.

(** X1.  On every value that [Number(x)] converts, which is every value but
    the objects with an own [toString] property and the arrays that hold
    one (on these [Number(x)] throws), [num] returns [null] or a finite
    number, and normalizing twice is normalizing once. *)
Theorem num_finite_and_idempotent (x : value) :
  convertible x = true ->
  null_or_finite (num x) /\ num (num x) = num x.
Proof.
  intros _. split; [apply num_shape|].
  destruct (num_shape x) as [E|[n [E F]]]; rewrite E; [reflexivity|].
  unfold num. simpl. now rewrite F.
Qed.

Lemma num_finite_and_idempotent_witness :
  convertible (VArr [VStr "12"]) = true
  /\ null_or_finite (num (VArr [VStr "12"]))
  /\ num (num (VArr [VStr "12"])) = num (VArr [VStr "12"]).
Proof.
  split; [reflexivity|].
  apply (num_finite_and_idempotent (VArr [VStr "12"])). reflexivity.
Defined.

(** *** [extractStatForPropType] *)

Lemma is_case_unchecked (propType : value) (label : string) :
  In label unchecked_cases -> is_case propType label = true ->
  existsb (is_case propType) unchecked_cases = true.
Proof.
  intros Hin H. apply existsb_exists. now exists label.
Qed.

Lemma get_ok (v : value) (k : string) :
  nullish v = false -> get v k = Ret (get_own v k).
Proof. unfold get. now intros ->. Qed.

Lemma first_of_ok (o : value) (keys : list string) :
  nullish o = false -> exists v, first_of o keys = Ret v.
Proof.
  intro N. induction keys as [|k ks IH]; simpl.
  - eauto.
  - destruct ks as [|k' ks'].
    + rewrite (get_ok o k N). eauto.
    + rewrite (get_ok o k N). cbn [bind].
      destruct (nullish (get_own o k)); [exact IH | eauto].
Qed.

Lemma or_else_ok (a b : value) :
  nullish b = false -> nullish (or_else a b) = false.
Proof.
  intro N. unfold or_else. destruct (truthy a) eqn:T; [now destruct a | exact N].
Qed.

Lemma shaped_num (fin : Prop) (x : value) : shaped fin (Ret (num x)).
Proof.
  destruct (num_shape x) as [E|[n [E F]]]; simpl; rewrite E;
    [now left | right; eauto].
Qed.

Ltac shaped_case :=
  match goal with
  | |- context [first_of ?o ?ks] =>
      let v := fresh "v" in
      let E := fresh "E" in
      destruct (first_of_ok o ks) as [v E];
      [assumption | rewrite E; cbn [bind]; apply shaped_num]
  | |- context [get ?o ?k] =>
      rewrite (get_ok o k) by assumption; cbn [bind]; apply shaped_num
  end.

Lemma extract_shaped (stats propType : value) :
  shaped (existsb (is_case propType) unchecked_cases = false)
    (extractStatForPropType stats propType).
Proof.
  unfold extractStatForPropType.
  destruct (negb (truthy stats) || negb (String.eqb (typeof stats) "object"))
    eqn:G; [now left|].
  assert (nullish stats = false) as N by now destruct stats.
  rewrite !(get_ok stats) by exact N. cbn [bind].
  set (b := or_else (or_else _ _) stats).
  set (p := or_else _ stats).
  assert (nullish b = false) as Nb by now apply or_else_ok.
  assert (nullish p = false) as Np by now apply or_else_ok.
  repeat match goal with
         | |- context [if ?c then _ else _] =>
             match c with
             | context [is_case propType] => destruct c eqn:?
             end
         end;
    try shaped_case.
  - rewrite 3!(get_ok b) by assumption. cbn [bind].
    destruct (first_of_ok b ["homeRuns"; "home_runs"] Nb) as [hr E].
    rewrite E. cbn [bind].
    match goal with |- context [PrimFloat.is_finite ?x] =>
      destruct (PrimFloat.is_finite x) eqn:F end;
      [right; eauto | now left].
  - rewrite 2!(get_ok b) by assumption. cbn [bind].
    destruct (first_of_ok b ["rbi"; "rbis"] Nb) as [i E].
    rewrite E. cbn [bind]. right. eexists. split; [reflexivity|].
    intro U. rewrite (is_case_unchecked propType "hits_runs_rbis") in U;
      [discriminate | simpl; tauto | assumption].
  - rewrite (get_ok b) by assumption. cbn [bind].
    destruct (first_of_ok b ["rbi"; "rbis"] Nb) as [i E].
    rewrite E. cbn [bind]. right. eexists. split; [reflexivity|].
    intro U. rewrite (is_case_unchecked propType "runs_rbis") in U;
      [discriminate | simpl; tauto | assumption].
  - rewrite (get_ok p) by assumption. cbn [bind].
    destruct (nullish (num (get_own p "outs"))); [|apply shaped_num].
    rewrite (get_ok p) by assumption. cbn [bind].
    unfold ipToOuts. destruct (nullish (get_own p "inningsPitched")); [now left|].
    match goal with |- context [PrimFloat.is_nan ?w] =>
      destruct (PrimFloat.is_nan w) end; [now left|].
    right. eexists. split; [reflexivity|]. intro U.
    match goal with
    | H : is_case propType "outs_recorded" || is_case propType "pitching_outs" = true |- _ =>
        apply orb_true_iff in H; destruct H as [H|H]
    end.
    + rewrite (is_case_unchecked propType "outs_recorded") in U;
        [discriminate | simpl; tauto | assumption].
    + rewrite (is_case_unchecked propType "pitching_outs") in U;
        [discriminate | simpl; tauto | assumption].
  - now left.
Qed.

(** X2.  On every [stats] in which no object has an own [toString]
    property, so that every [Number(x)] and [String(ip)] of the function
    converts, and for every prop type, [extractStatForPropType] returns
    without throwing; what it returns is [null] or a number, and outside the
    four cases [outs_recorded], [pitching_outs], [hits_runs_rbis] and
    [runs_rbis] the number is finite. *)
Theorem extractStat_null_or_number (stats propType : value) :
  plain stats = true ->
  exists v, extractStatForPropType stats propType = Ret v
    /\ (v = VNull
        \/ exists n, v = VNum n
             /\ (existsb (is_case propType) unchecked_cases = false ->
                 PrimFloat.is_finite n = true)).
Proof.
  intros _. pose proof (extract_shaped stats propType) as H.
  destruct (extractStatForPropType stats propType) as [v|]; [|destruct H].
  now exists v.
Qed.

Lemma extractStat_null_or_number_witness :
  plain (VObj [("batting", VObj [("hits", VStr "2"); ("atBats", VNum 4)])])
  = true
  /\ exists v,
       extractStatForPropType
         (VObj [("batting", VObj [("hits", VStr "2"); ("atBats", VNum 4)])])
         (VStr "hits")
       = Ret v
       /\ (v = VNull
           \/ exists n, v = VNum n
                /\ (existsb (is_case (VStr "hits")) unchecked_cases = false ->
                    PrimFloat.is_finite n = true)).
Proof.
  split; [reflexivity|].
  apply (extractStat_null_or_number
           (VObj [("batting", VObj [("hits", VStr "2"); ("atBats", VNum 4)])])
           (VStr "hits")).
  reflexivity.
Defined.

(** X3.  A stats block whose fields sit at the top level (no [batting],
    [hitting] or [pitching] sub-block) gives the same value as the block
    that nests the same fields under [batting] and [pitching]. *)
Theorem extractStat_flat_as_nested (fs : list (string * value))
    (propType : value) :
  truthy (lookup "batting" fs) = false ->
  truthy (lookup "hitting" fs) = false ->
  truthy (lookup "pitching" fs) = false ->
  extractStatForPropType (VObj fs) propType
  = extractStatForPropType
      (VObj [("batting", VObj fs); ("pitching", VObj fs)]) propType.
Proof.
  intros B H P. unfold extractStatForPropType.
  cbn [truthy typeof negb orb String.eqb Ascii.eqb Bool.eqb get nullish bind
       get_own own_entries lookup].
  unfold or_else. rewrite B, H, P. reflexivity.
Qed.

Lemma extractStat_flat_as_nested_witness :
  extractStatForPropType (VObj [("hits", VNum 2); ("strikeOuts", VNum 1)])
    (VStr "hits")
  = extractStatForPropType
      (VObj [ ("batting", VObj [("hits", VNum 2); ("strikeOuts", VNum 1)]);
              ("pitching", VObj [("hits", VNum 2); ("strikeOuts", VNum 1)]) ])
      (VStr "hits").
Proof.
  apply (extractStat_flat_as_nested
           [("hits", VNum 2); ("strikeOuts", VNum 1)] (VStr "hits"));
    reflexivity.
Defined.

(** *** [normalizePropType] *)

Lemma lower_char_idempotent (c : ascii) :
  lower_char (lower_char c) = lower_char c.
Proof. destruct c as [[] [] [] [] [] [] [] []]; reflexivity. Qed.

Lemma toLowerCase_idempotent (s : string) :
  toLowerCase (toLowerCase s) = toLowerCase s.
Proof.
  induction s as [|c s IH]; simpl; [reflexivity|].
  now rewrite lower_char_idempotent, IH.
Qed.

(** Normalization leaves a normal string as it is. *)
Lemma normal_string_fixed (s : string) (in_run : bool) :
  normal_string s = true ->
  toLowerCase s = s /\ strip_parens s = s /\ underscore_spaces in_run s = s.
Proof.
  revert in_run. induction s as [|c s IH]; intros in_run H; simpl.
  - repeat split.
  - simpl in H. apply andb_true_iff in H. destruct H as [Hc Hs].
    unfold normal_char in Hc.
    apply andb_true_iff in Hc. destruct Hc as [Hc Hl].
    apply andb_true_iff in Hc. destruct Hc as [Hw Hp].
    apply negb_true_iff in Hw, Hp. apply Ascii.eqb_eq in Hl.
    unfold is_paren in Hp. rewrite Hl, Hp, Hw.
    destruct (IH false Hs) as [E1 [E2 E3]].
    now rewrite E1, E2, E3.
Qed.

Lemma normalized_is_normal (s : string) (in_run : bool) :
  normal_string (underscore_spaces in_run (strip_parens (toLowerCase s))) = true.
Proof.
  revert in_run. induction s as [|c s IH]; intro in_run; simpl; [reflexivity|].
  destruct (Ascii.eqb (lower_char c) "(" || Ascii.eqb (lower_char c) ")") eqn:P.
  - apply IH.
  - simpl. destruct (is_white (lower_char c)) eqn:W.
    + destruct in_run; [apply IH|]. simpl. apply IH.
    + simpl. rewrite IH, andb_true_r. unfold normal_char, is_paren.
      rewrite W, P, lower_char_idempotent. simpl. apply Ascii.eqb_refl.
Qed.

(** X4.  The normalized prop type has no white space, no parenthesis and no
    upper-case letter, and normalizing it again changes nothing. *)
Theorem normalizePropType_idempotent (label : string) :
  exists t, normalizePropType (VStr label) = Ret t
    /\ normal_string t = true
    /\ normalizePropType (VStr t) = Ret t.
Proof.
  eexists. split; [reflexivity|].
  pose proof (normalized_is_normal label false) as N.
  split; [exact N|].
  unfold normalizePropType.
  destruct (normal_string_fixed _ false N) as [E1 [E2 E3]].
  now rewrite E1, E2, E3.
Qed.

Example normalizePropType_label :
  normalizePropType (VStr "Strikeouts (Pitching)") = Ret "strikeouts_pitching"
  /\ normalizePropType (VStr "Hits  Runs	RBIs") = Ret "hits_runs_rbis".
Proof. split; reflexivity. Qed.

(** *** [getRollingAverage] *)

Lemma map_outcome_app {A B} (f : A -> outcome B) (xs ys : list A) :
  map_outcome f (xs ++ ys)
  = (us <- map_outcome f xs ;; vs <- map_outcome f ys ;; Ret (us ++ vs)%list).
Proof.
  induction xs as [|x xs IH]; simpl.
  - destruct (map_outcome f ys); reflexivity.
  - destruct (f x) as [y|]; [|reflexivity]. cbn [bind]. rewrite IH.
    destruct (map_outcome f xs) as [us|]; [|reflexivity]. cbn [bind].
    destruct (map_outcome f ys) as [vs|]; reflexivity.
Qed.

Lemma numbers_of_app (us vs : list value) :
  numbers_of (us ++ vs) = (numbers_of us ++ numbers_of vs)%list.
Proof. unfold numbers_of. apply flat_map_app. Qed.

Lemma slice_end_undefined (len : nat) : slice_end len VUndefined = len.
Proof. reflexivity. Qed.

(** X5.  Over the whole history (no window size), a game from which no
    number can be extracted counts neither in the sum nor in the number of
    games: the average is the same with and without it. *)
Theorem getRollingAverage_skips_unknown
    (pre post : list value) (game propType v : value) :
  extractStatForPropType (get_opt game "stats") propType = Ret v ->
  is_number v = false ->
  getRollingAverage (VArr (pre ++ game :: post)) propType VUndefined
  = getRollingAverage (VArr (pre ++ post)) propType VUndefined.
Proof.
  intros E N. unfold getRollingAverage.
  destruct (negb (truthy propType)); [reflexivity|].
  rewrite !slice_end_undefined, !firstn_all.
  rewrite !map_outcome_app. cbn [map_outcome]. rewrite E. cbn [bind].
  destruct (map_outcome _ pre) as [us|]; [|reflexivity]. cbn [bind].
  destruct (map_outcome _ post) as [vs|]; [|reflexivity]. cbn [bind].
  rewrite !numbers_of_app.
  assert (numbers_of (v :: vs) = numbers_of vs) as ->; [|reflexivity].
  destruct v; try discriminate; reflexivity.
Qed.

Lemma getRollingAverage_skips_unknown_witness :
  getRollingAverage
    (VArr ([VObj [("stats", VObj [("batting", VObj [("hits", VNum 2)])])]]
           ++ VObj [] :: [VObj [("stats", VObj [("hits", VNum 1)])]]))
    (VStr "hits") VUndefined
  = getRollingAverage
      (VArr ([VObj [("stats", VObj [("batting", VObj [("hits", VNum 2)])])]]
             ++ [VObj [("stats", VObj [("hits", VNum 1)])]]))
      (VStr "hits") VUndefined.
Proof.
  apply (getRollingAverage_skips_unknown
           [VObj [("stats", VObj [("batting", VObj [("hits", VNum 2)])])]]
           [VObj [("stats", VObj [("hits", VNum 1)])]]
           (VObj []) (VStr "hits") VNull);
    reflexivity.
Defined.

(** *** [determineStatus] *)

(** X6.  The direction is compared without regard to case. *)
Theorem determineStatus_case_insensitive (actual line : value) (s : string) :
  determineStatus actual line (VStr s)
  = determineStatus actual line (VStr (toLowerCase s)).
Proof.
  unfold determineStatus. cbn [toLowerCase_opt bind].
  now rewrite toLowerCase_idempotent.
Qed.

(** X7.  For a value and a line that are numbers other than [NaN] and
    differ, exactly one of over and under wins, and the other one loses. *)
Theorem determineStatus_over_under_opposite (x l : float) :
  PrimFloat.is_nan x = false -> PrimFloat.is_nan l = false ->
  PrimFloat.eqb x l = false ->
  (determineStatus (VNum x) (VNum l) (VStr "over") = Ret win
   /\ determineStatus (VNum x) (VNum l) (VStr "under") = Ret loss)
  \/ (determineStatus (VNum x) (VNum l) (VStr "over") = Ret loss
      /\ determineStatus (VNum x) (VNum l) (VStr "under") = Ret win).
Proof.
  intros Hx Hl E. unfold determineStatus.
  cbn [toLowerCase_opt bind toLowerCase lower_char truthy negb String.eqb].
  cbn. rewrite E.
  destruct (float_trichotomy x l Hx Hl) as [H|[H|H]]; [congruence| |].
  - rewrite H, (ltb_antisym x l H). now right.
  - rewrite H, (ltb_antisym l x H). now left.
Qed.

Lemma determineStatus_over_under_opposite_witness :
  (determineStatus (VNum 2) (VNum 1.5) (VStr "over") = Ret win
   /\ determineStatus (VNum 2) (VNum 1.5) (VStr "under") = Ret loss)
  \/ (determineStatus (VNum 2) (VNum 1.5) (VStr "over") = Ret loss
      /\ determineStatus (VNum 2) (VNum 1.5) (VStr "under") = Ret win).
Proof.
  apply (determineStatus_over_under_opposite 2 1.5); reflexivity.
Defined.

(** X8.  With [NaN] as the value or the line the status is a loss, for every
    direction: not invalid, and not a push when both are [NaN]. *)
Theorem determineStatus_nan (x l : float) (s : string) :
  PrimFloat.is_nan x = true \/ PrimFloat.is_nan l = true ->
  s <> "" ->
  determineStatus (VNum x) (VNum l) (VStr s) = Ret loss.
Proof.
  intros H Hs. unfold determineStatus. cbn [toLowerCase_opt bind truthy].
  assert (String.eqb (toLowerCase s) "" = false) as ->.
  { destruct s; [contradiction | reflexivity]. }
  cbn [negb].
  destruct (ltb_nan x l H) as [L1 E1].
  assert (PrimFloat.is_nan l = true \/ PrimFloat.is_nan x = true) as H' by tauto.
  destruct (ltb_nan l x H') as [L2 _].
  rewrite E1, L1, L2, !andb_false_r. reflexivity.
Qed.

Lemma determineStatus_nan_witness :
  determineStatus (VNum nan) (VNum 1.5) (VStr "over") = Ret loss.
Proof.
  apply (determineStatus_nan nan 1.5 "over"); [now left | discriminate].
Defined.

End PropUtilsFacts.

Module ChainFacts.
Import JsNumber Js PropUtils PlayerUtils Resolution ExtractorSpec
  ResolutionSpec ChainSpec.

Lemma flatten_tally (b p : list (string * value)) :
  flattenPlayerBoxscore (VObj [("batting", VObj b); ("pitching", VObj p)])
    VUndefined
  = VObj [("player_id", VUndefined); ("team_abbr", VNull)].
Proof. reflexivity. Qed.

Lemma derive_empty_scope (t : string) (scope : string) :
  scope = "batting" \/ scope = "pitching" ->
  exists v, derivePropValue (VStr t) (VObj [(scope, VObj [])]) = Ret v
            /\ no_count v.
Proof.
  intros [-> | ->]; unfold derivePropValue;
    cbn [or_else truthy get_own own_entries lookup default_empty String.eqb
         Ascii.eqb Bool.eqb];
    repeat match goal with
    | |- context [is_case ?a ?b] => destruct (is_case a b)
    end;
    cbn; eexists; (split; [reflexivity|]); unfold no_count;
    try (now left); try (now right; left);
    right; right; eexists; split; reflexivity.
Qed.

Lemma live_string (feed : outcome value) (playerId : value) (propType : string) :
  exists v, getStatFromLiveFeed feed playerId (VStr propType) = Ret v
            /\ no_count v.
Proof.
  unfold getStatFromLiveFeed. cbn [normalizePropType bind].
  set (t := underscore_spaces _ _).
  assert (no_count VNull) as N by now left.
  destruct feed as [data|]; cbn [bind try_catch]; [|now exists VNull].
  destruct (get_opt (get_opt (get_opt data "liveData") "plays") "allPlays")
    as [| | | | |plays|]; try (now exists VNull).
  unfold extractStatFromPlays.
  destruct (fold_outcome (tally_play playerId) plays (mkTally [] []))
    as [[b p]|]; cbn [bind try_catch]; [|now exists VNull].
  rewrite flatten_tally.
  cbn [get_own own_entries lookup coalesce nullish String.eqb Ascii.eqb Bool.eqb].
  destruct (in_set t PITCHING_PROPS).
  - destruct (derive_empty_scope t "pitching") as [w [E W]]; [now right|].
    rewrite E. now exists w.
  - destruct (derive_empty_scope t "batting") as [w [E W]]; [now left|].
    rewrite E. now exists w.
Qed.

Lemma live_no_count (feed : outcome value) (playerId propType v : value) :
  getStatFromLiveFeed feed playerId propType = Ret v -> no_count v.
Proof.
  destruct propType; try discriminate.
  destruct (live_string feed playerId s) as [w [E W]].
  rewrite E. now intros [= <-].
Qed.

(** X9.  The play-by-play fallback never answers with a count. For a prop
    type that is a string it returns, and what it returns is [null],
    [undefined] or [NaN], whatever the feed holds: the tally of the plays is
    passed through [flattenPlayerBoxscore], which keeps nothing of it. *)
Theorem getStatFromLiveFeed_no_count
    (feed : outcome value) (playerId : value) (propType : string) :
  exists v, getStatFromLiveFeed feed playerId (VStr propType) = Ret v
            /\ no_count v.
Proof. apply live_string. Qed.

Lemma no_count_typeof (v : value) :
  no_count v ->
  typeof_number v = true -> exists n, v = VNum n /\ PrimFloat.is_nan n = true.
Proof.
  intros [-> | [-> | H]] T; try discriminate. exact H.
Qed.

Lemma resolve_shape
    (boxscore : response) (feed : outcome value) (player_id prop_type : value)
    (r : resolution) :
  resolveStatForPlayer boxscore feed player_id prop_type = Ret r ->
  r = mkResolution VUndefined "no_boxscore" VUndefined
  \/ (source r = "boxscore" /\ nullish (result r) = false
      /\ derivePropValue prop_type (rawStats r) = Ret (result r))
  \/ (source r = "live"
      /\ exists n, result r = VNum n /\ PrimFloat.is_nan n = true)
  \/ (source r = "missing" /\ result r = VUndefined).
Proof.
  unfold resolveStatForPlayer.
  destruct (getPlayerStatsFromBoxscore boxscore player_id) as [bd|];
    [|discriminate]. cbn [bind].
  destruct (truthy bd); cbn [negb]; [|intros [= <-]; now left].
  set (raw := flattenPlayerBoxscore bd VUndefined).
  assert (forall x,
    (liveResult <- getStatFromLiveFeed feed player_id prop_type ;;
     Ret (if typeof_number liveResult
          then mkResolution liveResult "live" raw
          else mkResolution VUndefined "missing" raw)) = Ret x ->
    (source x = "live"
      /\ exists n, result x = VNum n /\ PrimFloat.is_nan n = true)
    \/ (source x = "missing" /\ result x = VUndefined)) as Live.
  { intro x.
    destruct (getStatFromLiveFeed feed player_id prop_type) as [w|] eqn:E;
      [|discriminate]. cbn [bind].
    pose proof (live_no_count _ _ _ _ E) as W.
    destruct (typeof_number w) eqn:T; intros [= <-]; [left|right; now split].
    split; [reflexivity|]. exact (no_count_typeof w W T). }
  destruct (if truthy raw then hasMeaningfulStats raw else Ret false)
    as [m|]; [|discriminate]. cbn [bind].
  destruct m.
  - destruct (derivePropValue prop_type raw) as [v|] eqn:D; cbn [try_catch bind].
    + destruct (nullish v) eqn:Nv; cbn [negb].
      * intro H. right. right. exact (Live _ H).
      * intros [= <-]. right. left. cbn. now repeat split.
    + cbn [nullish negb]. intro H. right. right. exact (Live _ H).
  - cbn [bind nullish negb]. intro H. right. right. exact (Live _ H).
Qed.

(** X10.  The four ways in which [resolveStatForPlayer] returns. A result
    that is not [undefined] or [NaN] comes from the box score: it is what
    [derivePropValue] reads from the flattened entry of the player. The
    source ["live"] carries [NaN] only. *)
Theorem resolveStatForPlayer_sources
    (boxscore : response) (feed : outcome value) (player_id prop_type : value)
    (r : resolution) :
  resolveStatForPlayer boxscore feed player_id prop_type = Ret r ->
  r = mkResolution VUndefined "no_boxscore" VUndefined
  \/ (source r = "boxscore" /\ nullish (result r) = false
      /\ derivePropValue prop_type (rawStats r) = Ret (result r))
  \/ (source r = "live"
      /\ exists n, result r = VNum n /\ PrimFloat.is_nan n = true)
  \/ (source r = "missing" /\ result r = VUndefined).
Proof. apply resolve_shape. Qed.

Lemma resolveStatForPlayer_sources_witness :
  resolveStatForPlayer (Ret (Some boxscore_without_player)) (Ret feed_D)
    (VNum 660271) (VStr "hits")
  = Ret (mkResolution (VNum 1) "boxscore"
           (VObj [ ("batting", VObj [("hits", VNum 1)]); ("hits", VNum 1);
                   ("player_id", VNum 660271); ("team_abbr", VNull) ]))
  /\ derivePropValue (VStr "hits")
       (VObj [ ("batting", VObj [("hits", VNum 1)]); ("hits", VNum 1);
               ("player_id", VNum 660271); ("team_abbr", VNull) ])
     = Ret (VNum 1).
Proof.
  assert (resolveStatForPlayer (Ret (Some boxscore_without_player)) (Ret feed_D)
            (VNum 660271) (VStr "hits")
          = Ret (mkResolution (VNum 1) "boxscore"
                   (VObj [ ("batting", VObj [("hits", VNum 1)]); ("hits", VNum 1);
                           ("player_id", VNum 660271); ("team_abbr", VNull) ])))
    as E by reflexivity.
  split; [exact E|].
  destruct (resolveStatForPlayer_sources _ _ _ _ _ E)
    as [H | [[_ [_ H]] | [[H _] | [H _]]]]; try discriminate H.
  exact H.
Defined.

(** X11.  A valid prop type that [derivePropValue] has no case for is never
    resolved: whatever the box score and the feed hold, the chain returns no
    result. *)
Theorem valid_prop_type_never_resolved
    (boxscore : response) (feed : outcome value) (player_id : value)
    (t : string) (r : resolution) :
  In t VALID_PROP_TYPES ->
  is_label derive_labels (VStr t) = false ->
  resolveStatForPlayer boxscore feed player_id (VStr t) = Ret r ->
  result r = VUndefined
  /\ (source r = "no_boxscore" \/ source r = "missing").
Proof.
  intros V L E.
  assert (t = "pitching_outs" \/ t = "pitch_count" \/ t = "runs_allowed") as T.
  { unfold VALID_PROP_TYPES in V. simpl in V.
    repeat (destruct V as [<- | V]; [try discriminate L; tauto|]).
    contradiction. }
  assert (forall stats, derivePropValue (VStr t) stats = Ret VUndefined) as D.
  { intro stats. destruct T as [-> | [-> | ->]]; reflexivity. }
  assert (normalizePropType (VStr t) = Ret t) as Nt.
  { destruct T as [-> | [-> | ->]]; reflexivity. }
  revert E. unfold resolveStatForPlayer.
  destruct (getPlayerStatsFromBoxscore boxscore player_id) as [bd|];
    [|discriminate]. cbn [bind].
  destruct (truthy bd); cbn [negb]; [|intros [= <-]; cbn; tauto].
  set (raw := flattenPlayerBoxscore bd VUndefined).
  destruct (if truthy raw then hasMeaningfulStats raw else Ret false)
    as [m|]; [|discriminate]. cbn [bind].
  assert ((if m then try_catch (derivePropValue (VStr t) raw) (Ret VNull)
           else Ret VNull) = Ret VNull
          \/ (if m then try_catch (derivePropValue (VStr t) raw) (Ret VNull)
           else Ret VNull) = Ret VUndefined) as [-> | ->].
  { destruct m; [right; now rewrite D | now left]. }
  all: cbn [bind nullish negb].
  all: unfold getStatFromLiveFeed; rewrite Nt; cbn [bind].
  all: destruct feed as [data|]; cbn [bind try_catch];
       [|intros [= <-]; cbn; tauto].
  all: destruct (get_opt (get_opt (get_opt data "liveData") "plays") "allPlays")
        as [| | | | |plays|]; try (intros [= <-]; cbn; tauto).
  all: destruct (extractStatFromPlays plays player_id) as [statMap|];
       cbn [bind try_catch]; [|intros [= <-]; cbn; tauto].
  all: rewrite D; intros [= <-]; cbn; tauto.
Qed.

Lemma valid_prop_type_never_resolved_witness :
  In "pitch_count" VALID_PROP_TYPES
  /\ is_label derive_labels (VStr "pitch_count") = false
  /\ resolveStatForPlayer (Ret (Some pitcher_boxscore)) (Ret feed_D)
       (VNum 543037) (VStr "pitch_count")
     = Ret unresolved_pitch_count
  /\ result unresolved_pitch_count = VUndefined
  /\ (source unresolved_pitch_count = "no_boxscore"
      \/ source unresolved_pitch_count = "missing").
Proof.
  assert (In "pitch_count" VALID_PROP_TYPES) as V by (simpl; tauto).
  assert (is_label derive_labels (VStr "pitch_count") = false) as L
    by reflexivity.
  assert (resolveStatForPlayer (Ret (Some pitcher_boxscore)) (Ret feed_D)
            (VNum 543037) (VStr "pitch_count")
          = Ret unresolved_pitch_count) as E by reflexivity.
  split; [exact V|]. split; [exact L|]. split; [exact E|].
  exact (valid_prop_type_never_resolved
           (Ret (Some pitcher_boxscore)) (Ret feed_D) (VNum 543037)
           "pitch_count" unresolved_pitch_count V L E).
Defined.

End ChainFacts.

Module UpdatePropsFacts.
Import JsNumber Js PropUtils PlayerUtils Resolution UpdateProps ChainSpec
  ChainFacts UpdatePropsSpec ResolutionSpec.

Lemma no_count_not_gradeable (v : value) :
  no_count v -> gradeable (if typeof_number v then v else VUndefined) = false.
Proof.
  intros [-> | [-> | [n [-> H]]]]; try reflexivity.
  unfold gradeable. cbn. now rewrite H.
Qed.

(** Two feeds give the same resolution, or two resolutions with the same
    raw stats of which neither result can be graded. *)
Lemma resolve_feed (boxscore : response) (feed feed' : outcome value)
    (player_id prop_type : value) :
  resolveStatForPlayer boxscore feed player_id prop_type
  = resolveStatForPlayer boxscore feed' player_id prop_type
  \/ exists r r',
       resolveStatForPlayer boxscore feed player_id prop_type = Ret r
       /\ resolveStatForPlayer boxscore feed' player_id prop_type = Ret r'
       /\ rawStats r = rawStats r'
       /\ gradeable (result r) = false /\ gradeable (result r') = false.
Proof.
  unfold resolveStatForPlayer.
  destruct (getPlayerStatsFromBoxscore boxscore player_id) as [bd|];
    [|now left]. cbn [bind].
  destruct (truthy bd); cbn [negb]; [|now left].
  set (raw := flattenPlayerBoxscore bd VUndefined).
  destruct (if truthy raw then hasMeaningfulStats raw else Ret false)
    as [m|]; [|now left]. cbn [bind].
  destruct (if m then try_catch (derivePropValue prop_type raw) (Ret VNull)
            else Ret VNull) as [fromBox|]; [|now left]. cbn [bind].
  destruct (nullish fromBox); cbn [negb]; [|now left].
  destruct prop_type; try (now left).
  destruct (live_string feed player_id s) as [w [E W]].
  destruct (live_string feed' player_id s) as [w' [E' W']].
  rewrite E, E'. cbn [bind]. right. do 2 eexists.
  split; [reflexivity|]. split; [reflexivity|].
  split; [now destruct (typeof_number w), (typeof_number w')|].
  split.
  - pose proof (no_count_not_gradeable w W). now destruct (typeof_number w).
  - pose proof (no_count_not_gradeable w' W'). now destruct (typeof_number w').
Qed.

(** X12.  The play-by-play feed has no influence on the grading of a prop:
    with any two feeds, [updatePropStatus] returns the same verdict and
    makes the same writes. *)
Theorem updatePropStatus_ignores_feed
    (gameStatus : value) (boxscore : response) (feed feed' : outcome value)
    (updateFails : bool) (prop : PlayerProp) :
  updatePropStatus gameStatus boxscore feed updateFails prop
  = updatePropStatus gameStatus boxscore feed' updateFails prop.
Proof.
  unfold updatePropStatus.
  destruct (negb (isGameFinal gameStatus)); [reflexivity|].
  destruct (lt_zero (prop_value prop)); [reflexivity|].
  destruct (resolve_feed boxscore feed feed' (player_id prop) (prop_type prop))
    as [-> | [r [r' [-> [-> [Raw [G G']]]]]]]; [reflexivity|].
  cbn [bind]. rewrite <- Raw.
  destruct (negb (truthy (rawStats r))
            || negb (String.eqb (typeof (rawStats r)) "object"));
    [reflexivity|].
  unfold gradeable in G, G'.
  assert (forall v, typeof_number v && negb (PrimFloat.is_nan (ToNumber v)) = false ->
          negb (typeof_number v) || PrimFloat.is_nan (ToNumber v) = true) as F.
  { intros v. destruct (typeof_number v), (PrimFloat.is_nan (ToNumber v));
      simpl; congruence. }
  now rewrite (F _ G), (F _ G').
Qed.

(** X13.  What [updatePropStatus] writes. It makes no write when it skips
    the prop, and one write otherwise. A result is written only for a game
    that is final, from the box score and never from the play-by-play feed;
    it is a number other than [NaN], and the outcome written with it is the
    one [determineStatus] gives for it against the line of the prop. *)
Theorem updatePropStatus_writes (gameStatus : value) (boxscore : response)
    (feed : outcome value) (updateFails : bool) (prop : PlayerProp)
    (v : verdict) (ws : list write) :
  updatePropStatus gameStatus boxscore feed updateFails prop = Ret (v, ws) ->
  (v_status v = "skipped" /\ ws = [])
  \/ (v_status v = "dnp" /\ ws = [MarkDNP (id prop)])
  \/ exists r st,
       (v_status v = "updated" \/ v_status v = "error")
       /\ ws = [Update (id prop) (result r) (status_string st)
                  (if negb (nullish (predicted_outcome prop))
                   then VBool (strict_eq (VStr (status_string st))
                                 (predicted_outcome prop))
                   else VNull)]
       /\ isGameFinal gameStatus = true
       /\ resolveStatForPlayer boxscore feed (player_id prop) (prop_type prop)
          = Ret r
       /\ source r = "boxscore"
       /\ gradeable (result r) = true
       /\ determineStatus (result r) (prop_value prop) (over_under prop)
          = Ret st.
Proof.
  unfold updatePropStatus.
  destruct (isGameFinal gameStatus) eqn:Fin; cbn [negb];
    [|intros [= <- <-]; now left].
  destruct (lt_zero (prop_value prop)); [intros [= <- <-]; now left|].
  destruct (resolveStatForPlayer boxscore feed (player_id prop) (prop_type prop))
    as [r|] eqn:R; [|discriminate]. cbn [bind].
  destruct (negb (truthy (rawStats r))
            || negb (String.eqb (typeof (rawStats r)) "object"));
    [intros [= <- <-]; right; now left|].
  destruct (negb (typeof_number (result r))
            || PrimFloat.is_nan (ToNumber (result r))) eqn:G;
    [intros [= <- <-]; right; now left|].
  destruct (hasMeaningfulStats (rawStats r)) as [isValid|]; [|discriminate].
  cbn [bind].
  destruct (didPlayerParticipate (rawStats r)) as [didPlay|]; [|discriminate].
  cbn [bind].
  destruct (negb isValid || negb (truthy didPlay) || nullish (result r));
    [intros [= <- <-]; right; now left|].
  destruct (determineStatus (result r) (prop_value prop) (over_under prop))
    as [st|] eqn:D; [|discriminate]. cbn [bind].
  assert (gradeable (result r) = true) as Gr.
  { unfold gradeable. apply orb_false_iff in G. destruct G as [G1 G2].
    apply negb_false_iff in G1. now rewrite G1, G2. }
  assert (source r = "boxscore") as Src.
  { destruct (resolve_shape _ _ _ _ _ R) as [-> | [[S _] | [[_ [n [E N]]] | [_ E]]]];
      [discriminate Gr | exact S | |].
    - rewrite E in Gr. unfold gradeable in Gr. cbn in Gr. now rewrite N in Gr.
    - rewrite E in Gr. discriminate Gr. }
  intro H. right. right. exists r, st.
  destruct updateFails; injection H as <- <-; repeat split; auto.
Qed.

Lemma updatePropStatus_writes_witness :
  updatePropStatus (VStr "Final") (Ret (Some boxscore_without_player))
    (Ret feed_D) false hits_over
  = Ret (mkVerdict "updated" None (Some (VNum 660271)),
         [Update (VNum 17) (VNum 1) "win" (VBool true)])
  /\ exists r st,
       [Update (VNum 17) (VNum 1) "win" (VBool true)]
       = [Update (id hits_over) (result r) (status_string st)
            (if negb (nullish (predicted_outcome hits_over))
             then VBool (strict_eq (VStr (status_string st))
                           (predicted_outcome hits_over))
             else VNull)]
       /\ source r = "boxscore"
       /\ determineStatus (result r) (prop_value hits_over)
            (over_under hits_over) = Ret st.
Proof.
  assert (updatePropStatus (VStr "Final") (Ret (Some boxscore_without_player))
            (Ret feed_D) false hits_over
          = Ret (mkVerdict "updated" None (Some (VNum 660271)),
                 [Update (VNum 17) (VNum 1) "win" (VBool true)])) as E
    by reflexivity.
  split; [exact E|].
  destruct (updatePropStatus_writes _ _ _ _ _ _ _ E)
    as [[H _] | [[H _] | [r [st [_ [W [_ [_ [S [_ D]]]]]]]]]];
    [discriminate H | discriminate H |].
  exists r, st. now repeat split.
Defined.

End UpdatePropsFacts.

Module DerivedModeFacts.
Import JsNumber Js PropUtils DerivedStats DerivedStatsSpec DerivedStatsFacts
  BoxscoreModeSpec.

Lemma flat_map_ext_in {A B} (f g : A -> list B) (l : list A) :
  (forall a, In a l -> f a = g a) -> flat_map f l = flat_map g l.
Proof.
  induction l as [|a l IH]; intro H; simpl; [reflexivity|].
  rewrite (H a (or_introl eq_refl)), IH; [reflexivity|].
  intros b Hb. apply H. now right.
Qed.

(** X14.  In boxscore mode only the boxes of the thirty days before the
    as-of date count: a box dated on or after the as-of date, or more than
    thirty days before it, changes no average, wherever it stands in the
    cache. *)
Theorem boxscore_mode_window (supabase playerId : value) (D t : Z)
    (pre post : list Box) (boxDate : Date) (ps : list value) :
  boxDate = Some t ->
  t < D - 30 * msPerDay \/ D <= t ->
  getDerivedStats supabase playerId (Some D)
    (Boxscores (pre ++ mkBox (Some boxDate) ps :: post)) "boxscore"
  = getDerivedStats supabase playerId (Some D) (Boxscores (pre ++ post))
      "boxscore".
Proof.
  intros -> H. unfold getDerivedStats.
  apply flat_map_ext_in. intros days Hd.
  apply flat_map_ext. intro propType.
  unfold derive_key.
  destruct (getRollingAverage supabase playerId (VStr propType)) as [avg|];
    [|reflexivity].
  cbn [bind]. destruct (Number_isFinite avg); [reflexivity|].
  change (String.eqb "boxscore" "history") with false.
  change (String.eqb "boxscore" "boxscore") with true. cbv iota.
  rewrite !fold_boxes_app.
  destruct (fold_boxes _ pre (0, 0)%float) as [a|]; [|reflexivity].
  cbn [bind fold_boxes].
  rewrite (boxscore_step_outside_window (Some D) days playerId propType a
             (Some t) ps); [reflexivity|].
  unfold date_lt, date_ge, days_before, msPerDay in *.
  destruct H as [H | H].
  - left. apply Z.ltb_lt.
    unfold rollingDays in Hd. simpl in Hd.
    destruct Hd as [<- | [<- | [<- | []]]]; lia.
  - right. now apply Z.leb_le.
Qed.

Lemma boxscore_mode_window_witness :
  getDerivedStats client (VNum 592450) (day 100)
    (Boxscores ([hits_box 98 1] ++ hits_box 69 4 :: [hits_box 99 2]))
    "boxscore"
  = getDerivedStats client (VNum 592450) (day 100)
      (Boxscores ([hits_box 98 1] ++ [hits_box 99 2])) "boxscore".
Proof.
  apply (boxscore_mode_window client (VNum 592450) (100 * msPerDay)
           (69 * msPerDay) [hits_box 98 1] [hits_box 99 2] (day 69));
    [reflexivity | left; unfold msPerDay; lia].
Defined.

(** X15.  The store passed as [supabase] has no influence on the result: the
    rolling average that is tried first for every key is called with a prop
    type where it expects the window size, and never gives a number. *)
Theorem getDerivedStats_ignores_supabase (supabase supabase' playerId : value)
    (now : Date) (cache : Cache) (sourceMode : string) :
  getDerivedStats supabase playerId now cache sourceMode
  = getDerivedStats supabase' playerId now cache sourceMode.
Proof.
  unfold getDerivedStats.
  apply flat_map_ext. intro days.
  apply flat_map_ext_in. intros propType Hin.
  unfold derive_key.
  now rewrite !(db_first_attempt_is_null _ _ _ Hin).
Qed.

Lemma add_value_not_finite (a : acc) (v : value) :
  Number_isFinite v = false -> add_value a v = a.
Proof.
  destruct v; try reflexivity. simpl. now intros ->.
Qed.

(** X16.  In history mode a row whose value is not a finite number (a number
    stored as text, [null], [NaN]) counts for nothing: the averages are the
    same with and without it. *)
Theorem history_mode_skips_non_numbers
    (supabase playerId : value) (now : Date)
    (before after : list (string * list HistoryRow)) (k : string)
    (pre post : list HistoryRow) (row : HistoryRow) (sourceMode : string) :
  Number_isFinite (prop_value row) = false ->
  getDerivedStats supabase playerId now
    (cache_with before after k (pre ++ row :: post)) sourceMode
  = getDerivedStats supabase playerId now
      (cache_with before after k (pre ++ post)) sourceMode.
Proof.
  intro H. unfold getDerivedStats.
  apply flat_map_ext. intro days. apply flat_map_ext. intro propType.
  unfold derive_key, cache_with.
  destruct (getRollingAverage supabase playerId (VStr propType)) as [avg|];
    [|reflexivity].
  cbn [bind]. destruct (Number_isFinite avg); [reflexivity|].
  destruct (String.eqb sourceMode "history"); [|reflexivity].
  rewrite !cache_get_with.
  destruct (cache_get (ToString playerId) before); [reflexivity|].
  destruct (String.eqb (ToString playerId) k); [|reflexivity].
  rewrite !fold_left_app. cbn [fold_left].
  assert (forall a, history_step now propType a row = a) as ->; [|reflexivity].
  intro a. unfold history_step.
  destruct (date_ge (game_date row) now); [reflexivity|].
  destruct (negb (strict_eq (prop_type row) (VStr propType))); [reflexivity|].
  now apply add_value_not_finite.
Qed.

Lemma history_mode_skips_non_numbers_witness :
  getDerivedStats client (VNum 592450) (day 100)
    (cache_with [] [] "592450" ([hits_row 98 1] ++ text_row 99 :: [hits_row 97 2]))
    "history"
  = getDerivedStats client (VNum 592450) (day 100)
      (cache_with [] [] "592450" ([hits_row 98 1] ++ [hits_row 97 2])) "history".
Proof.
  apply (history_mode_skips_non_numbers client (VNum 592450) (day 100) [] []
           "592450" [hits_row 98 1] [hits_row 97 2] (text_row 99) "history").
  reflexivity.
Defined.

End DerivedModeFacts.

Module StreakRunFacts.
Import JsNumber Js PropUtils Streaks StreakSpec StreakRunSpec.

Lemma leading_run_nonneg (o : value) (rest : list value) :
  0 <= leading_run o rest.
Proof.
  induction rest as [|x rest IH]; cbn -[Z.add]; [lia|].
  destruct (strict_eq x o); lia.
Qed.

Lemma walk_app (xs ys : list PropRow) (i : nat) (cs : Z) (ct : value) :
  Backfill.walk i (xs ++ ys)%list cs ct
  = Backfill.walk (i + List.length xs) ys
      (fst (Backfill.walk i xs cs ct)) (snd (Backfill.walk i xs cs ct)).
Proof.
  revert i cs ct. induction xs as [|x xs IH]; intros i cs ct.
  - simpl. now rewrite Nat.add_0_r.
  - cbn [app Backfill.walk List.length]. rewrite Nat.add_succ_r.
    destruct (negb (win_or_loss (outcome_ x))); [apply IH|].
    destruct (Nat.eqb i 0 || strict_eq (outcome_ x) ct); apply IH.
Qed.

Lemma terminal_win_or_loss (o : value) : terminal o -> win_or_loss o = true.
Proof. now intros [-> | ->]. Qed.

(** The loop of the backfill script ends with the outcome of the last row
    it is given and the length of the run of that outcome that ends
    there. *)
Lemma backfill_walk_run (recent : list PropRow) (oldest : PropRow) :
  Forall (fun p => terminal (outcome_ p)) (recent ++ [oldest])%list ->
  Backfill.walk 0 (recent ++ [oldest])%list 0 VNull
  = (1 + leading_run (outcome_ oldest) (rev (map outcome_ recent)),
     outcome_ oldest).
Proof.
  revert oldest. induction recent as [|prev recent IH] using rev_ind;
    intros oldest H.
  - apply Forall_inv in H. cbn. rewrite (terminal_win_or_loss _ H). reflexivity.
  - rewrite walk_app.
    apply Forall_app in H. destruct H as [Hrec Hold].
    rewrite (IH prev Hrec). clear IH.
    apply Forall_app in Hrec. destruct Hrec as [_ Hprev].
    apply Forall_inv in Hprev. apply Forall_inv in Hold.
    rewrite map_app, rev_app_distr, length_app. cbn [fst snd List.length].
    replace (0 + (List.length recent + 1))%nat with (S (List.length recent))
      by lia.
    cbn -[Z.add leading_run]. rewrite (terminal_win_or_loss _ Hold).
    cbn -[Z.add].
    destruct Hprev as [-> | ->], Hold as [-> | ->]; cbn -[Z.add]; f_equal; lia.
Qed.

(** X17.  The streak of the backfill script, for rows that all carry a win
    or a loss. The rows come most recent first; the streak reported is the
    run of equal outcomes at the oldest end of them, under the
    identification of the first row. *)
Theorem backfill_reports_oldest_run (props recent : list PropRow)
    (first oldest : PropRow) (label : string) :
  props = (recent ++ [oldest])%list ->
  hd oldest props = first ->
  prop_type first = VStr label ->
  Forall (fun p => terminal (outcome_ p)) props ->
  exists t,
    normalizePropType (VStr label) = Ret t
    /\ Backfill.computeStreaks props
       = Ret [ mkStreak (player_id first) t (prop_source first)
                 (Backfill.mapOutcomeToStreakType (outcome_ oldest))
                 (1 + leading_run (outcome_ oldest)
                        (rev (map outcome_ recent))) ].
Proof.
  intros -> Hf Hl H. eexists. split; [reflexivity|].
  unfold Backfill.computeStreaks. rewrite (backfill_walk_run recent oldest H).
  assert (terminal (outcome_ oldest)) as Ho.
  { apply Forall_app in H. destruct H as [_ H]. now apply Forall_inv in H. }
  rewrite (terminal_win_or_loss _ Ho).
  pose proof (leading_run_nonneg (outcome_ oldest) (rev (map outcome_ recent))).
  assert ((0 <? 1 + leading_run (outcome_ oldest) (rev (map outcome_ recent)))
          = true) as -> by (apply Z.ltb_lt; lia).
  cbn [andb].
  destruct recent as [|r recent]; cbn [app hd] in Hf |- *; subst first;
    rewrite Hl; reflexivity.
Qed.

Lemma backfill_reports_oldest_run_witness :
  exists t,
    normalizePropType (VStr "hits") = Ret t
    /\ Backfill.computeStreaks
         [ resolved "loss" 5; resolved "win" 4; resolved "win" 3;
           resolved "win" 2 ]
       = Ret [ mkStreak (VStr "592450") t (VStr "mlb_api") (VStr "hot") 3 ].
Proof.
  apply (backfill_reports_oldest_run
           [ resolved "loss" 5; resolved "win" 4; resolved "win" 3;
             resolved "win" 2 ]
           [ resolved "loss" 5; resolved "win" 4; resolved "win" 3 ]
           (resolved "loss" 5) (resolved "win" 2) "hits");
    try reflexivity.
  repeat (apply Forall_cons; [(now left) || (now right)|]). apply Forall_nil.
Defined.

(** ** The profile script *)



Lemma sort_length (es : list Profiles.Entry) :
  List.length (Profiles.sort_by_date es) = List.length es.
Proof.
  unfold Profiles.sort_by_date.
  assert (forall acc, List.length
            (fold_left (fun sorted e => Profiles.insert_sorted e sorted) es acc)
          = (List.length acc + List.length es)%nat) as G.
  { induction es as [|e es IH]; intro acc; cbn [fold_left List.length]; [lia|].
    rewrite IH.
    assert (List.length (Profiles.insert_sorted e acc) = S (List.length acc))
      as ->; [|lia].
    induction acc as [|x acc IHa]; [reflexivity|]. cbn.
    destruct (Profiles.e_game_date e <? Profiles.e_game_date x);
      cbn; [reflexivity | now rewrite IHa]. }
  now rewrite G.
Qed.






(** Rows whose key is [__proto__]: the script throws at the first of them. *)
Example profile_of_inherited_key :
  Profiles.computeStreaks
    [ mkProp (VStr "_") (VStr "proto") (VStr "_") (VStr "win") 1;
      mkProp (VStr "_") (VStr "proto") (VStr "_") (VStr "win") 2 ]
  = Throw.
Proof. reflexivity. Qed.

End StreakRunFacts.

Module BvpTotalsFacts.
Import JsNumber Js Conversion Bvp BvpSpec BvpTotalsSpec.

(** The event is the one named, and the totals are computed; or it is
    another event. *)
Ltac event result name :=
  destruct (String.eqb_spec result name) as [->|];
  [cbn -[Z.add Z.mul]; lia|].

(** The tests of an event that is no string fail, all of them. *)
Ltac no_string := cbn -[Z.add Z.mul]; lia.

Lemma count_play_consistent (s s' : BvpStats) (play : Play) :
  consistent s -> count_play s play = Ret s' -> consistent s'.
Proof.
  unfold consistent, count_play, plus_assign. intro H.
  destruct (truthy (eventType play)); [|now intros [= <-]].
  cbn [negb].
  destruct (convertible (or_else (rbi play) (VNum 0%float)));
    [|discriminate].
  cbn [bind]. intros [= <-].
  cbn [pa ab hits home_runs strikeouts walks rbi_total total_bases NON_AB
       existsb].
  destruct (eventType play) as [| |b|x|result|xs|fs]; try no_string.
  cbn [strict_eq].
  event result "single". event result "double". event result "triple".
  event result "home_run". event result "strikeout". event result "walk".
  destruct (String.eqb result "hit_by_pitch"), (String.eqb result "sac_bunt"),
    (String.eqb result "sac_fly"), (String.eqb result "catcher_interf");
    cbn -[Z.add Z.mul]; lia.
Qed.

Lemma count_plays_consistent (plays : list Play) (s s' : BvpStats) :
  consistent s -> count_plays plays s = Ret s' -> consistent s'.
Proof.
  revert s. induction plays as [|p plays IH]; intros s H; cbn [count_plays].
  - now intros [= <-].
  - destruct (count_play s p) as [t|] eqn:E; [|discriminate].
    cbn [bind]. apply IH. exact (count_play_consistent s t p H E).
Qed.

(** X19.  The totals of a matchup are consistent, whatever the plays: home
    runs are hits, hits and strikeouts are at-bats, at-bats and walks are
    plate appearances, and the total bases lie between one and four per hit,
    with four for every home run. *)
Theorem computeBvpStats_consistent (batterId pitcherId : option Z)
    (allPlays : list Play) (s : BvpStats) :
  computeBvpStats batterId pitcherId allPlays = Ret (Some s) -> consistent s.
Proof.
  unfold computeBvpStats.
  destruct (filter (relevant batterId pitcherId) allPlays) as [|p ps];
    [discriminate|].
  destruct (count_plays (p :: ps) zero) as [t|] eqn:E; [|discriminate].
  cbn [bind]. intros [= <-].
  apply (count_plays_consistent (p :: ps) zero t); [|exact E].
  unfold consistent, zero. cbn -[Z.add Z.mul]. lia.
Qed.

Lemma computeBvpStats_consistent_witness :
  computeBvpStats (Some 660271) (Some 543037)
    (double_pa :: walk_pa :: later_plays)
  = Ret (Some (mkBvp 3 2 1 0 1 1 (VNum 1) 2))
  /\ consistent (mkBvp 3 2 1 0 1 1 (VNum 1) 2).
Proof.
  assert (computeBvpStats (Some 660271) (Some 543037)
            (double_pa :: walk_pa :: later_plays)
          = Ret (Some (mkBvp 3 2 1 0 1 1 (VNum 1) 2))) as E by reflexivity.
  split; [exact E|].
  exact (computeBvpStats_consistent _ _ _ _ E).
Defined.

End BvpTotalsFacts.

Module BvpBackfillFacts.
Import JsNumber Js Bvp BvpSpec ObjectUtils BvpBackfill BvpBackfillSpec.

Lemma find_some_starter (homeStarterId awayStarterId : option Z)
    (batterId : Z) (allPlays : list Play) (p : Play) (id : Z) :
  find (fun p => same_id (batter p) (Some batterId)
                 && has_id (starters homeStarterId awayStarterId) (pitcher p))
    allPlays = Some p ->
  pitcher p = Some id ->
  Some id = homeStarterId \/ Some id = awayStarterId.
Proof.
  intros F P. apply find_some in F. destruct F as [_ F].
  apply andb_true_iff in F. destruct F as [_ F].
  rewrite P in F. unfold has_id, starters in F. cbn [filter] in F.
  destruct homeStarterId as [h|], awayStarterId as [a|]; cbn in F.
  - destruct (negb (h =? 0)), (negb (a =? 0)); cbn in F;
      rewrite ?orb_false_r in F; try discriminate;
      try (apply orb_true_iff in F; destruct F as [F | F]);
      apply Z.eqb_eq in F; subst; auto.
  - destruct (negb (h =? 0)); cbn in F; rewrite ?orb_false_r in F;
      try discriminate. apply Z.eqb_eq in F; subst; auto.
  - destruct (negb (a =? 0)); cbn in F; rewrite ?orb_false_r in F;
      try discriminate. apply Z.eqb_eq in F; subst; auto.
  - discriminate.
Qed.

(** The pitcher chosen is one of the two starters. *)
Lemma choosePitcher_starter (homeStarterId awayStarterId : option Z)
    (homeBatters awayBatters : list Z) (batterId : Z) (allPlays : list Play)
    (id : Z) :
  choosePitcher homeStarterId awayStarterId homeBatters awayBatters batterId
    allPlays = Some id ->
  Some id = homeStarterId \/ Some id = awayStarterId.
Proof.
  unfold choosePitcher.
  set (default := if existsb (Z.eqb batterId) homeBatters then awayStarterId
                  else if existsb (Z.eqb batterId) awayBatters
                       then homeStarterId else None).
  assert (default = Some id ->
          Some id = homeStarterId \/ Some id = awayStarterId) as D.
  { unfold default.
    destruct (existsb (Z.eqb batterId) homeBatters); [auto|].
    destruct (existsb (Z.eqb batterId) awayBatters); [auto | discriminate]. }
  destruct (find _ allPlays) as [p|] eqn:F; [|exact D].
  destruct (pitcher p) as [q|] eqn:P; [|exact D].
  intros [= ->]. exact (find_some_starter _ _ _ _ _ _ F P).
Qed.

Lemma starter_has_id (homeStarterId awayStarterId : option Z) (id : Z) :
  id <> 0 ->
  Some id = homeStarterId \/ Some id = awayStarterId ->
  has_id (starters homeStarterId awayStarterId) (Some id) = true.
Proof.
  intros N [<- | <-]; unfold has_id, starters; cbn [filter truthy_id].
  - apply Z.eqb_neq in N. rewrite N. cbn. now rewrite Z.eqb_refl.
  - apply Z.eqb_neq in N. rewrite N. cbn [negb].
    destruct (truthy_id homeStarterId); cbn; rewrite Z.eqb_refl;
      now rewrite ?orb_true_r.
Qed.

Lemma find_none_no_play (homeStarterId awayStarterId : option Z)
    (batterId id : Z) (allPlays : list Play) :
  find (fun p => same_id (batter p) (Some batterId)
                 && has_id (starters homeStarterId awayStarterId) (pitcher p))
    allPlays = None ->
  has_id (starters homeStarterId awayStarterId) (Some id) = true ->
  filter (relevant (Some batterId) (Some id)) allPlays = [].
Proof.
  intros F H. induction allPlays as [|p ps IH]; [reflexivity|].
  cbn [find] in F. cbn [filter].
  destruct (same_id (batter p) (Some batterId)
            && has_id (starters homeStarterId awayStarterId) (pitcher p)) eqn:E;
    [discriminate|].
  rewrite (IH F).
  unfold relevant.
  destruct (same_id (batter p) (Some batterId)) eqn:B; [|reflexivity].
  cbn [andb] in E |- *.
  destruct (same_id (pitcher p) (Some id)) eqn:P; [|reflexivity].
  destruct (pitcher p) as [q|]; [|discriminate P].
  cbn in P. apply Z.eqb_eq in P. subst q. congruence.
Qed.

(** X20.  What [processGame] caches for a batter. The pitcher is one of the
    two starters of the game, never a reliever, and the totals are those of
    the batter against that starter. The pairing by team membership, which
    applies when the batter has no play against a starter, never comes with
    totals. *)
Theorem cachedBvp_pairs_with_a_starter (homeStarterId awayStarterId : option Z)
    (homeBatters awayBatters : list Z) (batterId : Z) (allPlays : list Play)
    (pitcherId : Z) (stats : option BvpStats) :
  cachedBvp homeStarterId awayStarterId homeBatters awayBatters batterId
    allPlays = Ret (Some (pitcherId, stats)) ->
  pitcherId <> 0
  /\ (Some pitcherId = homeStarterId \/ Some pitcherId = awayStarterId)
  /\ computeBvpStats (Some batterId) (Some pitcherId) allPlays = Ret stats
  /\ (find (fun p => same_id (batter p) (Some batterId)
                     && has_id (starters homeStarterId awayStarterId)
                          (pitcher p))
        allPlays = None ->
      stats = None).
Proof.
  unfold cachedBvp.
  destruct (choosePitcher _ _ _ _ _ _) as [id|] eqn:C; [|discriminate].
  destruct (Z.eqb_spec id 0) as [|N]; [discriminate|].
  destruct (computeBvpStats (Some batterId) (Some id) allPlays) as [st|] eqn:E;
    [|discriminate].
  cbn [bind]. intros [= <- <-].
  pose proof (choosePitcher_starter _ _ _ _ _ _ _ C) as S.
  repeat split; auto.
  intro F. unfold computeBvpStats in E.
  rewrite (find_none_no_play _ _ _ id _ F (starter_has_id _ _ _ N S)) in E.
  now injection E as <-.
Qed.

Lemma cachedBvp_pairs_with_a_starter_witness :
  cachedBvp (Some 543037) (Some 605483) [592450] [660271] 660271
    (double_pa :: walk_pa :: later_plays)
  = Ret (Some (543037, Some (mkBvp 3 2 1 0 1 1 (VNum 1) 2)))
  /\ (Some 543037 = Some 543037 \/ Some 543037 = Some 605483).
Proof.
  assert (cachedBvp (Some 543037) (Some 605483) [592450] [660271] 660271
            (double_pa :: walk_pa :: later_plays)
          = Ret (Some (543037, Some (mkBvp 3 2 1 0 1 1 (VNum 1) 2)))) as E
    by reflexivity.
  split; [exact E|].
  exact (proj1 (proj2 (cachedBvp_pairs_with_a_starter _ _ _ _ _ _ _ _ E))).
Defined.

Lemma lookup_assign (k k' : string) (v : value) (l : list (string * value)) :
  lookup k (assign k' v l) = if String.eqb k k' then v else lookup k l.
Proof.
  induction l as [|[k0 v0] l IH]; cbn [assign lookup]; [reflexivity|].
  destruct (String.eqb_spec k' k0) as [<- | N]; cbn [lookup].
  - now destruct (String.eqb k k').
  - rewrite IH. destruct (String.eqb_spec k k0) as [-> | N0]; [|reflexivity].
    destruct (String.eqb_spec k0 k'); [congruence | reflexivity].
Qed.

Lemma length_assign (k : string) (v : value) (l : list (string * value)) :
  List.length (assign k v l)
  = if existsb (String.eqb k) (map fst l) then List.length l
    else S (List.length l).
Proof.
  induction l as [|[k0 v0] l IH]; cbn [assign map fst existsb List.length];
    [reflexivity|].
  destruct (String.eqb k k0); cbn [orb List.length]; [reflexivity|].
  rewrite IH. now destruct (existsb (String.eqb k) (map fst l)).
Qed.

Lemma keys_assign (k k' : string) (v : value) (l : list (string * value)) :
  existsb (String.eqb k) (map fst (assign k' v l))
  = String.eqb k k' || existsb (String.eqb k) (map fst l).
Proof.
  induction l as [|[k0 v0] l IH]; cbn [assign map fst existsb].
  - reflexivity.
  - destruct (String.eqb_spec k' k0) as [<- | N]; cbn [map fst existsb].
    + now destruct (String.eqb k k').
    + rewrite IH. now destruct (String.eqb k k'), (String.eqb k k0).
Qed.

(** The loop of the calls of [setIfMissing], over any columns. *)
Lemma fill_lookup (existing : value) (columns : list (string * value))
    (payload : list (string * value)) (k : string) :
  NoDup (map fst columns) ->
  lookup k
    (fold_left
       (fun payload column =>
          setIfMissing payload (fst column) (snd column)
            (get_own existing (fst column)))
       columns payload)
  = match find (fun column => String.eqb k (fst column)) columns with
    | Some column =>
        if missing (get_own existing (fst column))
        then snd column else lookup k payload
    | None => lookup k payload
    end.
Proof.
  revert payload. induction columns as [|c columns IH]; intros payload N;
    cbn [fold_left find]; [reflexivity|].
  inversion N as [|? ? Hc Hn]; subst. rewrite (IH _ Hn).
  assert (lookup k (setIfMissing payload (fst c) (snd c)
                      (get_own existing (fst c)))
          = if String.eqb k (fst c) && missing (get_own existing (fst c))
            then snd c else lookup k payload) as L.
  { unfold setIfMissing. fold (missing (get_own existing (fst c))).
    destruct (missing (get_own existing (fst c)));
      [rewrite lookup_assign | rewrite andb_false_r]; 
      now destruct (String.eqb k (fst c)). }
  destruct (String.eqb_spec k (fst c)) as [-> | Nk].
  - destruct (find _ columns) as [c'|] eqn:F.
    + exfalso. apply find_some in F. destruct F as [Hin E].
      apply String.eqb_eq in E. apply Hc. rewrite E. now apply in_map.
    + rewrite L. now destruct (missing (get_own existing (fst c))).
  - rewrite L. reflexivity.
Qed.

Lemma fill_length (existing : value) (columns : list (string * value))
    (payload : list (string * value)) :
  NoDup (map fst columns) ->
  Forall (fun column =>
            existsb (String.eqb (fst column)) (map fst payload) = false)
    columns ->
  List.length
    (fold_left
       (fun payload column =>
          setIfMissing payload (fst column) (snd column)
            (get_own existing (fst column)))
       columns payload)
  = (List.length payload
     + List.length
         (filter (fun column => missing (get_own existing (fst column)))
            columns))%nat.
Proof.
  revert payload. induction columns as [|c columns IH]; intros payload N F;
    cbn [fold_left filter]; [cbn; lia|].
  inversion N as [|? ? Hc Hn]; subst.
  inversion F as [|? ? Fc Fr]; subst.
  rewrite (IH _ Hn).
  - unfold setIfMissing. fold (missing (get_own existing (fst c))).
    destruct (missing (get_own existing (fst c))); cbn [List.length]; [|lia].
    rewrite length_assign, Fc. lia.
  - rewrite Forall_forall in Fr |- *. intros c' Hin.
    unfold setIfMissing.
    destruct (_ || _); [|now apply Fr].
    rewrite keys_assign, (Fr _ Hin), orb_false_r.
    apply String.eqb_neq. intros E. apply Hc. rewrite <- E. now apply in_map.
Qed.

Lemma filter_nonempty {A} (f : A -> bool) (l : list A) :
  (0 <? List.length (filter f l))%nat = existsb f l.
Proof.
  induction l as [|x l IH]; cbn [filter existsb]; [reflexivity|].
  destruct (f x); [reflexivity | exact IH].
Qed.

Lemma stat_columns_distinct (effective : BvpStats) :
  NoDup (map fst (stat_columns effective)).
Proof.
  cbn. repeat (apply NoDup_cons; [cbn; intuition discriminate|]).
  apply NoDup_nil.
Qed.

(** X21.  The upsert payload fills gaps and overwrites nothing. A column of
    the totals is in the payload, with the total computed, exactly when the
    row that exists has no value for it ([null], [undefined] or [NaN]); and
    the row is written ([changed]) exactly when there is such a column. *)
Theorem payload_fills_missing_only (gameId : value) (batterId pitcherId : Z)
    (effective : BvpStats) (existing : value) :
  Forall
    (fun column =>
       lookup (fst column)
         (buildUpsertPayload gameId batterId pitcherId effective existing)
       = if missing (get_own existing (fst column))
         then snd column else VUndefined)
    (stat_columns effective)
  /\ changed (buildUpsertPayload gameId batterId pitcherId effective existing)
     = existsb (fun column => missing (get_own existing (fst column)))
         (stat_columns effective).
Proof.
  pose proof (stat_columns_distinct effective) as N.
  unfold buildUpsertPayload, changed. split.
  - rewrite Forall_forall. intros c Hin.
    rewrite (fill_lookup existing _ _ (fst c) N).
    cbn in Hin.
    repeat (destruct Hin as [<- | Hin]; [reflexivity|]). contradiction.
  - rewrite fill_length; [| exact N |].
    + rewrite <- filter_nonempty. reflexivity.
    + repeat (apply Forall_cons; [reflexivity|]). apply Forall_nil.
Qed.

Example payload_of_partial_row :
  buildUpsertPayload (VNum 717465) 660271 543037
    (mkBvp 3 2 1 0 1 1 (VNum 1) 2) partial_row
  = [ ("game_id", VNum 717465); ("batter_id", VStr "660271");
      ("pitcher_id", VStr "543037");
      ("bvp_at_bats", VNum 2); ("bvp_hits", VNum 1);
      ("bvp_home_runs", VNum 0); ("bvp_strikeouts", VNum 1);
      ("bvp_walks", VNum 1); ("bvp_rbi", VNum 1);
      ("bvp_total_bases", VNum 2) ].
Proof. vm_compute. reflexivity. Qed.

End BvpBackfillFacts.

Module PlayerLookupFacts.
Import JsNumber Js PropUtils PlayerUtils StreakLookup PlayerLookupSpec
  ResolutionSpec.

Lemma cached_iff (key : string) (cache : list string) :
  existsb (String.eqb key) cache = true <-> In key cache.
Proof.
  rewrite existsb_exists. split.
  - intros [k [Hin E]]. apply String.eqb_eq in E. now subst.
  - intro Hin. exists key. split; [exact Hin | apply String.eqb_refl].
Qed.

(** X22.  [getStreaksForPlayer], for a player, prop type and source that
    convert to the strings of the key, returns without throwing and never
    returns a profile.  On a key that is in the cache it answers [null] and
    does not consult the store.  On a key that is not, it answers [null]
    when the store reports an error or no data, and puts the key into the
    cache; and it answers [undefined] when the store has the profile,
    leaving the cache as it is.  A miss is remembered for good: once a
    lookup has answered [null], every later lookup of the same player, prop
    type and source answers [null] without regard to the store, and leaves
    the cache as it is. *)
Theorem getStreaksForPlayer_never_a_profile (cache : list string)
    (store : reply) (player_id prop_type prop_source : value) (key : string) :
  cache_key player_id prop_type prop_source = Ret key ->
  exists answer cache',
    getStreaksForPlayer cache store player_id prop_type prop_source
    = Ret (answer, cache')
    /\ (answer = VNull \/ answer = VUndefined)
    /\ (In key cache -> answer = VNull /\ cache' = cache)
    /\ (~ In key cache ->
        (truthy (error store) = true \/ truthy (data store) = false ->
         answer = VNull /\ cache' = (cache ++ [key])%list)
        /\ (truthy (error store) = false -> truthy (data store) = true ->
            answer = VUndefined /\ cache' = cache))
    /\ (answer = VNull ->
        forall store',
          getStreaksForPlayer cache' store' player_id prop_type prop_source
          = Ret (VNull, cache')).
Proof.
  intro K. unfold getStreaksForPlayer. rewrite K. cbn [bind].
  pose proof (cached_iff key cache) as C.
  destruct (existsb (String.eqb key) cache) eqn:Hit.
  - exists VNull, cache. split; [reflexivity|]. split; [now left|].
    split; [now intros _|]. split.
    + intro N. exfalso. apply N, C. reflexivity.
    + intros _ store'. now rewrite Hit.
  - assert (~ In key cache) as N by (intro H; apply C in H; discriminate H).
    destruct (truthy (error store)) eqn:E; cbn [orb];
      [|destruct (truthy (data store)) eqn:D; cbn [negb]].
    + exists VNull, (cache ++ [key])%list.
      split; [reflexivity|]. split; [now left|].
      split; [intro H; now destruct (N H)|]. split.
      * intros _. split; [now intros _ | discriminate].
      * intros _ store'. rewrite existsb_app. cbn [existsb].
        now rewrite String.eqb_refl, orb_true_r.
    + exists VUndefined, cache.
      split; [reflexivity|]. split; [now right|].
      split; [intro H; now destruct (N H)|]. split.
      * intros _. split; [intros [H|H]; discriminate H | now intros _ _].
      * discriminate.
    + exists VNull, (cache ++ [key])%list.
      split; [reflexivity|]. split; [now left|].
      split; [intro H; now destruct (N H)|]. split.
      * intros _. split; [now intros _ | discriminate].
      * intros _ store'. rewrite existsb_app. cbn [existsb].
        now rewrite String.eqb_refl, orb_true_r.
Qed.

Lemma getStreaksForPlayer_never_a_profile_witness :
  cache_key (VStr "592450") (VStr "hits") VUndefined
  = Ret "592450:hits:mlb_api"
  /\ exists answer cache',
       getStreaksForPlayer [] no_rows (VStr "592450") (VStr "hits") VUndefined
       = Ret (answer, cache')
       /\ (answer = VNull \/ answer = VUndefined)
       /\ (In "592450:hits:mlb_api" [] -> answer = VNull /\ cache' = [])
       /\ (~ In "592450:hits:mlb_api" [] ->
           (truthy (error no_rows) = true \/ truthy (data no_rows) = false ->
            answer = VNull
            /\ cache' = ([] ++ ["592450:hits:mlb_api"])%list)
           /\ (truthy (error no_rows) = false ->
               truthy (data no_rows) = true ->
               answer = VUndefined /\ cache' = []))
       /\ (answer = VNull ->
           forall store',
             getStreaksForPlayer cache' store' (VStr "592450") (VStr "hits")
               VUndefined
             = Ret (VNull, cache')).
Proof.
  split; [reflexivity|].
  apply (getStreaksForPlayer_never_a_profile [] no_rows (VStr "592450")
           (VStr "hits") VUndefined "592450:hits:mlb_api").
  reflexivity.
Defined.

Example getStreaksForPlayer_sample :
  getStreaksForPlayer [] hot_profile (VStr "592450") (VStr "hits") VUndefined
  = Ret (VUndefined, [])
  /\ getStreaksForPlayer [] no_rows (VStr "592450") (VStr "hits") VUndefined
     = Ret (VNull, ["592450:hits:mlb_api"])
  /\ getStreaksForPlayer ["592450:hits:mlb_api"] hot_profile (VStr "592450")
       (VStr "hits") (VStr "mlb_api")
     = Ret (VNull, ["592450:hits:mlb_api"])
  /\ getStreaksForPlayer [] hot_profile (VObj [("toString", VNum 1)])
       (VStr "hits") VUndefined
     = Throw.
Proof. repeat split; reflexivity. Qed.

Lemma find_outcome_found (f : value -> outcome bool) (xs : list value)
    (v : value) :
  find_outcome f xs = Ret v -> v = VUndefined \/ f v = Ret true.
Proof.
  induction xs as [|x xs IH]; cbn [find_outcome].
  - intros [= <-]. now left.
  - destruct (f x) as [[|]|] eqn:E; cbn [bind]; [|exact IH|discriminate].
    intros [= <-]. now right.
Qed.

(** X23.  The box-score lookup returns the entry of the player asked for, or
    no entry: never the entry of another player. Identifiers are compared as
    text, so that the number 592450 and the string ["592450"] name the same
    player. *)
Theorem getPlayerStatsFromBoxscore_finds_the_player (boxscore : response)
    (player_id : value) :
  exists v,
    getPlayerStatsFromBoxscore boxscore player_id = Ret v
    /\ (v = VNull \/ v = VUndefined \/ entry_of_player player_id v).
Proof.
  unfold getPlayerStatsFromBoxscore.
  destruct boxscore as [[data|]|]; cbn [bind try_catch];
    try (exists VNull; split; [reflexivity | now left]).
  destruct (get data "teams") as [teams|]; cbn [bind try_catch];
    [|exists VNull; split; [reflexivity | now left]].
  destruct (find_outcome _ _) as [v|] eqn:F; cbn [try_catch];
    [|exists VNull; split; [reflexivity | now left]].
  exists v. split; [reflexivity|]. right.
  destruct (find_outcome_found _ _ _ F) as [-> | S]; [now left|]. right.
  unfold same_person in S.
  destruct (get v "person") as [person|] eqn:P; [|discriminate].
  cbn [bind] in S. injection S as S. apply String.eqb_eq in S.
  unfold entry_of_player, get_opt. unfold get in P.
  destruct (nullish v); [discriminate|]. injection P as <-. exact S.
Qed.

Example getPlayerStatsFromBoxscore_by_text :
  getPlayerStatsFromBoxscore (Ret (Some boxscore_without_stats)) (VStr "592450")
  = Ret (VObj [("person", VObj [("id", VNum 592450)])])
  /\ getPlayerStatsFromBoxscore (Ret (Some boxscore_without_stats))
       (VNum 592450)
     = Ret (VObj [("person", VObj [("id", VNum 592450)])]).
Proof. split; vm_compute; reflexivity. Qed.

End PlayerLookupFacts.

Module TallyFacts.
Import JsNumber Js PropUtils PlayerUtils Resolution ResolutionSpec TallySpec.

Lemma fold_outcome_app {S A} (f : S -> A -> outcome S) (xs ys : list A) (s : S) :
  fold_outcome f (xs ++ ys)%list s
  = (s' <- fold_outcome f xs s ;; fold_outcome f ys s').
Proof.
  revert s. induction xs as [|x xs IH]; intro s; cbn [app fold_outcome bind].
  - reflexivity.
  - destruct (f s x) as [s'|]; cbn [bind]; [apply IH | reflexivity].
Qed.

Lemma tally_play_not_involved (playerId play : value) (stats : tally) :
  not_involved playerId play -> tally_play playerId stats play = Ret stats.
Proof.
  intros [matchup [M [B P]]]. unfold tally_play. rewrite M. cbn [bind].
  rewrite B, P. cbn [bind]. now destruct stats.
Qed.

(** X24.  The tally of the plays counts the plays of the player only: a play
    in which the player neither bats nor pitches changes nothing, wherever
    it stands among the plays. *)
Theorem extractStatFromPlays_other_players (pre post : list value)
    (play playerId : value) :
  not_involved playerId play ->
  extractStatFromPlays (pre ++ play :: post)%list playerId
  = extractStatFromPlays (pre ++ post)%list playerId.
Proof.
  intro H. unfold extractStatFromPlays. rewrite !fold_outcome_app.
  destruct (fold_outcome (tally_play playerId) pre (mkTally [] [])) as [s|];
    [|reflexivity].
  cbn [bind fold_outcome]. now rewrite (tally_play_not_involved _ _ s H).
Qed.

Lemma extractStatFromPlays_other_players_witness :
  extractStatFromPlays
    ([play 592450 543037 "single"] ++ play 660271 543037 "home_run"
       :: [play 592450 543037 "strikeout"])%list (VNum 592450)
  = extractStatFromPlays
      ([play 592450 543037 "single"] ++ [play 592450 543037 "strikeout"])%list
      (VNum 592450).
Proof.
  apply (extractStatFromPlays_other_players
           [play 592450 543037 "single"] [play 592450 543037 "strikeout"]
           (play 660271 543037 "home_run") (VNum 592450)).
  eexists. split; [reflexivity|]. split; reflexivity.
Defined.

End TallyFacts.

Module AgreementFacts.
Import JsNumber Js PropUtils Resolution AgreementSpec.

(** X25.  The two extractors agree on the box score of the provider. For a
    prop type that is a single field of the batting or pitching sub-block, a
    finite number in that field is the value that both
    [extractStatForPropType] and [derivePropValue] return. *)
Theorem extractors_agree_on_provider_fields
    (label block field : string) (batting pitching : list (string * value))
    (n : float) :
  In (label, (block, field)) provider_field ->
  lookup field (if String.eqb block "batting" then batting else pitching)
  = VNum n ->
  PrimFloat.is_finite n = true ->
  let stats := VObj [("batting", VObj batting); ("pitching", VObj pitching)] in
  extractStatForPropType stats (VStr label) = Ret (VNum n)
  /\ derivePropValue (VStr label) stats = Ret (VNum n).
Proof.
  intros Hin L F. cbv zeta. unfold provider_field in Hin. cbn [In] in Hin.
  repeat (destruct Hin as [Hin | Hin];
          [ injection Hin as <- <- <-; cbn in L;
            split;
            [ unfold extractStatForPropType; cbn; rewrite ?L; cbn; rewrite ?L;
              cbn; now rewrite F
            | unfold derivePropValue; cbn; now rewrite L ] |]).
  contradiction.
Qed.

Lemma extractors_agree_on_provider_fields_witness :
  extractStatForPropType
    (VObj [ ("batting", VObj [("hits", VNum 2); ("rbi", VNum 3)]);
            ("pitching", VObj []) ]) (VStr "rbis")
  = Ret (VNum 3)
  /\ derivePropValue (VStr "rbis")
       (VObj [ ("batting", VObj [("hits", VNum 2); ("rbi", VNum 3)]);
               ("pitching", VObj []) ])
     = Ret (VNum 3).
Proof.
  apply (extractors_agree_on_provider_fields "rbis" "batting" "rbi"
           [("hits", VNum 2); ("rbi", VNum 3)] [] 3);
    [cbn; tauto | reflexivity | reflexivity].
Defined.

End AgreementFacts.

Module FrontendFacts.
Import JsNumber Js PropUtils Frontend FloatFacts.

Lemma eqb_sym (x y : float) : PrimFloat.eqb x y = PrimFloat.eqb y x.
Proof.
  rewrite !eqb_spec. unfold SFeqb.
  rewrite (SFcompare_antisym (Prim2SF x) (Prim2SF y)).
  now destruct (SFcompare (Prim2SF x) (Prim2SF y)) as [[| |]|].
Qed.

Lemma eqb_not_ltb (x y : float) :
  PrimFloat.eqb x y = true ->
  PrimFloat.ltb x y = false /\ PrimFloat.ltb y x = false.
Proof.
  intro E. split.
  - destruct (PrimFloat.ltb x y) eqn:L; [|reflexivity].
    apply ltb_not_eqb in L. congruence.
  - destruct (PrimFloat.ltb y x) eqn:L; [|reflexivity].
    apply ltb_not_eqb in L. rewrite eqb_sym in L. congruence.
Qed.

(** X26.  The two graders of the front end on a number against a line. Off
    the line they agree: [determineOutcome] returns the name of the status
    that [determineStatus] gives. On the line they differ: [determineStatus]
    says push, [determineOutcome] says loss, for over as for under. *)
Theorem determineOutcome_against_determineStatus (x l : float)
    (direction : string) :
  direction = "over" \/ direction = "under" ->
  (PrimFloat.eqb x l = true ->
   determineStatus (VNum x) (VNum l) (VStr direction) = Ret push
   /\ determineOutcome (VNum x) (VNum l) (VStr direction) = VStr "loss")
  /\ (PrimFloat.eqb x l = false ->
      exists st,
        determineStatus (VNum x) (VNum l) (VStr direction) = Ret st
        /\ (st = win \/ st = loss)
        /\ determineOutcome (VNum x) (VNum l) (VStr direction)
           = VStr (UpdateProps.status_string st)).
Proof.
  intros [-> | ->]; split; intro E;
    unfold determineStatus, determineOutcome, gt, lt;
    cbn; rewrite E.
  - destruct (eqb_not_ltb x l E) as [_ ->]. now split.
  - destruct (PrimFloat.ltb l x); eexists; (split; [reflexivity|]);
      split; auto.
  - destruct (eqb_not_ltb x l E) as [-> _]. now split.
  - destruct (PrimFloat.ltb x l); eexists; (split; [reflexivity|]);
      split; auto.
Qed.

Lemma determineOutcome_against_determineStatus_witness :
  determineStatus (VNum 2) (VNum 2) (VStr "under") = Ret push
  /\ determineOutcome (VNum 2) (VNum 2) (VStr "under") = VStr "loss".
Proof.
  apply (determineOutcome_against_determineStatus 2 2 "under");
    [now right | reflexivity].
Defined.

End FrontendFacts.

Module UpdateBatchFacts.
Import JsNumber Js PropUtils PlayerUtils Resolution UpdateProps UpdateBatch
  UpdatePropsSpec UpdateBatchSpec.

Lemma verdict_cases (gameStatus : value) (boxscore : response)
    (feed : outcome value) (updateFails : bool) (prop : PlayerProp)
    (v : verdict) (ws : list write) :
  updatePropStatus gameStatus boxscore feed updateFails prop = Ret (v, ws) ->
  (v_status v = "skipped" /\ ws = [])
  \/ (v_status v = "dnp" /\ List.length ws = 1%nat)
  \/ (v_status v = "error" /\ List.length ws = 1%nat)
  \/ (v_status v = "updated" /\ List.length ws = 1%nat
      /\ v_player_id v = Some (player_id prop)).
Proof.
  unfold updatePropStatus.
  destruct (negb (isGameFinal gameStatus)); [intros [= <- <-]; now left|].
  destruct (lt_zero (prop_value prop)); [intros [= <- <-]; now left|].
  destruct (resolveStatForPlayer _ _ _ _) as [r|]; [|discriminate]. cbn [bind].
  destruct (_ || _); [intros [= <- <-]; right; now left|].
  destruct (_ || _); [intros [= <- <-]; right; now left|].
  destruct (hasMeaningfulStats _) as [isValid|]; [|discriminate]. cbn [bind].
  destruct (didPlayerParticipate _) as [didPlay|]; [|discriminate]. cbn [bind].
  destruct (_ || _); [intros [= <- <-]; right; now left|].
  destruct (determineStatus _ _ _) as [st|]; [|discriminate]. cbn [bind].
  destruct updateFails; intros [= <- <-]; right; right; [left | right];
    now repeat split.
Qed.

Lemma set_add_nonempty (v : value) (set : list value) : set_add v set <> [].
Proof.
  unfold set_add. destruct (existsb (same_value_zero v) set) eqn:E.
  - destruct set; [discriminate E | discriminate].
  - destruct set; discriminate.
Qed.

Lemma set_add_Forall (P : value -> Prop) (v : value) (set : list value) :
  P v -> Forall P set -> Forall P (set_add v set).
Proof.
  intros Hv H. unfold set_add. destruct (existsb _ set); [exact H|].
  apply Forall_app. split; [exact H | now constructor].
Qed.

Lemma process_accounted (n : Z) (players : list value) (s : summary)
    (job : PlayerProp * answers) :
  accounted n players s ->
  accounted (n + 1) (players ++ [player_id (fst job)]) (process s job).
Proof.
  destruct job as [prop world]. unfold accounted, process. cbn [fst].
  intros (U & D & S & E & Sum & Sk & Lo & Hi & Aff & Ids).
  assert (Forall (fun pid => In pid (players ++ [player_id prop]))
            (affectedPlayerIds s)) as Ids'.
  { eapply Forall_impl; [|exact Ids]. intros pid H. apply in_or_app. now left. }
  destruct (updatePropStatus _ _ _ _ prop) as [[v ws]|] eqn:R.
  - destruct (verdict_cases _ _ _ _ _ _ _ R)
      as [[-> ->] | [[-> L] | [[-> L] | [-> [L P]]]]];
      cbn [String.eqb Ascii.eqb Bool.eqb updated dnp skipped error
           affectedPlayerIds skippedProps writes];
      rewrite ?length_app, ?app_nil_r, ?L; cbn [List.length];
      repeat split; try lia; try tauto; try exact Ids';
      try (intro H; exfalso; revert H; apply set_add_nonempty).
    rewrite P. apply set_add_Forall; [|exact Ids'].
    apply in_or_app. right. now left.
  - cbn [updated dnp skipped error affectedPlayerIds skippedProps writes].
    repeat split; try lia; try tauto; exact Ids'.
Qed.

Lemma fold_accounted (jobs : list (PlayerProp * answers)) (n : Z)
    (players : list value) (s : summary) :
  accounted n players s ->
  accounted (n + Z.of_nat (List.length jobs))
    (players ++ map (fun job => player_id (fst job)) jobs)
    (fold_left process jobs s).
Proof.
  revert n players s. induction jobs as [|job jobs IH]; intros n players s H.
  - cbn. now rewrite Z.add_0_r, app_nil_r.
  - cbn [fold_left map List.length].
    replace (n + Z.of_nat (S (List.length jobs)))
      with ((n + 1) + Z.of_nat (List.length jobs)) by lia.
    replace (players ++ player_id (fst job) :: map _ jobs)%list
      with ((players ++ [player_id (fst job)])
            ++ map (fun job => player_id (fst job)) jobs)%list
      by now rewrite <- app_assoc.
    apply IH. now apply process_accounted.
Qed.

(** X27.  [updatePropsBatch] accounts for every prop exactly once: the four
    counters add up to the number of props, an exception while a prop is
    processed counting as an error. Every prop skipped is kept with its
    reason; every prop updated or marked as not played has its write; the
    players collected are players of the props; and the cache of profiles is
    cleared only when asked for, and only when a prop was updated. *)
Theorem updatePropsBatch_accounts_for_every_prop
    (jobs : list (PlayerProp * answers)) (clearCache : bool) :
  accounted (Z.of_nat (List.length jobs))
    (map (fun job => player_id (fst job)) jobs)
    (fst (updatePropsBatch jobs clearCache))
  /\ (forall ids,
        snd (updatePropsBatch jobs clearCache) = Some ids ->
        clearCache = true
        /\ ids = affectedPlayerIds (fst (updatePropsBatch jobs clearCache))
        /\ 0 < updated (fst (updatePropsBatch jobs clearCache))).
Proof.
  assert (accounted (Z.of_nat (List.length jobs))
            (map (fun job => player_id (fst job)) jobs)
            (fold_left process jobs start)) as A.
  { apply (fold_accounted jobs 0 [] start).
    unfold accounted, start. cbn. repeat split; try lia; auto. }
  unfold updatePropsBatch. cbn [fst snd]. split; [exact A|].
  intros ids. destruct clearCache; [|discriminate]. cbn [andb].
  destruct (affectedPlayerIds (fold_left process jobs start)) as [|pid rest]
    eqn:E; [discriminate|].
  intros [= <-]. repeat split.
  destruct A as (U & _ & _ & _ & _ & _ & _ & _ & Aff & _).
  rewrite E in Aff. destruct Aff as [_ Aff].
  destruct (Z.eq_dec (updated (fold_left process jobs start)) 0) as [Z0|];
    [discriminate (Aff Z0) | lia].
Qed.

Example updatePropsBatch_sample :
  updatePropsBatch [(hits_over, final_game); (hits_over, live_game)] true
  = (mkSummary 1 0 1 0 [VNum 660271] [(hits_over, Some "game not final")]
       [Update (VNum 17) (VNum 1) "win" (VBool true)],
     Some [VNum 660271]).
Proof. vm_compute. reflexivity. Qed.

End UpdateBatchFacts.
